(** * The task board's client-side store (hooks/useTasks) and comment thread
      rendering (components/TasksDetailsModal), embedded shallowly.

    Conventions of the embedding:
    - JavaScript numbers that the code uses as counts, page numbers, offsets,
      limits and row ids are integers of [Z];
    - a nullable value ([string | null], [number | null]) is an [option];
    - a [Record<StatusKey, X>] is the three-field record [ByStatus X];
    - an asynchronous operation is a function from the state snapshot it reads
      ([stateRef.current]) and the backend's answers to the ordered list of
      effects it performs (reducer dispatches, remote calls, console errors);
      the store after the operation is the reducer folded over the dispatches. *)

From Stdlib Require Import List ZArith Bool String Ascii Lia PeanoNat.
From Stdlib Require Import DecimalString.
Import ListNotations.
Open Scope string_scope.
Open Scope list_scope.
Open Scope Z_scope.

Set Implicit Arguments.
Set Warnings "-register-all".

(** ** Status keys and per-status records *)

Inductive StatusKey : Type := ToDo | InProgress | Done.

Definition statusKeyArray : list StatusKey := [ToDo; InProgress; Done].

Record ByStatus (A : Type) : Type := mkByStatus {
  to_do : A;
  in_progress : A;
  done : A
}.

Definition get {A} (r : ByStatus A) (k : StatusKey) : A :=
  match k with
  | ToDo => to_do r
  | InProgress => in_progress r
  | Done => done r
  end.

(** [{ ...r, [k]: v }] *)
Definition set {A} (r : ByStatus A) (k : StatusKey) (v : A) : ByStatus A :=
  match k with
  | ToDo => mkByStatus v (in_progress r) (done r)
  | InProgress => mkByStatus (to_do r) v (done r)
  | Done => mkByStatus (to_do r) (in_progress r) v
  end.

Definition statusKeyToStatusLabel (key : StatusKey) : string :=
  match key with
  | ToDo => "To Do"
  | InProgress => "In Progress"
  | Done => "Done"
  end.

(** ** Tasks *)

(** Modelled from the spec: the [Task] type of [types/tasks] is not among the
    sources; the fields are those of the data model (id, title, description,
    status, category, subcategory, country, created_at). The store itself
    reads [id] and writes [status] only. *)
Record Task : Type := mkTask {
  id : Z;
  title : string;
  description : string;
  status : string;
  category : option string;
  subcategory : option string;
  country : option string;
  created_at : string
}.

(** [{ ...task, status: s }] *)
Definition with_status (t : Task) (s : string) : Task :=
  mkTask (id t) (title t) (description t) s
         (category t) (subcategory t) (country t) (created_at t).

(** [n.toString()] for an integer row id: the decimal numeral. *)
Definition toString (n : Z) : string := NilZero.string_of_int (Z.to_int n).

(** [(t) => t.id.toString() === taskId] *)
Definition has_id (taskId : string) (t : Task) : bool :=
  String.eqb (toString (id t)) taskId.

(** ** Store state, actions and the reducer *)

Record DateRange : Type := mkDateRange {
  dr_from : option string;
  dr_to : option string
}.

Record PriceRange : Type := mkPriceRange {
  pr_from : option Z;
  pr_to : option Z
}.

Record State : Type := mkState {
  tasksByStatus : ByStatus (list Task);
  statusFilter : option string;
  categoryFilter : option string;
  subcategoryFilter : option string;
  dateRange : DateRange;
  limit : option Z;
  pageByStatus : ByStatus Z;
  hasMoreByStatus : ByStatus bool;
  loading : bool;
  searchQuery : option string;
  totalCountByStatus : ByStatus Z;
  filtersChanged : bool;
  selectedCountries : list string;
  countryOptions : list string;
  hourlyBudgetType : option string;
  priceRange : PriceRange
}.

Inductive Action : Type :=
| SET_TASKS_BY_STATUS (payload : ByStatus (list Task))
| SET_STATUS_FILTER (payload : option string)
| SET_CATEGORY_FILTER (payload : option string)
| SET_SUBCATEGORY_FILTER (payload : option string)
| SET_DATE_RANGE (payload : DateRange)
| SET_LIMIT (payload : option Z)
| SET_PAGE_BY_STATUS (status : StatusKey) (page : Z)
| SET_HAS_MORE_BY_STATUS (status : StatusKey) (hasMore : bool)
| SET_LOADING (payload : bool)
| SET_SEARCH_QUERY (payload : option string)
| SET_TOTAL_COUNT_BY_STATUS (payload : ByStatus Z)
| RESET_PAGINATION
| SET_FILTERS_CHANGED (payload : bool)
| UPDATE_TASKS_FOR_STATUS (status : StatusKey) (tasks : list Task)
| SET_SELECTED_COUNTRIES (payload : list string)
| SET_COUNTRY_OPTIONS (payload : list string)
| SET_HOURLY_BUDGET_TYPE (payload : option string)
| SET_PRICE_RANGE (payload : PriceRange).

Definition initialState : State :=
  {| tasksByStatus := mkByStatus [] [] [];
     statusFilter := None;
     categoryFilter := None;
     subcategoryFilter := None;
     dateRange := mkDateRange None None;
     limit := None;
     loading := false;
     searchQuery := None;
     pageByStatus := mkByStatus 0 0 0;
     hasMoreByStatus := mkByStatus true true true;
     totalCountByStatus := mkByStatus 0 0 0;
     filtersChanged := false;
     selectedCountries := [];
     countryOptions := [];
     hourlyBudgetType := None;
     priceRange := mkPriceRange None None |}.

Definition reducer (state : State) (action : Action) : State :=
  match state with
  | mkState tbs sf cf scf dr lim pbs hmbs ld sq tcbs fc sc co hbt pr =>
    match action with
    | SET_TASKS_BY_STATUS p =>
        mkState p sf cf scf dr lim pbs hmbs ld sq tcbs fc sc co hbt pr
    | UPDATE_TASKS_FOR_STATUS k ts =>
        mkState (set tbs k ts) sf cf scf dr lim pbs hmbs ld sq tcbs fc sc co hbt pr
    | SET_STATUS_FILTER p =>
        mkState tbs p cf scf dr lim pbs hmbs ld sq tcbs true sc co hbt pr
    | SET_CATEGORY_FILTER p =>
        mkState tbs sf p scf dr lim pbs hmbs ld sq tcbs true sc co hbt pr
    | SET_SUBCATEGORY_FILTER p =>
        mkState tbs sf cf p dr lim pbs hmbs ld sq tcbs true sc co hbt pr
    | SET_DATE_RANGE p =>
        mkState tbs sf cf scf p lim pbs hmbs ld sq tcbs true sc co hbt pr
    | SET_LIMIT p =>
        mkState tbs sf cf scf dr p pbs hmbs ld sq tcbs true sc co hbt pr
    | SET_LOADING p =>
        mkState tbs sf cf scf dr lim pbs hmbs p sq tcbs fc sc co hbt pr
    | SET_SEARCH_QUERY p =>
        mkState tbs sf cf scf dr lim pbs hmbs ld p tcbs true sc co hbt pr
    | SET_PAGE_BY_STATUS k pg =>
        mkState tbs sf cf scf dr lim (set pbs k pg) hmbs ld sq tcbs fc sc co hbt pr
    | SET_HAS_MORE_BY_STATUS k hm =>
        mkState tbs sf cf scf dr lim pbs (set hmbs k hm) ld sq tcbs fc sc co hbt pr
    | SET_TOTAL_COUNT_BY_STATUS p =>
        mkState tbs sf cf scf dr lim pbs hmbs ld sq p fc sc co hbt pr
    | RESET_PAGINATION =>
        mkState (mkByStatus [] [] []) sf cf scf dr lim
                (mkByStatus 0 0 0) (mkByStatus true true true)
                ld sq tcbs fc sc co hbt pr
    | SET_FILTERS_CHANGED p =>
        mkState tbs sf cf scf dr lim pbs hmbs ld sq tcbs p sc co hbt pr
    | SET_SELECTED_COUNTRIES p =>
        mkState tbs sf cf scf dr lim pbs hmbs ld sq tcbs true p co hbt pr
    | SET_COUNTRY_OPTIONS p =>
        mkState tbs sf cf scf dr lim pbs hmbs ld sq tcbs fc sc p hbt pr
    | SET_HOURLY_BUDGET_TYPE p =>
        mkState tbs sf cf scf dr lim pbs hmbs ld sq tcbs true sc co p pr
    | SET_PRICE_RANGE p =>
        mkState tbs sf cf scf dr lim pbs hmbs ld sq tcbs true sc co hbt p
    end
  end.

(** ** Remote procedure calls and the backend *)

Record FetchArgs : Type := mkFetchArgs {
  fa_task_status : string;
  fa_category_filter : option string;
  fa_subcategory_filter : option string;
  fa_date_from : option string;
  fa_date_to : option string;
  fa_limit_count : Z;
  fa_offset_count : Z;
  fa_search_query : option string;
  fa_country_filter : option (list string);
  fa_hourly_budget_type : option string;
  fa_price_from : option Z;
  fa_price_to : option Z
}.

Record CountArgs : Type := mkCountArgs {
  ca_task_status : string;
  ca_category_filter : option string;
  ca_subcategory_filter : option string;
  ca_date_from : option string;
  ca_date_to : option string;
  ca_search_query : option string;
  ca_country_filter : option (list string);
  ca_hourly_budget_type : option string;
  ca_price_from : option Z;
  ca_price_to : option Z
}.

(** Parameters of the list procedure that the earlier variant of the hook
    calls. *)
Record TasksArgs : Type := mkTasksArgs {
  ta_task_status : string;
  ta_category_filter : option string;
  ta_subcategory_filter : option string;
  ta_date_from : option string;
  ta_date_to : option string;
  ta_limit_count : Z;
  ta_offset_count : Z;
  ta_search_query : option string
}.

(** The count query that the earlier variant builds on the projects table:
    [select("*", { count: "exact", head: true })] with [eq("status", ...)]
    and the filters it chains on. *)
Record CountQuery : Type := mkCountQuery {
  cq_status : string;
  cq_category : option string;
  cq_subcategory : option string;
  cq_created_at : option (string * string);
  cq_title_ilike : option string
}.

Inductive Rpc : Type :=
| get_task_by_status (args : FetchArgs)
| get_task_count_by_status (args : CountArgs)
| update_task_status (task_id : Z) (new_status : string)
| get_tasks_by_status (args : TasksArgs)
| count_projects (query : CountQuery).

(** The client library resolves every call to [{ data, error }]: either the
    data with a null error, or an error with null data. *)
Inductive Response (A : Type) : Type :=
| Success (data : A)
| Failure (error : string).
Arguments Failure {A} error.

(** The hosted backend is outside the program: it is the answers it gives. The
    count procedure may answer a null count, hence the [option]; of a count
    query the earlier variant reads only [count], a number or null. *)
Record Backend : Type := mkBackend {
  on_get_task_by_status : FetchArgs -> Response (list Task);
  on_get_task_count_by_status : CountArgs -> Response (option Z);
  on_update_task_status : Z -> string -> Response unit;
  on_get_tasks_by_status : TasksArgs -> Response (list Task);
  on_count_projects : CountQuery -> option Z
}.

(** ** Effects of an operation *)

Inductive Effect : Type :=
| Dispatch (a : Action)
| Remote (c : Rpc)
| ConsoleError (msg : string) (error : string).

(** An operation yields the effects it performed, in order, and its result. *)
Definition M (A : Type) : Type := (list Effect * A)%type.

Definition ret {A} (a : A) : M A := ([], a).

Definition effects {A} (m : M A) : list Effect := fst m.
Definition result {A} (m : M A) : A := snd m.

Definition bind {A B} (m : M A) (f : A -> M B) : M B :=
  (effects m ++ effects (f (result m)), result (f (result m))).

Notation "x <- m ;; k" := (bind m (fun x => k))
  (at level 61, m at next level, right associativity).
Notation "m ;; k" := (bind m (fun _ => k))
  (at level 61, right associativity).

Definition emit (e : Effect) : M unit := ([e], tt).
Definition dispatch (a : Action) : M unit := emit (Dispatch a).
Definition console_error (msg error : string) : M unit :=
  emit (ConsoleError msg error).

Fixpoint mapM {A B} (f : A -> M B) (l : list A) : M (list B) :=
  match l with
  | [] => ret []
  | a :: l' => b <- f a ;; bs <- mapM f l' ;; ret (b :: bs)
  end.

Fixpoint forEach {A} (f : A -> M unit) (l : list A) : M unit :=
  match l with
  | [] => ret tt
  | a :: l' => f a ;; forEach f l'
  end.

(** The store after an operation: the reducer folded over its dispatches. *)
Definition apply_effect (st : State) (e : Effect) : State :=
  match e with
  | Dispatch a => reducer st a
  | _ => st
  end.

Definition exec {A} (st : State) (m : M A) : State :=
  fold_left apply_effect (effects m) st.

Definition remote_calls_of (es : list Effect) : list Rpc :=
  flat_map (fun e => match e with Remote c => [c] | _ => [] end) es.

Definition remote_calls {A} (m : M A) : list Rpc := remote_calls_of (effects m).

Definition is_status_update (c : Rpc) : bool :=
  match c with update_task_status _ _ => true | _ => false end.

Definition fetch_calls_of (es : list Effect) : list FetchArgs :=
  flat_map (fun c => match c with get_task_by_status a => [a] | _ => [] end)
           (remote_calls_of es).

Definition fetch_calls {A} (m : M A) : list FetchArgs :=
  fetch_calls_of (effects m).

Definition count_calls_of (es : list Effect) : list CountArgs :=
  flat_map (fun c => match c with get_task_count_by_status a => [a] | _ => [] end)
           (remote_calls_of es).

(** ** The hook's operations *)

Definition PAGE_SIZE : Z := 10.

Definition setTasksByStatus (val : ByStatus (list Task)) : M unit :=
  dispatch (SET_TASKS_BY_STATUS val).
Definition setLoading (val : bool) : M unit := dispatch (SET_LOADING val).
Definition resetPagination : M unit := dispatch RESET_PAGINATION.
Definition setTotalCountByStatus (val : ByStatus Z) : M unit :=
  dispatch (SET_TOTAL_COUNT_BY_STATUS val).
Definition setFiltersChanged (val : bool) : M unit :=
  dispatch (SET_FILTERS_CHANGED val).

(** [s.toUpperCase()], on the ASCII letters. *)
Definition upper_ascii (c : ascii) : ascii :=
  let n := nat_of_ascii c in
  if ((97 <=? n) && (n <=? 122))%nat then ascii_of_nat (n - 32) else c.

Fixpoint toUpperCase (s : string) : string :=
  match s with
  | EmptyString => EmptyString
  | String c s' => String (upper_ascii c) (toUpperCase s')
  end.

(** [countries.length > 0 ? countries : null] *)
Definition country_param (countries : list string) : option (list string) :=
  match countries with
  | [] => None
  | _ => Some countries
  end.

(** The parameters [getTaskCountByStatus] sends. *)
Definition count_args (status : string) (category subcategory : option string)
    (dateRange : DateRange) (searchQuery : option string)
    (selectedCountries : list string) (hourlyBudgetType : option string)
    (priceRange : PriceRange) : CountArgs :=
  {| ca_task_status := status;
     ca_category_filter := category;
     ca_subcategory_filter := subcategory;
     ca_date_from := dr_from dateRange;
     ca_date_to := dr_to dateRange;
     ca_search_query := searchQuery;
     ca_country_filter := country_param selectedCountries;
     ca_hourly_budget_type :=
       match hourlyBudgetType with
       | Some h => if String.eqb h "null" then Some "null"
                   else Some (toUpperCase h)
       | None => None
       end;
     ca_price_from := pr_from priceRange;
     ca_price_to := pr_to priceRange |}.

Definition getTaskCountByStatus (be : Backend)
    (status : string) (category subcategory : option string)
    (dateRange : DateRange) (searchQuery : option string)
    (selectedCountries : list string) (hourlyBudgetType : option string)
    (priceRange : PriceRange) : M Z :=
  let args := count_args status category subcategory dateRange searchQuery
                         selectedCountries hourlyBudgetType priceRange in
  emit (Remote (get_task_count_by_status args)) ;;
  match on_get_task_count_by_status be args with
  | Failure error =>
      console_error ("Count error for status " ++ status ++ ":")%string error ;;
      ret 0
  | Success data =>
      ret (match data with Some n => n | None => 0 end)
  end.

Record Filters : Type := mkFilters {
  f_categoryFilter : option string;
  f_subcategoryFilter : option string;
  f_dateRange : DateRange;
  f_searchQuery : option string;
  f_limit : option Z;
  f_offset : option Z;
  f_selectedCountries : list string;
  f_hourlyBudgetType : option string;
  f_priceFrom : option Z;
  f_priceTo : option Z
}.

(** The parameters [fetchTasksByStatus] sends. *)
Definition fetch_args (status : string) (filters : Filters) : FetchArgs :=
  let offset := match f_offset filters with Some o => o | None => 0 end in
  let effectiveLimit :=
    match f_limit filters with Some l => l | None => PAGE_SIZE end in
  let hourlyBudgetTypeParam :=
    match f_hourlyBudgetType filters with
    | Some h =>
        if String.eqb h "" then None
        else if String.eqb h "null" then Some "null"
        else Some (toUpperCase h)
    | None => None
    end in
  {| fa_task_status := status;
     fa_category_filter := f_categoryFilter filters;
     fa_subcategory_filter := f_subcategoryFilter filters;
     fa_date_from := dr_from (f_dateRange filters);
     fa_date_to := dr_to (f_dateRange filters);
     fa_limit_count := effectiveLimit;
     fa_offset_count := offset;
     fa_search_query := f_searchQuery filters;
     fa_country_filter := country_param (f_selectedCountries filters);
     fa_hourly_budget_type := hourlyBudgetTypeParam;
     fa_price_from := f_priceFrom filters;
     fa_price_to := f_priceTo filters |}.

(** With answers that are always [{ data, error }], the [catch] clause of the
    source is not reached. *)
Definition fetchTasksByStatus (be : Backend) (status : string)
    (filters : Filters) : M (list Task) :=
  let args := fetch_args status filters in
  emit (Remote (get_task_by_status args)) ;;
  match on_get_task_by_status be args with
  | Failure error =>
      console_error "Error fetching tasks:" error ;;
      ret []
  | Success data => ret data
  end.

(** [!statusFilter || statusFilter === label] *)
Definition applies_to (statusFilter : option string) (label : string) : bool :=
  match statusFilter with
  | None => true
  | Some s => String.eqb s "" || String.eqb s label
  end.

Definition fetchStatusWiseCounts (be : Backend) (currentState : State) : M unit :=
  let existingCounts := totalCountByStatus currentState in
  counts <- mapM (fun key =>
    let label := statusKeyToStatusLabel key in
    let isFilteredStatus := applies_to (statusFilter currentState) label in
    count <- getTaskCountByStatus be label
      (if isFilteredStatus then categoryFilter currentState else None)
      (if isFilteredStatus then subcategoryFilter currentState else None)
      (if isFilteredStatus then dateRange currentState else mkDateRange None None)
      (if isFilteredStatus then searchQuery currentState else None)
      (if isFilteredStatus then selectedCountries currentState else [])
      (if isFilteredStatus then hourlyBudgetType currentState else None)
      (if isFilteredStatus then priceRange currentState else mkPriceRange None None) ;;
    ret (key, count)) statusKeyArray ;;
  let updatedCounts :=
    fold_left (fun acc kc => set acc (fst kc) (snd kc)) counts existingCounts in
  setTotalCountByStatus updatedCounts.

(** The filtered query parameters that [loadMoreTasks] builds for one status. *)
Definition filtered_for (currentState : State) (label : string) (offset : Z)
  : Filters :=
  let shouldApplyFilters := applies_to (statusFilter currentState) label in
  {| f_categoryFilter :=
       if shouldApplyFilters then categoryFilter currentState else None;
     f_subcategoryFilter :=
       if shouldApplyFilters then subcategoryFilter currentState else None;
     f_dateRange :=
       if shouldApplyFilters then dateRange currentState
       else mkDateRange None None;
     f_searchQuery :=
       if shouldApplyFilters then searchQuery currentState else None;
     f_limit :=
       Some (match limit currentState with Some l => l | None => PAGE_SIZE end);
     f_offset := Some offset;
     f_selectedCountries :=
       if shouldApplyFilters then selectedCountries currentState else [];
     f_hourlyBudgetType :=
       if shouldApplyFilters then hourlyBudgetType currentState else None;
     f_priceFrom :=
       if shouldApplyFilters then pr_from (priceRange currentState) else None;
     f_priceTo :=
       if shouldApplyFilters then pr_to (priceRange currentState) else None |}.

Definition effectiveLimit_of (currentState : State) : Z :=
  match limit currentState with Some l => l | None => PAGE_SIZE end.

(** The [for ... break] loop that computes [shouldLoadMore]. *)
Definition shouldLoadMore_of (currentState : State) (reset : bool)
    (statuses : list StatusKey) : bool :=
  existsb (fun key =>
    let currentCount :=
      Z.of_nat (List.length (get (tasksByStatus currentState) key)) in
    let totalCount := get (totalCountByStatus currentState) key in
    reset || ((currentCount <? totalCount)
              && get (hasMoreByStatus currentState) key)) statuses.

Definition statuses_of (specificStatus : option StatusKey) : list StatusKey :=
  match specificStatus with
  | Some k => [k]
  | None => statusKeyArray
  end.

(** [loadMoreTasks(reset, specificStatus)]. The fetches of [statuses.map] are
    issued in order; their continuations (the three dispatches of a non-reset
    load) are taken in the same order. *)
Definition loadMoreTasks (be : Backend) (currentState : State)
    (reset : bool) (specificStatus : option StatusKey) : M unit :=
  if loading currentState && negb reset then ret tt else
  let statuses := statuses_of specificStatus in
  let shouldLoadMore := shouldLoadMore_of currentState reset statuses in
  if negb shouldLoadMore && negb reset then ret tt else
  setLoading true ;;
  let effectiveLimit := effectiveLimit_of currentState in
  results <- mapM (fun key =>
    let label := statusKeyToStatusLabel key in
    let page := if reset then 0 else get (pageByStatus currentState) key in
    let offset := page * effectiveLimit in
    tasks <- fetchTasksByStatus be label (filtered_for currentState label offset) ;;
    ret (key, tasks, page)) statuses ;;
  (if reset then ret tt else
     forEach (fun r =>
       let '(key, tasks, page) := r in
       let existingTasks := get (tasksByStatus currentState) key in
       dispatch (UPDATE_TASKS_FOR_STATUS key (existingTasks ++ tasks)) ;;
       dispatch (SET_PAGE_BY_STATUS key (page + 1)) ;;
       dispatch (SET_HAS_MORE_BY_STATUS key
                   (Z.of_nat (List.length tasks) =? effectiveLimit))) results) ;;
  (if reset then
     forEach (fun r =>
       let '(key, tasks, _) := r in
       dispatch (SET_PAGE_BY_STATUS key 1) ;;
       dispatch (SET_HAS_MORE_BY_STATUS key
                   (Z.of_nat (List.length tasks) =? effectiveLimit))) results ;;
     let newTasksByStatus :=
       fold_left (fun acc r => let '(key, tasks, _) := r in set acc key tasks)
                 results (mkByStatus [] [] []) in
     setTasksByStatus newTasksByStatus
   else ret tt) ;;
  setLoading false ;;
  (if reset then setFiltersChanged false else ret tt).

Definition findColumnOfTask (currentState : State) (taskId : string)
  : option StatusKey :=
  find (fun key => existsb (has_id taskId) (get (tasksByStatus currentState) key))
       statusKeyArray.

(** [arr.splice(start, 0, item)]: a negative [start] counts from the end, and
    the position is clamped to the array. *)
Definition splice_insert {A} (arr : list A) (start : Z) (item : A) : list A :=
  let len := Z.of_nat (List.length arr) in
  let i := if start <? 0 then Z.max (len + start) 0 else Z.min start len in
  firstn (Z.to_nat i) arr ++ item :: skipn (Z.to_nat i) arr.

Definition without_id (taskId : string) (l : list Task) : list Task :=
  filter (fun t => negb (has_id taskId t)) l.

(** The task lists that [moveTask] hands to [setTasksByStatus]. *)
Definition moved_lists (tbs : ByStatus (list Task)) (task : Task)
    (taskId : string) (sourceCol destCol : StatusKey) (destIndex : Z)
  : ByStatus (list Task) :=
  let newSourceTasks := without_id taskId (get tbs sourceCol) in
  let updatedTask := with_status task (statusKeyToStatusLabel destCol) in
  let newDestTasks :=
    splice_insert (without_id taskId (get tbs destCol)) destIndex updatedTask in
  set (set tbs sourceCol newSourceTasks) destCol newDestTasks.

(** [moveTask(taskId, sourceCol, destCol, destIndex)]. The count refresh runs
    after the awaited status update, on the store that holds the moved lists. *)
Definition moveTask (be : Backend) (currentState : State) (taskId : string)
    (sourceCol destCol : StatusKey) (destIndex : Z) : M unit :=
  match find (has_id taskId) (get (tasksByStatus currentState) sourceCol) with
  | None => ret tt
  | Some task =>
      let updatedTask := with_status task (statusKeyToStatusLabel destCol) in
      let moved :=
        moved_lists (tasksByStatus currentState) task taskId
                    sourceCol destCol destIndex in
      setTasksByStatus moved ;;
      emit (Remote (update_task_status (id task) (status updatedTask))) ;;
      match on_update_task_status be (id task) (status updatedTask) with
      | Failure error => console_error "Failed to update task status:" error
      | Success _ => ret tt
      end ;;
      fetchStatusWiseCounts be (reducer currentState (SET_TASKS_BY_STATUS moved))
  end.

(** A reset-reload: what the realtime handler and the filter effect start,
    [loadMoreTasks(true)] and [fetchStatusWiseCounts()] on one snapshot. The
    two are not awaited on each other; their dispatches write disjoint fields,
    so the order in which they are listed here does not affect the store. *)
Definition reset_reload (be : Backend) (currentState : State) : M unit :=
  loadMoreTasks be currentState true None ;;
  fetchStatusWiseCounts be currentState.

(** The function that [handleRealtimeUpdate] wraps in [debounce]. *)
Definition handleRealtimeUpdate (be : Backend) (currentState : State)
  : M unit :=
  if negb (loading currentState) then reset_reload be currentState
  else ret tt.

(** Body of the effect that watches the filter values. *)
Definition filtersChanged_effect (be : Backend) (state : State) : M unit :=
  if filtersChanged state then
    resetPagination ;;
    loadMoreTasks be state true None ;;
    fetchStatusWiseCounts be state
  else ret tt.

(** ** The earlier variant of the hook *)

(** The sources also hold an earlier [useTasks], without [stateRef], the
    [filtersChanged] flag and the country, budget and price filters. Its
    [loadMoreTasks] reads the state of the render that created it. The
    dispatches it makes act on the fields the two reducers share, so the
    store type and reducer above serve for it. *)
Module Legacy.

Definition pageSize : Z := 10.

Record Filters : Type := mkFilters {
  f_categoryFilter : option string;
  f_subcategoryFilter : option string;
  f_dateRange : DateRange;
  f_searchQuery : option string;
  f_limit : option Z;
  f_offset : option Z
}.

(** The parameters [fetchTasksByStatus] sends. *)
Definition tasks_args (state : State) (status : string) (filters : Filters)
  : TasksArgs :=
  let offset := match f_offset filters with Some o => o | None => 0 end in
  let limitCount :=
    match f_limit filters with
    | Some l => l
    | None => match limit state with Some l => l | None => pageSize end
    end in
  {| ta_task_status := status;
     ta_category_filter := f_categoryFilter filters;
     ta_subcategory_filter := f_subcategoryFilter filters;
     ta_date_from := dr_from (f_dateRange filters);
     ta_date_to := dr_to (f_dateRange filters);
     ta_limit_count := limitCount;
     ta_offset_count := offset;
     ta_search_query := f_searchQuery filters |}.

Definition fetchTasksByStatus (be : Backend) (state : State) (status : string)
    (filters : Filters) : M (list Task) :=
  let args := tasks_args state status filters in
  emit (Remote (get_tasks_by_status args)) ;;
  match on_get_tasks_by_status be args with
  | Success data => ret data
  | Failure _ => ret []
  end.

(** [{ ...filtered, limit: state.limit, offset }] for one status. *)
Definition filtered_for (state : State) (label : string) (offset : Z)
  : Filters :=
  if applies_to (statusFilter state) label
  then mkFilters (categoryFilter state) (subcategoryFilter state)
                 (dateRange state) (searchQuery state)
                 (limit state) (Some offset)
  else mkFilters None None (mkDateRange None None) None
                 (limit state) (Some offset).

Definition loadMoreTasks (be : Backend) (state : State)
    (reset : bool) (specificStatus : option StatusKey) : M unit :=
  setLoading true ;;
  let statuses := statuses_of specificStatus in
  let initial :=
    if reset then mkByStatus [] [] [] else tasksByStatus state in
  results <- mapM (fun key =>
    let label := statusKeyToStatusLabel key in
    let page := if reset then 0 else get (pageByStatus state) key in
    let offset :=
      page * match limit state with Some l => l | None => pageSize end in
    fetched <- fetchTasksByStatus be state label
                 (filtered_for state label offset) ;;
    dispatch (SET_PAGE_BY_STATUS key (page + 1)) ;;
    dispatch (SET_HAS_MORE_BY_STATUS key
                (0 <? Z.of_nat (List.length fetched))) ;;
    ret (key,
         if reset then fetched
         else get (tasksByStatus state) key ++ fetched)) statuses ;;
  let newTasksByStatus :=
    fold_left (fun acc r => set acc (fst r) (snd r)) results initial in
  setTasksByStatus newTasksByStatus ;;
  setLoading false.

(** The parameters of the list fetch a load makes for one status, and the
    page it receives. *)
Definition load_args (state : State) (reset : bool) (key : StatusKey)
  : TasksArgs :=
  let label := statusKeyToStatusLabel key in
  let page := if reset then 0 else get (pageByStatus state) key in
  let offset :=
    page * match limit state with Some l => l | None => pageSize end in
  tasks_args state label (filtered_for state label offset).

Definition fetched_page (be : Backend) (state : State) (reset : bool)
    (key : StatusKey) : list Task :=
  let label := statusKeyToStatusLabel key in
  let page := if reset then 0 else get (pageByStatus state) key in
  let offset :=
    page * match limit state with Some l => l | None => pageSize end in
  result (fetchTasksByStatus be state label (filtered_for state label offset)).

(** [if (value)] on a [string | null]: null and the empty string are falsy. *)
Definition given (value : option string) : option string :=
  match value with
  | Some "" => None
  | _ => value
  end.

(** The query that [fetchStatusWiseCounts] builds for one status. *)
Definition count_query (state : State) (label : string) : CountQuery :=
  if applies_to (statusFilter state) label then
    {| cq_status := label;
       cq_category := given (categoryFilter state);
       cq_subcategory := given (subcategoryFilter state);
       cq_created_at :=
         match given (dr_from (dateRange state)),
               given (dr_to (dateRange state)) with
         | Some date_from, Some date_to => Some (date_from, date_to)
         | _, _ => None
         end;
       cq_title_ilike :=
         match given (searchQuery state) with
         | Some q => Some ("%" ++ q ++ "%")%string
         | None => None
         end |}
  else mkCountQuery label None None None None.

(** The queries are awaited one after the other; a count that is not a
    number leaves the 0 the status started with. *)
Definition fetchStatusWiseCounts (be : Backend) (state : State) : M unit :=
  answers <- mapM (fun key =>
    let query := count_query state (statusKeyToStatusLabel key) in
    emit (Remote (count_projects query)) ;;
    ret (key, on_count_projects be query)) statusKeyArray ;;
  let counts :=
    fold_left (fun acc kc =>
                 match snd kc with
                 | Some count => set acc (fst kc) count
                 | None => acc
                 end) answers (mkByStatus 0 0 0) in
  setTotalCountByStatus counts.

Definition REALTIME_WAIT : Z := 300.

(** The function that [debouncedRealtimeUpdate] wraps in [debounce]; neither
    call is awaited, and their dispatches write disjoint fields. *)
Definition debouncedRealtimeUpdate (be : Backend) (state : State) : M unit :=
  loadMoreTasks be state true None ;;
  fetchStatusWiseCounts be state.

End Legacy.

(** ** The hook between renders *)

(** The values the filter effect lists as dependencies; the callbacks among
    its dependencies are memoised on constant inputs and never change. *)
Definition FilterDeps : Type :=
  (option string * option string * option string * DateRange * option string
   * option Z * list string * option string * PriceRange)%type.

Definition filter_deps (st : State) : FilterDeps :=
  (statusFilter st, categoryFilter st, subcategoryFilter st, dateRange st,
   searchQuery st, limit st, selectedCountries st, hourlyBudgetType st,
   priceRange st).

Definition FilterDeps_eq_dec (a b : FilterDeps) : {a = b} + {a <> b}.
Proof.
  repeat decide equality; try apply string_dec; apply Z.eq_dec.
Defined.

(** After a render, the effect body runs when a dependency differs from the
    previous render's. *)
Definition after_render (be : Backend) (prev cur : State) : M unit :=
  if FilterDeps_eq_dec (filter_deps prev) (filter_deps cur) then ret tt
  else filtersChanged_effect be cur.

(** The nine filter setters the hook exports, with the value they are given. *)
Inductive FilterSetter : Type :=
| setStatusFilter (val : option string)
| setCategoryFilter (val : option string)
| setSubcategoryFilter (val : option string)
| setDateRange (val : DateRange)
| setLimit (val : option Z)
| setSearchQuery (val : option string)
| setSelectedCountries (countries : list string)
| setHourlyBudgetType (val : option string)
| setPriceRange (val : PriceRange).

Definition setter_action (f : FilterSetter) : Action :=
  match f with
  | setStatusFilter v => SET_STATUS_FILTER v
  | setCategoryFilter v => SET_CATEGORY_FILTER v
  | setSubcategoryFilter v => SET_SUBCATEGORY_FILTER v
  | setDateRange v => SET_DATE_RANGE v
  | setLimit v => SET_LIMIT v
  | setSearchQuery v => SET_SEARCH_QUERY v
  | setSelectedCountries v => SET_SELECTED_COUNTRIES v
  | setHourlyBudgetType v => SET_HOURLY_BUDGET_TYPE v
  | setPriceRange v => SET_PRICE_RANGE v
  end.

(** The setter is given a value other than the field's current one. *)
Definition changes_field (st : State) (f : FilterSetter) : Prop :=
  match f with
  | setStatusFilter v => v <> statusFilter st
  | setCategoryFilter v => v <> categoryFilter st
  | setSubcategoryFilter v => v <> subcategoryFilter st
  | setDateRange v => v <> dateRange st
  | setLimit v => v <> limit st
  | setSearchQuery v => v <> searchQuery st
  | setSelectedCountries v => v <> selectedCountries st
  | setHourlyBudgetType v => v <> hourlyBudgetType st
  | setPriceRange v => v <> priceRange st
  end.

(** A non-reset [loadMoreTasks] call, with the backend as it answers then. *)
Record LoadCall : Type := mkLoadCall {
  lc_backend : Backend;
  lc_specificStatus : option StatusKey
}.

Fixpoint run_loads (st : State) (calls : list LoadCall) : State :=
  match calls with
  | [] => st
  | c :: rest =>
      run_loads
        (exec st (loadMoreTasks (lc_backend c) st false (lc_specificStatus c)))
        rest
  end.

(** The page a load receives for one status, and the count a refresh
    receives, as functions of the snapshot the operation reads. *)
Definition fetched_page (be : Backend) (cur : State) (reset : bool)
    (key : StatusKey) : list Task :=
  let label := statusKeyToStatusLabel key in
  let page := if reset then 0 else get (pageByStatus cur) key in
  result (fetchTasksByStatus be label
            (filtered_for cur label (page * effectiveLimit_of cur))).

Definition counted (be : Backend) (cur : State) (key : StatusKey) : Z :=
  let label := statusKeyToStatusLabel key in
  let isFilteredStatus := applies_to (statusFilter cur) label in
  result (getTaskCountByStatus be label
    (if isFilteredStatus then categoryFilter cur else None)
    (if isFilteredStatus then subcategoryFilter cur else None)
    (if isFilteredStatus then dateRange cur else mkDateRange None None)
    (if isFilteredStatus then searchQuery cur else None)
    (if isFilteredStatus then selectedCountries cur else [])
    (if isFilteredStatus then hourlyBudgetType cur else None)
    (if isFilteredStatus then priceRange cur else mkPriceRange None None)).

(** Whether a non-reset [loadMoreTasks] gets past its two early returns. *)
Definition proceeds (cur : State) (specificStatus : option StatusKey) : bool :=
  negb (loading cur)
  && shouldLoadMore_of cur false (statuses_of specificStatus).

(** The three dispatches a non-reset load makes for one status. *)
Definition load_step (be : Backend) (cur : State) (s : State)
    (key : StatusKey) : State :=
  let tasks := fetched_page be cur false key in
  reducer
    (reducer
       (reducer s
          (UPDATE_TASKS_FOR_STATUS key (get (tasksByStatus cur) key ++ tasks)))
       (SET_PAGE_BY_STATUS key (get (pageByStatus cur) key + 1)))
    (SET_HAS_MORE_BY_STATUS key
       (Z.of_nat (List.length tasks) =? effectiveLimit_of cur)).

(** The two dispatches a reset load makes for one status. *)
Definition reset_step (be : Backend) (cur : State) (s : State)
    (key : StatusKey) : State :=
  let tasks := fetched_page be cur true key in
  reducer (reducer s (SET_PAGE_BY_STATUS key 1))
    (SET_HAS_MORE_BY_STATUS key
       (Z.of_nat (List.length tasks) =? effectiveLimit_of cur)).



(** What a load leaves alone: the filter values and the totals. *)
Definition query_part (st : State) : FilterDeps * ByStatus Z :=
  (filter_deps st, totalCountByStatus st).

(** ** Debounced realtime notifications *)

(** Modelled from the spec: [lodash.debounce] is a dependency, not part of the
    sources. With the default options used here it coalesces calls: each call
    restarts a timer of [wait] milliseconds, and the wrapped function runs
    once when the timer expires. Time is in integer milliseconds. *)
Record Debounced : Type := mkDebounced {
  wait : Z;
  deadline : option Z
}.

Definition debounce (wait : Z) : Debounced := mkDebounced wait None.

Definition debounced_call (d : Debounced) (now : Z) : Debounced :=
  mkDebounced (wait d) (Some (now + wait d)).

(** The timer check of the event loop at time [now]: the invocation time, if
    the timer has expired. *)
Definition debounced_poll (d : Debounced) (now : Z) : Debounced * option Z :=
  match deadline d with
  | Some t => if t <=? now then (mkDebounced (wait d) None, Some t) else (d, None)
  | None => (d, None)
  end.

Inductive LoopEvent : Type :=
| Notification (at_ms : Z)
| Idle (until_ms : Z).

Definition event_time (e : LoopEvent) : Z :=
  match e with Notification t => t | Idle t => t end.

(** Times at which the debounced function body runs. *)
Fixpoint invocations (d : Debounced) (events : list LoopEvent) : list Z :=
  match events with
  | [] => []
  | e :: rest =>
      let (d1, fired) := debounced_poll d (event_time e) in
      let d2 := match e with
                | Notification t => debounced_call d1 t
                | Idle _ => d1
                end in
      match fired with
      | Some t => t :: invocations d2 rest
      | None => invocations d2 rest
      end
  end.

Definition REALTIME_WAIT : Z := 1000.

(** Effects of the realtime subscription over a run of the event loop;
    [stateAt t] is [stateRef.current] at time [t]. *)
Definition realtime_effects (be : Backend) (stateAt : Z -> State)
    (events : list LoopEvent) : list Effect :=
  flat_map (fun t => effects (handleRealtimeUpdate be (stateAt t)))
           (invocations (debounce REALTIME_WAIT) events).

(** The same for the earlier variant. Its subscription is made once, on
    mount, and keeps calling the debounced function of that render: [state]
    is the state that this render's [loadMoreTasks] and
    [fetchStatusWiseCounts] read, whenever the timer expires. *)
Definition earlier_realtime_effects (be : Backend) (state : State)
    (events : list LoopEvent) : list Effect :=
  flat_map (fun _ => effects (Legacy.debouncedRealtimeUpdate be state))
           (invocations (debounce Legacy.REALTIME_WAIT) events).

Definition tasks_calls_of (es : list Effect) : list TasksArgs :=
  flat_map (fun c => match c with get_tasks_by_status a => [a] | _ => [] end)
           (remote_calls_of es).

Definition count_queries_of (es : list Effect) : list CountQuery :=
  flat_map (fun c => match c with count_projects q => [q] | _ => [] end)
           (remote_calls_of es).

(** ** Comment threads *)

(** Modelled from the spec: the [Comment] type of [types/comments] is not
    among the sources; the fields are the columns [fetchComments] selects. *)
Record Comment : Type := mkComment {
  c_id : string;
  c_content : string;
  c_created_at : string;
  c_updated_at : option string;
  c_user_id : option string;
  c_user_email : string;
  parent_id : option string
}.

(** The element [renderComments] produces for one comment: its box, holding
    the comment's own line and, indented below it, the rendering of its
    replies. *)
Inductive Rendered : Type :=
| CommentBox (c : Comment) (replies : list Rendered).

Definition box_comment (r : Rendered) : Comment :=
  match r with CommentBox c _ => c end.

Definition box_replies (r : Rendered) : list Rendered :=
  match r with CommentBox _ replies => replies end.

(** [c.parent_id === parentId] *)
Definition same_parent (a b : option string) : bool :=
  match a, b with
  | None, None => true
  | Some x, Some y => String.eqb x y
  | _, _ => false
  end.

Fixpoint sequence {A} (l : list (option A)) : option (list A) :=
  match l with
  | [] => Some []
  | None :: _ => None
  | Some a :: l' =>
      match sequence l' with
      | Some r => Some (a :: r)
      | None => None
      end
  end.

(** [renderComments(parentId)]. The source recursion has no bound; [fuel] is
    the call depth available, and [None] is its exhaustion. *)
Fixpoint renderComments (fuel : nat) (comments : list Comment)
    (parentId : option string) : option (list Rendered) :=
  match fuel with
  | O => None
  | S fuel' =>
      sequence
        (map (fun c =>
                match renderComments fuel' comments (Some (c_id c)) with
                | Some replies => Some (CommentBox c replies)
                | None => None
                end)
             (filter (fun c => same_parent (parent_id c) parentId) comments))
  end.

(** Every box of a rendering, at any depth. *)
Fixpoint boxes (r : Rendered) : list Rendered :=
  match r with
  | CommentBox _ replies => r :: flat_map boxes replies
  end.

Definition all_boxes (forest : list Rendered) : list Rendered :=
  flat_map boxes forest.

(** The parent reference that selects the replies of the comment on top of
    a path of ancestors (nearest first); the empty path selects top level. *)
Definition top_ref (path : list Comment) : option string :=
  match path with
  | [] => None
  | c :: _ => Some (c_id c)
  end.

(** Each comment of the path refers to the next one; the last is top-level. *)
Fixpoint linked (path : list Comment) : Prop :=
  match path with
  | [] => True
  | c :: rest => parent_id c = top_ref rest /\ linked rest
  end.

(** A comment whose parent references lead, inside the list, to a top-level
    comment. *)
Inductive reaches_top (comments : list Comment) : Comment -> Prop :=
| reaches_top_root c :
    In c comments -> parent_id c = None -> reaches_top comments c
| reaches_top_reply c p :
    In c comments -> parent_id c = Some (c_id p) ->
    reaches_top comments p -> reaches_top comments c.

(** ** Parameters of the calls a load and a count refresh make *)

(** The parameters of the list fetch that [loadMoreTasks] issues for [key]. *)
Definition load_args (cur : State) (reset : bool) (key : StatusKey) : FetchArgs :=
  let label := statusKeyToStatusLabel key in
  let page := if reset then 0 else get (pageByStatus cur) key in
  fetch_args label (filtered_for cur label (page * effectiveLimit_of cur)).

(** The parameters of the count call that [fetchStatusWiseCounts] issues for
    [key]. *)
Definition refresh_args (cur : State) (key : StatusKey) : CountArgs :=
  let label := statusKeyToStatusLabel key in
  let isFilteredStatus := applies_to (statusFilter cur) label in
  count_args label
    (if isFilteredStatus then categoryFilter cur else None)
    (if isFilteredStatus then subcategoryFilter cur else None)
    (if isFilteredStatus then dateRange cur else mkDateRange None None)
    (if isFilteredStatus then searchQuery cur else None)
    (if isFilteredStatus then selectedCountries cur else [])
    (if isFilteredStatus then hourlyBudgetType cur else None)
    (if isFilteredStatus then priceRange cur else mkPriceRange None None).

(** The selection a list fetch makes, without its page window. *)
Definition selection_of (a : FetchArgs) : CountArgs :=
  {| ca_task_status := fa_task_status a;
     ca_category_filter := fa_category_filter a;
     ca_subcategory_filter := fa_subcategory_filter a;
     ca_date_from := fa_date_from a;
     ca_date_to := fa_date_to a;
     ca_search_query := fa_search_query a;
     ca_country_filter := fa_country_filter a;
     ca_hourly_budget_type := fa_hourly_budget_type a;
     ca_price_from := fa_price_from a;
     ca_price_to := fa_price_to a |}.

(** A list fetch that carries no filter beside its status. *)
Definition unfiltered (a : FetchArgs) : Prop :=
  fa_category_filter a = None /\ fa_subcategory_filter a = None
  /\ fa_date_from a = None /\ fa_date_to a = None
  /\ fa_search_query a = None /\ fa_country_filter a = None
  /\ fa_hourly_budget_type a = None
  /\ fa_price_from a = None /\ fa_price_to a = None.

(** ** The Discard page (pages/Discard) *)

(** The page keeps its own list, cursor and flags beside the hook, whose
    filter values and fetch helpers it uses. A handler of the page reads the
    filter values of the render that created it ([hook]) and the page's
    state and refs as they are when it runs; it yields the remote calls and
    console errors it makes and the page state it leaves. *)
Module Discard.

Record Page : Type := mkPage {
  discardedTasks : list Task;
  hasMoreDiscard : bool;
  loadingDiscard : bool;
  discardCount : Z;
  discardPageRef : Z;
  loadingDiscardRef : bool;
  (** [setLoading] of the loader context *)
  loaderLoading : bool
}.

Definition PAGE_SIZE : Z := 10.

Definition initialPage : Page :=
  mkPage [] true false 0 0 false false.

(** [new Set(prev.map((t) => t.id)).has(t.id)] *)
Definition shown (prev : list Task) (t : Task) : bool :=
  existsb (Z.eqb (id t)) (map id prev).

(** The functional update of the list after a non-reset fetch. *)
Definition merge (prev data : list Task) : list Task :=
  prev ++ filter (fun t => negb (shown prev t)) data.

Definition page_filters (hook : State) (effectiveLimit offset : Z) : Filters :=
  {| f_categoryFilter := categoryFilter hook;
     f_subcategoryFilter := subcategoryFilter hook;
     f_dateRange := dateRange hook;
     f_searchQuery := searchQuery hook;
     f_limit := Some effectiveLimit;
     f_offset := Some offset;
     f_selectedCountries := selectedCountries hook;
     f_hourlyBudgetType := hourlyBudgetType hook;
     f_priceFrom := pr_from (priceRange hook);
     f_priceTo := pr_to (priceRange hook) |}.

Definition fetchDiscardedTasks (be : Backend) (hook : State) (p : Page)
    (reset : bool) : M Page :=
  if loadingDiscardRef p then ret p else
  let page := if reset then 0 else discardPageRef p in
  let effectiveLimit :=
    match limit hook with Some l => l | None => PAGE_SIZE end in
  let offset := page * effectiveLimit in
  data <- fetchTasksByStatus be "Discarded"
            (page_filters hook effectiveLimit offset) ;;
  let tasks := if reset then data else merge (discardedTasks p) data in
  let cursor :=
    if reset then 1
    else if 0 <? Z.of_nat (List.length data) then discardPageRef p + 1
    else discardPageRef p in
  ret {| discardedTasks := tasks;
         hasMoreDiscard := (Z.of_nat (List.length data) =? effectiveLimit);
         loadingDiscard := false;
         discardCount := discardCount p;
         discardPageRef := cursor;
         loadingDiscardRef := false;
         loaderLoading := loaderLoading p |}.

Definition fetchDiscardCount (be : Backend) (hook : State) (p : Page) : M Page :=
  count <- getTaskCountByStatus be "Discarded"
             (categoryFilter hook) (subcategoryFilter hook) (dateRange hook)
             (searchQuery hook) (selectedCountries hook)
             (hourlyBudgetType hook) (priceRange hook) ;;
  ret {| discardedTasks := discardedTasks p;
         hasMoreDiscard := hasMoreDiscard p;
         loadingDiscard := loadingDiscard p;
         discardCount := count;
         discardPageRef := discardPageRef p;
         loadingDiscardRef := loadingDiscardRef p;
         loaderLoading := loaderLoading p |}.

(** The scroll listener, on the scroll box's three measures. *)
Definition handleScroll (be : Backend) (hook : State) (p : Page)
    (scrollTop clientHeight scrollHeight : Z) : M Page :=
  if (scrollHeight - 300 <=? scrollTop + clientHeight)
     && hasMoreDiscard p && negb (loadingDiscard p)
  then fetchDiscardedTasks be hook p false
  else ret p.

(** The effect that runs when a filter value changes. *)
Definition runFilterUpdate (be : Backend) (hook : State) (p : Page) : M Page :=
  let p0 := {| discardedTasks := [];
               hasMoreDiscard := true;
               loadingDiscard := loadingDiscard p;
               discardCount := discardCount p;
               discardPageRef := 0;
               loadingDiscardRef := loadingDiscardRef p;
               loaderLoading := true |} in
  p1 <- fetchDiscardedTasks be hook p0 true ;;
  p2 <- fetchDiscardCount be hook p1 ;;
  ret {| discardedTasks := discardedTasks p2;
         hasMoreDiscard := hasMoreDiscard p2;
         loadingDiscard := loadingDiscard p2;
         discardCount := discardCount p2;
         discardPageRef := discardPageRef p2;
         loadingDiscardRef := loadingDiscardRef p2;
         loaderLoading := false |}.

(** A backend that holds [rows] as the rows this page selects, in the order
    it serves them. *)
Definition serves (be : Backend) (hook : State) (rows : list Task) : Prop :=
  forall effectiveLimit offset,
    on_get_task_by_status be
      (fetch_args "Discarded" (page_filters hook effectiveLimit offset))
    = Success (firstn (Z.to_nat effectiveLimit)
                 (skipn (Z.to_nat offset) rows)).

(** A run of scroll events, each with the scroll box's three measures
    ([scrollTop], [clientHeight], [scrollHeight]). *)
Fixpoint scrolls (be : Backend) (hook : State) (p : Page)
    (events : list (Z * Z * Z)) : Page :=
  match events with
  | [] => p
  | (scrollTop, clientHeight, scrollHeight) :: rest =>
      scrolls be hook
        (result (handleScroll be hook p scrollTop clientHeight scrollHeight))
        rest
  end.

(** The page is idle and shows the first [discardPageRef] pages of [rows];
    if it believes there is no more, it shows all of them. *)
Definition shows_prefix (hook : State) (rows : list Task) (p : Page) : Prop :=
  let lim := match limit hook with Some l => l | None => PAGE_SIZE end in
  loadingDiscardRef p = false
  /\ loadingDiscard p = false
  /\ 0 <= discardPageRef p
  /\ discardedTasks p = firstn (Z.to_nat (discardPageRef p * lim)) rows
  /\ (hasMoreDiscard p = false -> discardedTasks p = rows).

End Discard.

(** ** Category options (services/taskService) *)

Module TaskService.

(** A row of the [category, subcategory] selection. *)
Record Row : Type := mkRow {
  r_category : option string;
  r_subcategory : option string
}.

(** A nullable string as a condition: null and the empty string are falsy. *)
Definition truthy (s : option string) : option string :=
  match s with
  | Some "" => None
  | _ => s
  end.

(** The names every object literal answers for through [Object.prototype];
    their values are functions or objects: truthy, and without [includes]. *)
Definition object_prototype_keys : list string :=
  ["constructor"; "__defineGetter__"; "__defineSetter__"; "hasOwnProperty";
   "__lookupGetter__"; "__lookupSetter__"; "isPrototypeOf";
   "propertyIsEnumerable"; "toString"; "valueOf"; "__proto__";
   "toLocaleString"].

Definition inherited (k : string) : bool :=
  existsb (String.eqb k) object_prototype_keys.

Definition includes (l : list string) (s : string) : bool :=
  existsb (String.eqb s) l.

(** The own properties of [map], in insertion order. *)
Definition SubcategoryMap : Type := list (string * list string).

Fixpoint own (m : SubcategoryMap) (k : string) : option (list string) :=
  match m with
  | [] => None
  | (k', v) :: rest => if String.eqb k' k then Some v else own rest k
  end.

(** [m[k] = v]: replaces the own property, or adds it last. *)
Fixpoint put (m : SubcategoryMap) (k : string) (v : list string)
  : SubcategoryMap :=
  match m with
  | [] => [(k, v)]
  | (k', v') :: rest =>
      if String.eqb k' k then (k, v) :: rest else (k', v') :: put rest k v
  end.

Record CategoryData : Type := mkCategoryData {
  categoryOptions : list string;
  subcategoryMap : SubcategoryMap
}.

(** [categories.add(c)] on the insertion-ordered set. *)
Definition add (categories : list string) (c : string) : list string :=
  if includes categories c then categories else categories ++ [c].

(** The callback of [data?.forEach]; [None] is the TypeError of calling
    [includes] on a value that has none. *)
Definition visit (acc : CategoryData) (row : Row) : option CategoryData :=
  match truthy (r_category row) with
  | None => Some acc
  | Some c =>
      let categories := add (categoryOptions acc) c in
      let map := subcategoryMap acc in
      match own map c with
      | Some subs =>
          match truthy (r_subcategory row) with
          | Some s =>
              if includes subs s then Some (mkCategoryData categories map)
              else Some (mkCategoryData categories (put map c (subs ++ [s])))
          | None => Some (mkCategoryData categories map)
          end
      | None =>
          if inherited c then
            match truthy (r_subcategory row) with
            | Some _ => None
            | None => Some (mkCategoryData categories map)
            end
          else
            match truthy (r_subcategory row) with
            | Some s => Some (mkCategoryData categories (put map c [s]))
            | None => Some (mkCategoryData categories (put map c []))
            end
      end
  end.

Fixpoint forEach (acc : CategoryData) (rows : list Row) : option CategoryData :=
  match rows with
  | [] => Some acc
  | row :: rest =>
      match visit acc row with
      | Some acc' => forEach acc' rest
      | None => None
      end
  end.

(** [fetchCategoryData], on the [data] of the selection's answer (null when
    the selection failed; the error itself is not looked at). *)
Definition fetchCategoryData (data : option (list Row)) : option CategoryData :=
  match data with
  | None => Some (mkCategoryData [] [])
  | Some rows => forEach (mkCategoryData [] []) rows
  end.

(** Row [r] names category [c], and names subcategory [s] in it. *)
Definition names_category (c : string) (r : Row) : Prop :=
  truthy (r_category r) = Some c.

Definition names_subcategory (c s : string) (r : Row) : Prop :=
  truthy (r_category r) = Some c /\ truthy (r_subcategory r) = Some s.

End TaskService.

(** ** The task detail modal (components/TasksDetailsModal) *)

(** The modal's own state and handlers. An operation reads and writes the
    modal state and lists, in order, what it does outside it: remote calls,
    toasts, the loader context and the [onStatusChange] callback. Handlers
    that the source starts without awaiting them are run to their end at
    the point where they are started. *)
Module Modal.

Record User : Type := mkUser {
  u_id : string;
  u_email : option string
}.

(** The row [handleAddComment] inserts. *)
Record NewComment : Type := mkNewComment {
  n_task_id : option string;
  n_content : string;
  n_user_id : option string;
  n_user_email : string;
  n_parent_id : option string
}.

Inductive Call : Type :=
| get_task_detail (task_id : option string)
| update_project_status (task_id : option string) (status : string)
| select_comments (task_id : option string)
| insert_comment (row : NewComment)
| delete_comment (comment_id : string)
| update_comment (comment_id : string) (content : string) (updated_at : string)
| auth_getUser
| askAIForTask (task : option Task).

(** The answers of the backend and of the suggestion service; a [Failure]
    of [on_askAIForTask] is the call throwing. *)
Record Answers : Type := mkAnswers {
  on_get_task_detail : option string -> Response (option (list Task));
  on_update_project_status : option string -> string -> Response unit;
  on_select_comments : option string -> Response (option (list Comment));
  on_insert_comment : NewComment -> Response unit;
  on_delete_comment : string -> Response unit;
  on_update_comment : string -> string -> string -> Response unit;
  on_getUser : option User;
  on_askAIForTask : option Task -> Response string
}.

Inductive Effect : Type :=
| Remote (c : Call)
| ToastSuccess (msg : string)
| ToastError (msg : string)
| SetLoading (val : bool)
| OnStatusChange (updatedTask : Task).

Record State : Type := mkState {
  task : option Task;
  comment : string;
  comments : list Comment;
  loadingComment : bool;
  editingLoading : bool;
  editingCommentId : option string;
  editingContent : string;
  aiLoading : bool;
  aiAnswer : option string;
  showDeleteModal : bool;
  commentIdToDelete : option string;
  loadingTask : bool
}.

Definition initialState : State :=
  mkState None "" [] false false None "" false None false None false.

Definition setTask v s :=
  mkState v (comment s) (comments s) (loadingComment s) (editingLoading s)
    (editingCommentId s) (editingContent s) (aiLoading s) (aiAnswer s)
    (showDeleteModal s) (commentIdToDelete s) (loadingTask s).
Definition setComment v s :=
  mkState (task s) v (comments s) (loadingComment s) (editingLoading s)
    (editingCommentId s) (editingContent s) (aiLoading s) (aiAnswer s)
    (showDeleteModal s) (commentIdToDelete s) (loadingTask s).
Definition setComments v s :=
  mkState (task s) (comment s) v (loadingComment s) (editingLoading s)
    (editingCommentId s) (editingContent s) (aiLoading s) (aiAnswer s)
    (showDeleteModal s) (commentIdToDelete s) (loadingTask s).
Definition setLoadingComment v s :=
  mkState (task s) (comment s) (comments s) v (editingLoading s)
    (editingCommentId s) (editingContent s) (aiLoading s) (aiAnswer s)
    (showDeleteModal s) (commentIdToDelete s) (loadingTask s).
Definition setEditingLoading v s :=
  mkState (task s) (comment s) (comments s) (loadingComment s) v
    (editingCommentId s) (editingContent s) (aiLoading s) (aiAnswer s)
    (showDeleteModal s) (commentIdToDelete s) (loadingTask s).
Definition setEditingCommentId v s :=
  mkState (task s) (comment s) (comments s) (loadingComment s) (editingLoading s)
    v (editingContent s) (aiLoading s) (aiAnswer s)
    (showDeleteModal s) (commentIdToDelete s) (loadingTask s).
Definition setEditingContent v s :=
  mkState (task s) (comment s) (comments s) (loadingComment s) (editingLoading s)
    (editingCommentId s) v (aiLoading s) (aiAnswer s)
    (showDeleteModal s) (commentIdToDelete s) (loadingTask s).
Definition setAiLoading v s :=
  mkState (task s) (comment s) (comments s) (loadingComment s) (editingLoading s)
    (editingCommentId s) (editingContent s) v (aiAnswer s)
    (showDeleteModal s) (commentIdToDelete s) (loadingTask s).
Definition setAiAnswer v s :=
  mkState (task s) (comment s) (comments s) (loadingComment s) (editingLoading s)
    (editingCommentId s) (editingContent s) (aiLoading s) v
    (showDeleteModal s) (commentIdToDelete s) (loadingTask s).
Definition setShowDeleteModal v s :=
  mkState (task s) (comment s) (comments s) (loadingComment s) (editingLoading s)
    (editingCommentId s) (editingContent s) (aiLoading s) (aiAnswer s)
    v (commentIdToDelete s) (loadingTask s).
Definition setCommentIdToDelete v s :=
  mkState (task s) (comment s) (comments s) (loadingComment s) (editingLoading s)
    (editingCommentId s) (editingContent s) (aiLoading s) (aiAnswer s)
    (showDeleteModal s) v (loadingTask s).
Definition setLoadingTask v s :=
  mkState (task s) (comment s) (comments s) (loadingComment s) (editingLoading s)
    (editingCommentId s) (editingContent s) (aiLoading s) (aiAnswer s)
    (showDeleteModal s) (commentIdToDelete s) v.

(** An operation: from the modal state to the state it leaves and the
    effects it performs, in order. *)
Definition Op : Type := State -> State * list Effect.

Definition skip : Op := fun s => (s, []).
Definition update (f : State -> State) : Op := fun s => (f s, []).
Definition perform (e : Effect) : Op := fun s => (s, [e]).
Definition andThen (a b : Op) : Op :=
  fun s => let r := a s in let r' := b (fst r) in (fst r', snd r ++ snd r').

Notation "a >> b" := (andThen a b) (at level 62, right associativity).

Definition state_after (o : Op) (s : State) : State := fst (o s).
Definition effects_of (o : Op) (s : State) : list Effect := snd (o s).
Definition calls_of (o : Op) (s : State) : list Call :=
  flat_map (fun e => match e with Remote c => [c] | _ => [] end)
           (effects_of o s).

Definition fetchTaskDetails (be : Answers) (taskId : option string) : Op :=
  update (setLoadingTask true) >>
  perform (Remote (get_task_detail taskId)) >>
  match on_get_task_detail be taskId with
  | Success (Some (first :: _)) => update (setTask (Some first))
  | _ => skip
  end >>
  update (setLoadingTask false).

(** [task] is the task of the render whose status select fires the handler
    (the select is rendered only while a task is shown); [hasCallback]
    tells whether the [onStatusChange] prop was given. *)
Definition handleStatusChange (be : Answers) (taskId : option string)
    (task : Task) (hasCallback : bool) (newStatus : string) : Op :=
  perform (SetLoading true) >>
  perform (Remote (update_project_status taskId newStatus)) >>
  perform (SetLoading false) >>
  match on_update_project_status be taskId newStatus with
  | Success _ =>
      let updatedTask := with_status task newStatus in
      update (setTask (Some updatedTask)) >>
      perform (ToastSuccess "Status updated!") >>
      (if hasCallback then perform (OnStatusChange updatedTask) else skip)
  | Failure _ => perform (ToastError "Failed to update status")
  end.

Definition fetchComments (be : Answers) (taskId : option string) : Op :=
  perform (Remote (select_comments taskId)) >>
  match on_select_comments be taskId with
  | Success (Some data) => update (setComments data)
  | _ => skip
  end.

(** [user?.email || "Anonymous"] *)
Definition email_or_anonymous (user : option User) : string :=
  match user with
  | Some u =>
      match u_email u with
      | Some e => if String.eqb e "" then "Anonymous" else e
      | None => "Anonymous"
      end
  | None => "Anonymous"
  end.

Definition new_comment (be : Answers) (taskId : option string)
    (content : string) : NewComment :=
  {| n_task_id := taskId;
     n_content := content;
     n_user_id := match on_getUser be with Some u => Some (u_id u) | None => None end;
     n_user_email := email_or_anonymous (on_getUser be);
     n_parent_id := None |}.

Definition handleAddComment (be : Answers) (taskId : option string) : Op :=
  fun s =>
  let row := new_comment be taskId (comment s) in
  (update (setLoadingComment true) >>
   perform (Remote auth_getUser) >>
   perform (Remote (insert_comment row)) >>
   match on_insert_comment be row with
   | Success _ =>
       update (setComment "") >>
       perform (ToastSuccess "Comment added!") >>
       fetchComments be taskId
   | Failure _ => perform (ToastError "Failed to add comment")
   end >>
   update (setLoadingComment false)) s.

Definition confirmDelete (comment_id : string) : Op :=
  update (setCommentIdToDelete (Some comment_id)) >>
  update (setShowDeleteModal true).

Definition cancelDelete : Op :=
  update (setCommentIdToDelete None) >>
  update (setShowDeleteModal false).

Definition handleDeleteComment (be : Answers) (taskId : option string)
    (comment_id : string) : Op :=
  perform (SetLoading true) >>
  perform (Remote (delete_comment comment_id)) >>
  perform (SetLoading false) >>
  match on_delete_comment be comment_id with
  | Success _ =>
      perform (ToastSuccess "Comment deleted") >> fetchComments be taskId
  | Failure _ => perform (ToastError "Failed to delete comment")
  end.

(** [if (commentIdToDelete)]: an id that is null or empty is no id. *)
Definition proceedToDelete (be : Answers) (taskId : option string) : Op :=
  fun s =>
  match commentIdToDelete s with
  | Some comment_id =>
      if String.eqb comment_id "" then skip s
      else (handleDeleteComment be taskId comment_id >>
            update (setShowDeleteModal false) >>
            update (setCommentIdToDelete None)) s
  | None => skip s
  end.

Definition handleStartEdit (c : Comment) : Op :=
  update (setEditingCommentId (Some (c_id c))) >>
  update (setEditingContent (c_content c)).

(** [now] is [new Date().toISOString()] at the time of the call. *)
Definition handleSaveEdit (be : Answers) (taskId : option string)
    (comment_id : string) (now : string) : Op :=
  fun s =>
  let content := editingContent s in
  (update (setEditingLoading true) >>
   perform (Remote (update_comment comment_id content now)) >>
   update (setEditingLoading false) >>
   match on_update_comment be comment_id content now with
   | Success _ =>
       perform (ToastSuccess "Comment updated!") >>
       update (setEditingCommentId None) >>
       update (setEditingContent "") >>
       fetchComments be taskId
   | Failure _ => perform (ToastError "Failed to update comment")
   end) s.

Definition handleAskAI (be : Answers) : Op :=
  fun s =>
  (update (setAiLoading true) >>
   perform (Remote (askAIForTask (task s))) >>
   match on_askAIForTask be (task s) with
   | Success suggestion => update (setAiAnswer (Some suggestion))
   | Failure _ => perform (ToastError "AI suggestion failed")
   end >>
   update (setAiLoading false)) s.

End Modal.

(** ** What [fetchCategoryData] has collected *)

(** What holds of the accumulator once the rows [seen] have been visited. *)
Definition collected (seen : list TaskService.Row)
    (acc : TaskService.CategoryData) : Prop :=
  NoDup (TaskService.categoryOptions acc)
  /\ (forall c, In c (TaskService.categoryOptions acc)
                <-> exists r, In r seen /\ TaskService.names_category c r)
  /\ (forall c, In c (TaskService.categoryOptions acc) ->
                TaskService.inherited c = false ->
                exists subs, TaskService.own (TaskService.subcategoryMap acc) c
                             = Some subs)
  /\ (forall c subs,
        TaskService.own (TaskService.subcategoryMap acc) c = Some subs ->
        TaskService.inherited c = false
        /\ NoDup subs
        /\ forall s, In s subs
                     <-> exists r, In r seen
                                   /\ TaskService.names_subcategory c s r).

(** A row that makes the callback throw: it names a category that the map
    answers for through its prototype, and a subcategory. *)
Definition throws (r : TaskService.Row) : Prop :=
  exists c s, TaskService.truthy (TaskService.r_category r) = Some c
              /\ TaskService.inherited c = true
              /\ TaskService.truthy (TaskService.r_subcategory r) = Some s.

(** ** Sample data *)

Definition sample_task (n : Z) (st : string) : Task :=
  mkTask n "Landing page copy" "Write the copy" st (Some "Writing") None None
         "2024-05-01T10:00:00Z".

(** A backend over a fixed table of rows: it selects by status label and, when
    given, by category, and pages with offset and limit. *)
Definition row_matches (st : string) (cat : option string) (t : Task) : bool :=
  String.eqb (status t) st
  && match cat, category t with
     | None, _ => true
     | Some c, Some c' => String.eqb c c'
     | Some _, None => false
     end.

Definition table_page (rows : list Task) (a : FetchArgs) : list Task :=
  firstn (Z.to_nat (fa_limit_count a))
    (skipn (Z.to_nat (fa_offset_count a))
       (filter (row_matches (fa_task_status a) (fa_category_filter a)) rows)).

Definition table_backend (rows : list Task) : Backend :=
  {| on_get_task_by_status := fun a => Success (table_page rows a);
     on_get_task_count_by_status := fun a =>
       Success (Some (Z.of_nat (List.length
         (filter (row_matches (ca_task_status a) (ca_category_filter a)) rows))));
     on_update_task_status := fun _ _ => Success tt;
     on_get_tasks_by_status := fun a =>
       Success (firstn (Z.to_nat (ta_limit_count a))
                  (skipn (Z.to_nat (ta_offset_count a))
                     (filter (row_matches (ta_task_status a)
                                          (ta_category_filter a)) rows)));
     on_count_projects := fun q =>
       Some (Z.of_nat (List.length
         (filter (row_matches (cq_status q) (cq_category q)) rows))) |}.

(** A backend on which every call fails. *)
Definition failing_backend : Backend :=
  {| on_get_task_by_status := fun _ => Failure "connection refused";
     on_get_task_count_by_status := fun _ => Failure "connection refused";
     on_update_task_status := fun _ _ => Failure "connection refused";
     on_get_tasks_by_status := fun _ => Failure "connection refused";
     on_count_projects := fun _ => None |}.

Definition with_tasks (tbs : ByStatus (list Task)) : State :=
  reducer initialState (SET_TASKS_BY_STATUS tbs).

(** One task in "to-do", nothing elsewhere. *)
Definition one_todo : State :=
  with_tasks (mkByStatus [sample_task 1 "To Do"] [] []).

Definition no_filters : Filters :=
  mkFilters None None (mkDateRange None None) None None None [] None None None.

(** 25 "To Do" rows and 15 "In Progress" rows. *)
Definition todo_rows : list Task :=
  map (fun n => sample_task (Z.of_nat n) "To Do") (seq 1 25).

Definition board_rows : list Task :=
  todo_rows
  ++ map (fun n => sample_task (Z.of_nat n) "In Progress") (seq 101 15).

(** The same table while list fetches for "To Do" fail. *)
Definition todo_outage (rows : list Task) : Backend :=
  {| on_get_task_by_status := fun a =>
       if String.eqb (fa_task_status a) "To Do" then Failure "timeout"
       else Success (table_page rows a);
     on_get_task_count_by_status :=
       on_get_task_count_by_status (table_backend rows);
     on_update_task_status := fun _ _ => Success tt;
     on_get_tasks_by_status := on_get_tasks_by_status (table_backend rows);
     on_count_projects := on_count_projects (table_backend rows) |}.

(** The store after a reset-reload from the initial state during the outage. *)
Definition after_outage : State :=
  exec initialState (reset_reload (todo_outage board_rows) initialState).

(** The store once the filter bar holds category "Writing" and limit 10. *)
Definition writing_filters : State :=
  reducer (reducer initialState (SET_CATEGORY_FILTER (Some "Writing")))
          (SET_LIMIT (Some 10)).

(** A backend that holds [rows] as the "To Do" rows of category "Writing",
    in the order it serves them: a list fetch, through either list
    procedure, answers with the asked page of them, the count with their
    number. *)
Definition serves_writing_todo (be : Backend) (rows : list Task) : Prop :=
  (forall a, fa_task_status a = "To Do" ->
             fa_category_filter a = Some "Writing" ->
             on_get_task_by_status be a =
             Success (firstn (Z.to_nat (fa_limit_count a))
                        (skipn (Z.to_nat (fa_offset_count a)) rows)))
  /\ (forall a, ca_task_status a = "To Do" ->
                ca_category_filter a = Some "Writing" ->
                on_get_task_count_by_status be a =
                Success (Some (Z.of_nat (List.length rows))))
  /\ (forall a, ta_task_status a = "To Do" ->
                ta_category_filter a = Some "Writing" ->
                on_get_tasks_by_status be a =
                Success (firstn (Z.to_nat (ta_limit_count a))
                           (skipn (Z.to_nat (ta_offset_count a)) rows))).

(** The "to-do" column holds the first [p] pages of [rows] and is open. *)
Definition todo_loaded (rows : list Task) (p : Z) (st : State) : Prop :=
  filter_deps st = filter_deps writing_filters
  /\ loading st = false
  /\ get (totalCountByStatus st) ToDo = 25
  /\ get (tasksByStatus st) ToDo = firstn (Z.to_nat (10 * p)) rows
  /\ get (pageByStatus st) ToDo = p
  /\ get (hasMoreByStatus st) ToDo = true.

(** A store with a page load in flight. *)
Definition load_in_flight : State := reducer initialState (SET_LOADING true).

(** 35 "To Do" rows and 15 "In Progress" rows. *)
Definition long_board_rows : list Task :=
  map (fun n => sample_task (Z.of_nat n) "To Do") (seq 1 35)
  ++ map (fun n => sample_task (Z.of_nat n) "In Progress") (seq 101 15).

(** 25 "To Do" rows and 35 "In Progress" rows, and the store after a
    reset-reload over them: 10 rows in each of the two columns. *)
Definition wide_board_rows : list Task :=
  todo_rows
  ++ map (fun n => sample_task (Z.of_nat n) "In Progress") (seq 101 35).

Definition wide_board_loaded : State :=
  exec initialState (reset_reload (table_backend wide_board_rows) initialState).

(** The store after a reset-reload and one further load over them:
    "in-progress" holds its 15 rows and is closed, "to-do" holds 20 of its
    35 and is open. *)
Definition in_progress_closed : State :=
  run_loads
    (exec initialState (reset_reload (table_backend long_board_rows) initialState))
    [mkLoadCall (table_backend long_board_rows) None].

Definition sample_comment (i : string) (parent : option string) : Comment :=
  mkComment i "Looks good" "2024-05-02T09:00:00Z" None (Some "u1")
            "ann@example.com" parent.

(** A reply listed before the comment it answers. *)
Definition small_thread : list Comment :=
  [sample_comment "c2" (Some "c1"); sample_comment "c1" None].

(** A reply to a comment whose own parent is not in the list. *)
Definition orphaned_thread : list Comment :=
  [sample_comment "c3" (Some "c2"); sample_comment "c2" (Some "c1")].

(** Twelve discarded rows, and a hook state with limit 5. *)
Definition discarded_rows : list Task :=
  map (fun n => sample_task (Z.of_nat n) "Discarded") (seq 1 12).

Definition limit_5 : State := reducer initialState (SET_LIMIT (Some 5)).

Definition sample_rows : list TaskService.Row :=
  [TaskService.mkRow (Some "Writing") (Some "Blog");
   TaskService.mkRow (Some "Design") None;
   TaskService.mkRow None (Some "Logo");
   TaskService.mkRow (Some "Writing") (Some "Copy");
   TaskService.mkRow (Some "Writing") (Some "Blog")].

(** A modal with a draft, two comments shown and an edit in progress. *)
Definition busy_modal : Modal.State :=
  Modal.mkState (Some (sample_task 7 "To Do")) "Please add a deadline"
    small_thread false false (Some "c1") "Looks good to me" false None
    false None false.

Definition ann : Modal.User := Modal.mkUser "u1" (Some "ann@example.com").

(** Answers of a backend on which every write and read succeeds, the
    comment selection answering [rows]. *)
Definition modal_ok (rows : list Comment) : Modal.Answers :=
  {| Modal.on_get_task_detail := fun _ => Success (Some [sample_task 7 "Done"]);
     Modal.on_update_project_status := fun _ _ => Success tt;
     Modal.on_select_comments := fun _ => Success (Some rows);
     Modal.on_insert_comment := fun _ => Success tt;
     Modal.on_delete_comment := fun _ => Success tt;
     Modal.on_update_comment := fun _ _ _ => Success tt;
     Modal.on_getUser := Some ann;
     Modal.on_askAIForTask := fun _ => Success "Offer a fixed price." |}.

(** Answers of a backend on which every call fails, with nobody signed in. *)
Definition modal_down : Modal.Answers :=
  {| Modal.on_get_task_detail := fun _ => Failure "offline";
     Modal.on_update_project_status := fun _ _ => Failure "offline";
     Modal.on_select_comments := fun _ => Failure "offline";
     Modal.on_insert_comment := fun _ => Failure "offline";
     Modal.on_delete_comment := fun _ => Failure "offline";
     Modal.on_update_comment := fun _ _ _ => Failure "offline";
     Modal.on_getUser := None;
     Modal.on_askAIForTask := fun _ => Failure "offline" |}.

(** * Properties *)

Unset Implicit Arguments.

(** ** Per-status records *)

Lemma get_set_same {A} (r : ByStatus A) k v : get (set r k v) k = v.
Proof. now destruct k. Qed.

Lemma get_set_other {A} (r : ByStatus A) k k' v :
  k <> k' -> get (set r k v) k' = get r k'.
Proof. destruct k, k'; simpl; congruence. Qed.

Lemma StatusKey_eq_dec (a b : StatusKey) : {a = b} + {a <> b}.
Proof. decide equality. Qed.

Lemma statusKeyToStatusLabel_inj k k' :
  statusKeyToStatusLabel k = statusKeyToStatusLabel k' -> k = k'.
Proof. destruct k, k'; simpl; intros H; congruence. Qed.

(** ** Effects and the store *)

Lemma effects_bind {A B} (m : M A) (f : A -> M B) :
  effects (bind m f) = effects m ++ effects (f (result m)).
Proof. reflexivity. Qed.

Lemma result_bind {A B} (m : M A) (f : A -> M B) :
  result (bind m f) = result (f (result m)).
Proof. reflexivity. Qed.

Lemma exec_bind {A B} st (m : M A) (f : A -> M B) :
  exec st (bind m f) = exec (exec st m) (f (result m)).
Proof. unfold exec. rewrite effects_bind. apply fold_left_app. Qed.

Lemma exec_ret {A} st (a : A) : exec st (ret a) = st.
Proof. reflexivity. Qed.

Lemma exec_dispatch st a : exec st (dispatch a) = reducer st a.
Proof. reflexivity. Qed.

Lemma remote_calls_bind {A B} (m : M A) (f : A -> M B) :
  remote_calls (bind m f) = remote_calls m ++ remote_calls (f (result m)).
Proof.
  unfold remote_calls, remote_calls_of. rewrite effects_bind.
  apply flat_map_app.
Qed.

Lemma fetch_calls_bind {A B} (m : M A) (f : A -> M B) :
  fetch_calls (bind m f) = fetch_calls m ++ fetch_calls (f (result m)).
Proof.
  unfold fetch_calls, fetch_calls_of.
  change (remote_calls_of (effects (bind m f))) with (remote_calls (bind m f)).
  rewrite remote_calls_bind. apply flat_map_app.
Qed.

(** The two fetch helpers dispatch nothing: they leave the store alone. *)
Lemma exec_fetchTasksByStatus be st status filters :
  exec st (fetchTasksByStatus be status filters) = st.
Proof.
  unfold fetchTasksByStatus.
  destruct (on_get_task_by_status be (fetch_args status filters)); reflexivity.
Qed.

Lemma exec_getTaskCountByStatus be st status c sc dr sq cs hb pr :
  exec st (getTaskCountByStatus be status c sc dr sq cs hb pr) = st.
Proof.
  unfold getTaskCountByStatus.
  destruct (on_get_task_count_by_status be _); reflexivity.
Qed.

Lemma result_fetchTasksByStatus be status filters :
  result (fetchTasksByStatus be status filters) =
  match on_get_task_by_status be (fetch_args status filters) with
  | Success data => data
  | Failure _ => []
  end.
Proof.
  unfold fetchTasksByStatus.
  destruct (on_get_task_by_status be (fetch_args status filters)); reflexivity.
Qed.

Lemma fetch_calls_fetchTasksByStatus be status filters :
  fetch_calls (fetchTasksByStatus be status filters) =
  [fetch_args status filters].
Proof.
  unfold fetchTasksByStatus.
  destruct (on_get_task_by_status be (fetch_args status filters)); reflexivity.
Qed.

Lemma fetch_calls_getTaskCountByStatus be status c sc dr sq cs hb pr :
  fetch_calls (getTaskCountByStatus be status c sc dr sq cs hb pr) = [].
Proof.
  unfold getTaskCountByStatus.
  destruct (on_get_task_count_by_status be _); reflexivity.
Qed.

(** What the count refresh does to the store: it replaces the three totals
    and nothing else. *)
Lemma exec_fetchStatusWiseCounts_counted be st cur :
  exec st (fetchStatusWiseCounts be cur) =
  reducer st (SET_TOTAL_COUNT_BY_STATUS
                (mkByStatus (counted be cur ToDo) (counted be cur InProgress)
                            (counted be cur Done))).
Proof.
  unfold fetchStatusWiseCounts, statusKeyArray, mapM.
  repeat (rewrite exec_bind || rewrite exec_getTaskCountByStatus
          || rewrite exec_ret).
  unfold setTotalCountByStatus. rewrite exec_dispatch. reflexivity.
Qed.

Lemma tasksByStatus_set_total st counts :
  tasksByStatus (reducer st (SET_TOTAL_COUNT_BY_STATUS counts)) = tasksByStatus st.
Proof. now destruct st. Qed.

Lemma fetch_calls_fetchStatusWiseCounts be cur :
  fetch_calls (fetchStatusWiseCounts be cur) = [].
Proof.
  unfold fetchStatusWiseCounts, statusKeyArray, mapM.
  repeat (rewrite fetch_calls_bind || rewrite fetch_calls_getTaskCountByStatus).
  reflexivity.
Qed.

Lemma status_updates_getTaskCountByStatus be status c sc dr sq cs hb pr :
  filter is_status_update
    (remote_calls (getTaskCountByStatus be status c sc dr sq cs hb pr)) = [].
Proof.
  unfold getTaskCountByStatus.
  destruct (on_get_task_count_by_status be _); reflexivity.
Qed.

Lemma status_updates_fetchStatusWiseCounts be cur :
  filter is_status_update (remote_calls (fetchStatusWiseCounts be cur)) = [].
Proof.
  unfold fetchStatusWiseCounts, statusKeyArray, mapM.
  repeat (rewrite remote_calls_bind || rewrite filter_app
          || rewrite status_updates_getTaskCountByStatus).
  reflexivity.
Qed.

(** ** [moveTask] *)

Lemma splice_insert_in_range {A} (arr : list A) (start : Z) (item : A) :
  0 <= start <= Z.of_nat (List.length arr) ->
  nth_error (splice_insert arr start item) (Z.to_nat start) = Some item.
Proof.
  intros H. unfold splice_insert.
  destruct (start <? 0) eqn:E; [apply Z.ltb_lt in E; lia|].
  rewrite Z.min_l by lia.
  assert (Hn : (Z.to_nat start <= List.length arr)%nat) by lia.
  rewrite nth_error_app2; rewrite firstn_length_le by exact Hn; [|lia].
  now rewrite Nat.sub_diag.
Qed.

Lemma without_id_clean taskId l t :
  In t (without_id taskId l) -> has_id taskId t = false.
Proof.
  unfold without_id. rewrite filter_In. intros [_ H].
  now destruct (has_id taskId t).
Qed.

Lemma moveTask_found be st taskId sourceCol destCol destIndex task :
  find (has_id taskId) (get (tasksByStatus st) sourceCol) = Some task ->
  let moved := moved_lists (tasksByStatus st) task taskId
                           sourceCol destCol destIndex in
  let label := statusKeyToStatusLabel destCol in
  moveTask be st taskId sourceCol destCol destIndex =
  (setTasksByStatus moved ;;
   emit (Remote (update_task_status (id task) label)) ;;
   match on_update_task_status be (id task) label with
   | Failure error => console_error "Failed to update task status:" error
   | Success _ => ret tt
   end ;;
   fetchStatusWiseCounts be (reducer st (SET_TASKS_BY_STATUS moved))).
Proof. intros H. unfold moveTask. rewrite H. reflexivity. Qed.

Lemma tasksByStatus_after_move be st taskId sourceCol destCol destIndex task :
  find (has_id taskId) (get (tasksByStatus st) sourceCol) = Some task ->
  tasksByStatus (exec st (moveTask be st taskId sourceCol destCol destIndex)) =
  moved_lists (tasksByStatus st) task taskId sourceCol destCol destIndex.
Proof.
  intros H. rewrite (moveTask_found be _ _ _ destCol destIndex _ H).
  rewrite !exec_bind, exec_fetchStatusWiseCounts_counted.
  rewrite tasksByStatus_set_total.
  destruct (on_update_task_status be (id task) (statusKeyToStatusLabel destCol));
    destruct st; reflexivity.
Qed.

(** C1, as the code has it: when the task is found in the source list, the
    destination list becomes the old destination list without that id, with
    the relabelled task spliced in at [destIndex] (clamped to the list, a
    negative index counting from its end); for an index within the list the
    task sits exactly there; when source and destination differ the source
    list is the old one without the task; the other list is untouched; and
    the remote calls contain exactly one [update_task_status], carrying the
    task's id and the destination label. *)
Theorem moveTask_relocates be st taskId sourceCol destCol destIndex task :
  find (has_id taskId) (get (tasksByStatus st) sourceCol) = Some task ->
  let m := moveTask be st taskId sourceCol destCol destIndex in
  let after := tasksByStatus (exec st m) in
  let updatedTask := with_status task (statusKeyToStatusLabel destCol) in
  let rest := without_id taskId (get (tasksByStatus st) destCol) in
  status updatedTask = statusKeyToStatusLabel destCol
  /\ get after destCol = splice_insert rest destIndex updatedTask
  /\ (0 <= destIndex <= Z.of_nat (List.length rest) ->
      nth_error (get after destCol) (Z.to_nat destIndex) = Some updatedTask)
  /\ (sourceCol <> destCol ->
      get after sourceCol = without_id taskId (get (tasksByStatus st) sourceCol)
      /\ forall t, In t (get after sourceCol) -> has_id taskId t = false)
  /\ (forall k, k <> sourceCol -> k <> destCol ->
      get after k = get (tasksByStatus st) k)
  /\ filter is_status_update (remote_calls m) =
     [update_task_status (id task) (statusKeyToStatusLabel destCol)].
Proof.
  intros Hfind m after updatedTask rest.
  assert (Hafter : after = moved_lists (tasksByStatus st) task taskId
                                       sourceCol destCol destIndex)
    by (apply tasksByStatus_after_move; exact Hfind).
  assert (Hdest : get after destCol = splice_insert rest destIndex updatedTask)
    by (rewrite Hafter; unfold moved_lists; apply get_set_same).
  split; [reflexivity|]. split; [exact Hdest|].
  split; [intros Hr; rewrite Hdest; now apply splice_insert_in_range|].
  split.
  { intros Hne.
    assert (Hsrc : get after sourceCol =
                   without_id taskId (get (tasksByStatus st) sourceCol)).
    { rewrite Hafter. unfold moved_lists.
      rewrite get_set_other by congruence. apply get_set_same. }
    split; [exact Hsrc|]. intros t Ht. rewrite Hsrc in Ht.
    eapply without_id_clean; eassumption. }
  split.
  { intros k Hs Hd. rewrite Hafter. unfold moved_lists.
    rewrite !get_set_other by congruence. reflexivity. }
  unfold m. rewrite (moveTask_found be _ _ _ destCol destIndex _ Hfind).
  rewrite !remote_calls_bind, !filter_app.
  rewrite status_updates_fetchStatusWiseCounts.
  destruct (on_update_task_status be (id task) (statusKeyToStatusLabel destCol));
    reflexivity.
Qed.

Lemma moveTask_relocates_witness :
  find (has_id "1") (get (tasksByStatus one_todo) ToDo)
    = Some (sample_task 1 "To Do")
  /\ get (tasksByStatus
            (exec one_todo
               (moveTask (table_backend []) one_todo "1" ToDo Done 0))) Done
     = [sample_task 1 "Done"].
Proof.
  split; [reflexivity|].
  exact (proj1 (proj2
    (moveTask_relocates (table_backend []) one_todo "1" ToDo Done 0
       (sample_task 1 "To Do") eq_refl))).
Defined.

(** C1 as stated fails for an index beyond the destination list: moving the
    only task to position 5 of the empty "done" list puts it at position 0,
    and position 5 holds nothing. *)
Lemma moveTask_index_counterexample :
  find (has_id "1") (get (tasksByStatus one_todo) ToDo)
    = Some (sample_task 1 "To Do")
  /\ nth_error
       (get (tasksByStatus
               (exec one_todo
                  (moveTask (table_backend []) one_todo "1" ToDo Done 5))) Done)
       (Z.to_nat 5) <> Some (with_status (sample_task 1 "To Do") "Done")
  /\ get (tasksByStatus
            (exec one_todo
               (moveTask (table_backend []) one_todo "1" ToDo Done 5))) Done
     = [sample_task 1 "Done"].
Proof. split; [reflexivity|]. split; [discriminate|reflexivity]. Qed.

(** C10: when no task of the source list has the id, [moveTask] performs no
    effect at all: no dispatch (the store is unchanged) and no remote call. *)
Theorem moveTask_absent_noop be st taskId sourceCol destCol destIndex :
  (forall t, In t (get (tasksByStatus st) sourceCol) -> has_id taskId t = false) ->
  effects (moveTask be st taskId sourceCol destCol destIndex) = []
  /\ exec st (moveTask be st taskId sourceCol destCol destIndex) = st
  /\ remote_calls (moveTask be st taskId sourceCol destCol destIndex) = [].
Proof.
  intros Habs. unfold moveTask.
  destruct (find (has_id taskId) (get (tasksByStatus st) sourceCol)) eqn:E.
  - apply find_some in E. destruct E as [Hin Hid].
    rewrite (Habs _ Hin) in Hid. discriminate.
  - repeat split.
Qed.

Lemma moveTask_absent_noop_witness :
  (forall t, In t (get (tasksByStatus one_todo) ToDo) -> has_id "7" t = false)
  /\ exec one_todo (moveTask failing_backend one_todo "7" ToDo Done 0) = one_todo.
Proof.
  assert (H : forall t, In t (get (tasksByStatus one_todo) ToDo) ->
                        has_id "7" t = false)
    by (intros t [<-|[]]; reflexivity).
  split; [exact H|].
  exact (proj1 (proj2
    (moveTask_absent_noop failing_backend one_todo "7" ToDo Done 0 H))).
Defined.

(** C7: when the status update answers with an error, the effects are the
    optimistic dispatch, the call, the console error and the count refresh;
    no further dispatch touches the task lists, which stay the moved ones,
    the same as after a successful update. *)
Theorem moveTask_keeps_move_on_error be st taskId sourceCol destCol destIndex
    task error :
  find (has_id taskId) (get (tasksByStatus st) sourceCol) = Some task ->
  on_update_task_status be (id task) (statusKeyToStatusLabel destCol)
    = Failure error ->
  let m := moveTask be st taskId sourceCol destCol destIndex in
  let moved := moved_lists (tasksByStatus st) task taskId
                           sourceCol destCol destIndex in
  effects m =
    [Dispatch (SET_TASKS_BY_STATUS moved);
     Remote (update_task_status (id task) (statusKeyToStatusLabel destCol));
     ConsoleError "Failed to update task status:" error]
    ++ effects (fetchStatusWiseCounts be
                  (reducer st (SET_TASKS_BY_STATUS moved)))
  /\ tasksByStatus (exec st m) = moved
  /\ forall be_ok,
       on_update_task_status be_ok (id task) (statusKeyToStatusLabel destCol)
         = Success tt ->
       tasksByStatus
         (exec st (moveTask be_ok st taskId sourceCol destCol destIndex))
       = tasksByStatus (exec st m).
Proof.
  intros Hfind Herr m moved. split; [|split].
  - unfold m. rewrite (moveTask_found be _ _ _ destCol destIndex _ Hfind).
    rewrite Herr. reflexivity.
  - apply tasksByStatus_after_move. exact Hfind.
  - intros be_ok _. unfold m.
    now rewrite !(tasksByStatus_after_move _ _ _ _ destCol destIndex _ Hfind).
Qed.

Lemma moveTask_keeps_move_on_error_witness :
  find (has_id "1") (get (tasksByStatus one_todo) ToDo)
    = Some (sample_task 1 "To Do")
  /\ on_update_task_status failing_backend 1 "Done" = Failure "connection refused"
  /\ tasksByStatus
       (exec one_todo (moveTask failing_backend one_todo "1" ToDo Done 0))
     = mkByStatus [] [] [sample_task 1 "Done"].
Proof.
  split; [reflexivity|]. split; [reflexivity|].
  exact (proj1 (proj2
    (moveTask_keeps_move_on_error failing_backend one_todo "1" ToDo Done 0
       (sample_task 1 "To Do") "connection refused" eq_refl eq_refl))).
Defined.

(** ** Fetch helpers on failure *)

(** C8: when the list fetch answers with an error, [fetchTasksByStatus]
    yields the empty list, and when the count call answers with an error,
    [getTaskCountByStatus] yields 0: the results of a backend that answers
    with no rows and a count of 0. The caller receives a plain list and a
    plain number; the error goes to the console only, and nothing is
    dispatched to the store. *)
Theorem fetch_failures_read_as_empty be be_empty status filters
    cstatus c sc dr sq cs hb pr e e' :
  on_get_task_by_status be (fetch_args status filters) = Failure e ->
  on_get_task_count_by_status be (count_args cstatus c sc dr sq cs hb pr)
    = Failure e' ->
  on_get_task_by_status be_empty (fetch_args status filters) = Success [] ->
  on_get_task_count_by_status be_empty (count_args cstatus c sc dr sq cs hb pr)
    = Success (Some 0) ->
  result (fetchTasksByStatus be status filters) = []
  /\ result (getTaskCountByStatus be cstatus c sc dr sq cs hb pr) = 0
  /\ result (fetchTasksByStatus be status filters)
     = result (fetchTasksByStatus be_empty status filters)
  /\ result (getTaskCountByStatus be cstatus c sc dr sq cs hb pr)
     = result (getTaskCountByStatus be_empty cstatus c sc dr sq cs hb pr)
  /\ effects (fetchTasksByStatus be status filters)
     = [Remote (get_task_by_status (fetch_args status filters));
        ConsoleError "Error fetching tasks:" e]
  /\ effects (getTaskCountByStatus be cstatus c sc dr sq cs hb pr)
     = [Remote (get_task_count_by_status
                  (count_args cstatus c sc dr sq cs hb pr));
        ConsoleError ("Count error for status " ++ cstatus ++ ":")%string e'].
Proof.
  intros Hf Hc Hf0 Hc0.
  unfold fetchTasksByStatus, getTaskCountByStatus.
  rewrite Hf, Hc, Hf0, Hc0. repeat split.
Qed.

Lemma fetch_failures_read_as_empty_witness :
  result (fetchTasksByStatus failing_backend "To Do" no_filters) = []
  /\ result (getTaskCountByStatus failing_backend "To Do" None None
               (mkDateRange None None) None [] None (mkPriceRange None None)) = 0.
Proof.
  pose proof (fetch_failures_read_as_empty failing_backend (table_backend [])
    "To Do" no_filters "To Do" None None (mkDateRange None None) None []
    None (mkPriceRange None None) "connection refused" "connection refused"
    eq_refl eq_refl eq_refl eq_refl) as H.
  split; [exact (proj1 H) | exact (proj1 (proj2 H))].
Defined.

(** ** The earlier variant's load *)

Create Rewrite HintDb store.
#[local] Hint Rewrite @exec_bind @exec_ret exec_dispatch
  exec_fetchTasksByStatus exec_getTaskCountByStatus : store.

Ltac run_store := autorewrite with store.

Lemma legacy_exec_fetch be s state status filters :
  exec s (Legacy.fetchTasksByStatus be state status filters) = s.
Proof.
  unfold Legacy.fetchTasksByStatus. cbv zeta.
  destruct (on_get_tasks_by_status be _); reflexivity.
Qed.

Lemma legacy_calls_fetch be state status filters :
  remote_calls (Legacy.fetchTasksByStatus be state status filters)
  = [get_tasks_by_status (Legacy.tasks_args state status filters)].
Proof.
  unfold Legacy.fetchTasksByStatus. cbv zeta.
  destruct (on_get_tasks_by_status be _); reflexivity.
Qed.

Lemma legacy_fetched_page_answer be state reset key :
  Legacy.fetched_page be state reset key
  = match on_get_tasks_by_status be (Legacy.load_args state reset key) with
    | Success data => data
    | Failure _ => []
    end.
Proof.
  unfold Legacy.fetched_page, Legacy.load_args, Legacy.fetchTasksByStatus.
  cbv zeta. destruct (on_get_tasks_by_status be _); reflexivity.
Qed.

(** The earlier load always runs: one list fetch per status it covers. *)
Lemma legacy_calls_loadMoreTasks be state reset specificStatus :
  remote_calls (Legacy.loadMoreTasks be state reset specificStatus)
  = map (fun key => get_tasks_by_status (Legacy.load_args state reset key))
        (statuses_of specificStatus).
Proof.
  unfold Legacy.loadMoreTasks.
  destruct specificStatus as [k|];
    cbn [statuses_of statusKeyArray mapM map];
    repeat (rewrite remote_calls_bind || rewrite legacy_calls_fetch);
    reflexivity.
Qed.

(** The store it leaves, for a status it covers. *)
Lemma legacy_after_load be st reset specificStatus k :
  In k (statuses_of specificStatus) ->
  let st' := exec st (Legacy.loadMoreTasks be st reset specificStatus) in
  get (tasksByStatus st') k
    = (if reset then [] else get (tasksByStatus st) k)
      ++ Legacy.fetched_page be st reset k
  /\ get (pageByStatus st') k
     = (if reset then 0 else get (pageByStatus st) k) + 1
  /\ get (hasMoreByStatus st') k
     = (0 <? Z.of_nat (List.length (Legacy.fetched_page be st reset k)))
  /\ loading st' = false
  /\ filter_deps st' = filter_deps st
  /\ totalCountByStatus st' = totalCountByStatus st.
Proof.
  intros Hin. cbv zeta. unfold Legacy.loadMoreTasks, Legacy.fetched_page.
  destruct specificStatus as [k'|].
  - destruct Hin as [<-|[]].
    cbn [statuses_of mapM]. unfold setLoading, setTasksByStatus.
    repeat (rewrite exec_bind || rewrite exec_dispatch || rewrite exec_ret
            || rewrite legacy_exec_fetch).
    destruct st, k', reset; repeat split.
  - cbn [statuses_of statusKeyArray mapM]. unfold setLoading, setTasksByStatus.
    repeat (rewrite exec_bind || rewrite exec_dispatch || rewrite exec_ret
            || rewrite legacy_exec_fetch).
    destruct st, k, reset; repeat split.
Qed.

(** ** [loadMoreTasks] *)

(** C5: with [loading] set, a non-reset [loadMoreTasks] of the current hook
    performs no effect: no remote call, no dispatch, and the store is what
    it was. The [loadMoreTasks] of the earlier variant has no such guard:
    with [loading] set it still issues one list fetch per status it covers,
    moves the cursor of each on by one and ends with [loading] false, so the
    store is not what it was. *)
Theorem loadMoreTasks_skips_while_loading be st specificStatus :
  loading st = true ->
  (effects (loadMoreTasks be st false specificStatus) = []
   /\ remote_calls (loadMoreTasks be st false specificStatus) = []
   /\ exec st (loadMoreTasks be st false specificStatus) = st)
  /\ (let st' := exec st (Legacy.loadMoreTasks be st false specificStatus) in
      remote_calls (Legacy.loadMoreTasks be st false specificStatus)
      = map (fun key => get_tasks_by_status (Legacy.load_args st false key))
            (statuses_of specificStatus)
      /\ (forall k, In k (statuses_of specificStatus) ->
            get (tasksByStatus st') k
              = get (tasksByStatus st) k ++ Legacy.fetched_page be st false k
            /\ get (pageByStatus st') k = get (pageByStatus st) k + 1)
      /\ loading st' = false
      /\ st' <> st).
Proof.
  intros H. split.
  - unfold loadMoreTasks. rewrite H. repeat split.
  - cbv zeta.
    assert (Hin : exists k, In k (statuses_of specificStatus))
      by (destruct specificStatus as [k|]; [exists k|exists ToDo]; now left).
    destruct Hin as (k0 & Hk0).
    assert (Hl : loading (exec st (Legacy.loadMoreTasks be st false specificStatus))
                 = false)
      by exact (proj1 (proj2 (proj2 (proj2
                  (legacy_after_load be st false specificStatus k0 Hk0))))).
    split; [apply legacy_calls_loadMoreTasks|].
    split; [|split; [exact Hl|intros E; rewrite E in Hl; congruence]].
    intros k Hk.
    destruct (legacy_after_load be st false specificStatus k Hk)
      as (Ht & Hp & _).
    now split.
Qed.

Lemma loadMoreTasks_skips_while_loading_witness :
  loading (reducer in_progress_closed (SET_LOADING true)) = true
  /\ proceeds in_progress_closed None = true
  /\ exec (reducer in_progress_closed (SET_LOADING true))
          (loadMoreTasks (table_backend long_board_rows)
             (reducer in_progress_closed (SET_LOADING true)) false None)
     = reducer in_progress_closed (SET_LOADING true).
Proof.
  split; [reflexivity|]. split; [vm_compute; reflexivity|].
  exact (proj2 (proj2 (proj1
    (loadMoreTasks_skips_while_loading (table_backend long_board_rows)
       (reducer in_progress_closed (SET_LOADING true)) None eq_refl)))).
Defined.

(** C5 as stated fails on the earlier variant: with a load in flight, its
    [loadMoreTasks] fetches the three statuses again, fills "to-do" and
    clears [loading]. *)
Lemma loadMoreTasks_earlier_variant_counterexample :
  loading load_in_flight = true
  /\ map (fun c => match c with
                   | get_tasks_by_status a => ta_task_status a
                   | _ => EmptyString
                   end)
         (remote_calls (Legacy.loadMoreTasks (table_backend todo_rows)
                          load_in_flight false None))
     = ["To Do"; "In Progress"; "Done"]
  /\ get (tasksByStatus
            (exec load_in_flight
               (Legacy.loadMoreTasks (table_backend todo_rows)
                  load_in_flight false None))) ToDo
     = firstn 10 todo_rows
  /\ loading (exec load_in_flight
                (Legacy.loadMoreTasks (table_backend todo_rows)
                   load_in_flight false None)) = false.
Proof. repeat split. Qed.

Lemma loadMoreTasks_skipped be st specificStatus :
  proceeds st specificStatus = false ->
  loadMoreTasks be st false specificStatus = ret tt.
Proof.
  unfold proceeds, loadMoreTasks. destruct (loading st); simpl; [reflexivity|].
  intros ->. reflexivity.
Qed.

(** The store after a non-reset load that proceeds. *)
Lemma exec_loadMoreTasks_proceeds be s cur specificStatus :
  proceeds cur specificStatus = true ->
  exec s (loadMoreTasks be cur false specificStatus) =
  reducer
    (fold_left (load_step be cur) (statuses_of specificStatus)
               (reducer s (SET_LOADING true)))
    (SET_LOADING false).
Proof.
  unfold proceeds. intros H. apply andb_prop in H. destruct H as [Hl Hs].
  apply negb_true_iff in Hl.
  unfold loadMoreTasks. rewrite Hl, Hs.
  destruct specificStatus as [k|];
    cbn [andb negb statuses_of statusKeyArray mapM forEach];
    unfold setLoading; run_store; reflexivity.
Qed.

(** The store after a reset load. *)
Lemma exec_loadMoreTasks_reset be s cur specificStatus :
  exec s (loadMoreTasks be cur true specificStatus) =
  reducer
    (reducer
       (reducer
          (fold_left (reset_step be cur) (statuses_of specificStatus)
                     (reducer s (SET_LOADING true)))
          (SET_TASKS_BY_STATUS
             (fold_left (fun acc key => set acc key (fetched_page be cur true key))
                        (statuses_of specificStatus) (mkByStatus [] [] []))))
       (SET_LOADING false))
    (SET_FILTERS_CHANGED false).
Proof.
  unfold loadMoreTasks. rewrite andb_false_r.
  replace (negb (shouldLoadMore_of cur true (statuses_of specificStatus))
           && negb true) with false by (now rewrite andb_false_r).
  destruct specificStatus as [k|];
    cbn [statuses_of statusKeyArray mapM forEach];
    unfold setLoading, setTasksByStatus, setFiltersChanged;
    run_store; reflexivity.
Qed.

(** A load lists one fetch per status it covers. *)
Lemma fetch_calls_loadMoreTasks_reset be cur specificStatus :
  map fa_task_status (fetch_calls (loadMoreTasks be cur true specificStatus)) =
  map statusKeyToStatusLabel (statuses_of specificStatus).
Proof.
  unfold loadMoreTasks. rewrite andb_false_r.
  replace (negb (shouldLoadMore_of cur true (statuses_of specificStatus))
           && negb true) with false by (now rewrite andb_false_r).
  destruct specificStatus as [k|];
    cbn [statuses_of statusKeyArray mapM forEach];
    repeat (rewrite fetch_calls_bind || rewrite fetch_calls_fetchTasksByStatus);
    reflexivity.
Qed.




Lemma query_part_load_step be cur s key :
  query_part (load_step be cur s key) = query_part s.
Proof. now destruct s. Qed.

Lemma query_part_set_loading s b :
  query_part (reducer s (SET_LOADING b)) = query_part s.
Proof. now destruct s. Qed.

Lemma query_part_fold_load_step be cur l s :
  query_part (fold_left (load_step be cur) l s) = query_part s.
Proof.
  revert s. induction l as [|key l IH]; intros s; [reflexivity|].
  cbn [fold_left]. now rewrite IH, query_part_load_step.
Qed.

(** A non-reset load changes neither the filter values nor the totals. *)
Lemma query_part_loadMoreTasks be st specificStatus :
  query_part (exec st (loadMoreTasks be st false specificStatus))
  = query_part st.
Proof.
  destruct (proceeds st specificStatus) eqn:Hp.
  - rewrite (exec_loadMoreTasks_proceeds _ _ _ _ Hp).
    now rewrite query_part_set_loading, query_part_fold_load_step,
                query_part_set_loading.
  - now rewrite (loadMoreTasks_skipped _ _ _ Hp).
Qed.

Lemma query_part_limit a b :
  query_part a = query_part b -> effectiveLimit_of a = effectiveLimit_of b.
Proof.
  unfold query_part, filter_deps, effectiveLimit_of. intros H.
  injection H as _ _ _ _ _ Hl _ _ _ _. now rewrite Hl.
Qed.






(** ** The filter effect *)

Lemma changes_field_deps st f :
  changes_field st f ->
  filter_deps st <> filter_deps (reducer st (setter_action f)).
Proof.
  destruct st, f; cbn; intros Hne Heq; injection Heq; congruence.
Qed.

Lemma filtersChanged_after_setter st f :
  filtersChanged (reducer st (setter_action f)) = true.
Proof. destruct st, f; reflexivity. Qed.

Lemma filter_deps_reset_reload be st :
  filter_deps
    (exec st (resetPagination ;;
              loadMoreTasks be st true None ;;
              fetchStatusWiseCounts be st))
  = filter_deps st.
Proof.
  rewrite !exec_bind. unfold resetPagination. rewrite exec_dispatch.
  rewrite exec_loadMoreTasks_reset, exec_fetchStatusWiseCounts_counted.
  destruct st; reflexivity.
Qed.

(** C3: a setter call that changes one of the nine filter fields marks the
    filters as changed; the effect that follows the render dispatches
    RESET_PAGINATION first, which leaves the three task lists empty, every
    page at 0 and every has-more flag true, and then starts one reset load,
    which issues exactly one list fetch per status, and one count refresh.
    The effect changes no filter value, so it does not run a second time. *)
Theorem filter_change_resets_and_reloads be st f :
  changes_field st f ->
  let st1 := reducer st (setter_action f) in
  let m := after_render be st st1 in
  let st2 := reducer st1 RESET_PAGINATION in
  filtersChanged st1 = true
  /\ effects m =
     Dispatch RESET_PAGINATION
     :: effects (loadMoreTasks be st1 true None ;; fetchStatusWiseCounts be st1)
  /\ tasksByStatus st2 = mkByStatus [] [] []
  /\ pageByStatus st2 = mkByStatus 0 0 0
  /\ hasMoreByStatus st2 = mkByStatus true true true
  /\ map fa_task_status (fetch_calls m) = ["To Do"; "In Progress"; "Done"]
  /\ after_render be st1 (exec st1 m) = ret tt.
Proof.
  intros Hch st1 m st2.
  assert (Hfc : filtersChanged st1 = true) by apply filtersChanged_after_setter.
  assert (Hm : m = (resetPagination ;;
                    loadMoreTasks be st1 true None ;;
                    fetchStatusWiseCounts be st1)).
  { unfold m, after_render.
    destruct (FilterDeps_eq_dec (filter_deps st) (filter_deps st1)) as [E|_].
    - exfalso. exact (changes_field_deps st f Hch E).
    - unfold filtersChanged_effect. now rewrite Hfc. }
  split; [exact Hfc|]. split; [now rewrite Hm|].
  split; [unfold st2; now destruct st1|].
  split; [unfold st2; now destruct st1|].
  split; [unfold st2; now destruct st1|].
  split.
  - rewrite Hm. rewrite !fetch_calls_bind, map_app, map_app.
    rewrite fetch_calls_loadMoreTasks_reset, fetch_calls_fetchStatusWiseCounts.
    reflexivity.
  - unfold after_render.
    destruct (FilterDeps_eq_dec (filter_deps st1) (filter_deps (exec st1 m)))
      as [_|Hne]; [reflexivity|].
    exfalso. apply Hne. rewrite Hm. symmetry. apply filter_deps_reset_reload.
Qed.

Lemma filter_change_resets_and_reloads_witness :
  changes_field one_todo (setCategoryFilter (Some "Writing"))
  /\ map fa_task_status
       (fetch_calls
          (after_render (table_backend todo_rows) one_todo
             (reducer one_todo (SET_CATEGORY_FILTER (Some "Writing")))))
     = ["To Do"; "In Progress"; "Done"].
Proof.
  assert (H : changes_field one_todo (setCategoryFilter (Some "Writing")))
    by (cbn; discriminate).
  split; [exact H|].
  exact (proj1 (proj2 (proj2 (proj2 (proj2 (proj2
    (filter_change_resets_and_reloads (table_backend todo_rows) one_todo
       (setCategoryFilter (Some "Writing")) H))))))).
Defined.

(** ** Paging through 25 rows *)

Lemma firstn_plus {A} (n m : nat) (l : list A) :
  firstn (n + m) l = firstn n l ++ firstn m (skipn n l).
Proof.
  revert l. induction n as [|n IH]; intros l; [reflexivity|].
  destruct l as [|x l]; cbn [Nat.add firstn skipn app].
  - now rewrite firstn_nil.
  - now rewrite IH.
Qed.

Lemma after_load_steps be cur s specificStatus k :
  In k (statuses_of specificStatus) ->
  let s' := fold_left (load_step be cur) (statuses_of specificStatus) s in
  get (tasksByStatus s') k
    = get (tasksByStatus cur) k ++ fetched_page be cur false k
  /\ get (pageByStatus s') k = get (pageByStatus cur) k + 1
  /\ get (hasMoreByStatus s') k
     = (Z.of_nat (List.length (fetched_page be cur false k))
        =? effectiveLimit_of cur).
Proof.
  intros Hin. destruct specificStatus as [k'|].
  - destruct Hin as [<-|[]].
    destruct s, k'; cbn [statuses_of fold_left load_step reducer set get
                         tasksByStatus pageByStatus hasMoreByStatus
                         to_do in_progress done]; repeat split.
  - destruct s, k; cbn [statuses_of fold_left statusKeyArray load_step reducer
                        set get tasksByStatus pageByStatus hasMoreByStatus
                        to_do in_progress done]; repeat split.
Qed.

Lemma after_set_loading s b :
  tasksByStatus (reducer s (SET_LOADING b)) = tasksByStatus s
  /\ pageByStatus (reducer s (SET_LOADING b)) = pageByStatus s
  /\ hasMoreByStatus (reducer s (SET_LOADING b)) = hasMoreByStatus s
  /\ loading (reducer s (SET_LOADING b)) = b.
Proof. now destruct s. Qed.

Lemma writing_filters_fields st :
  filter_deps st = filter_deps writing_filters ->
  statusFilter st = None /\ categoryFilter st = Some "Writing"
  /\ limit st = Some 10.
Proof.
  unfold filter_deps. cbn. intros H. injection H. intros. now subst.
Qed.

(** The store after the effect's reset-reload, status by status. *)
Lemma after_reset_reload be st k :
  let s' := exec st (resetPagination ;;
                     loadMoreTasks be st true None ;;
                     fetchStatusWiseCounts be st) in
  get (tasksByStatus s') k = fetched_page be st true k
  /\ get (pageByStatus s') k = 1
  /\ get (hasMoreByStatus s') k
     = (Z.of_nat (List.length (fetched_page be st true k))
        =? effectiveLimit_of st)
  /\ get (totalCountByStatus s') k = counted be st k
  /\ loading s' = false
  /\ filtersChanged s' = false.
Proof.
  cbv zeta. rewrite !exec_bind. unfold resetPagination. rewrite exec_dispatch.
  rewrite exec_loadMoreTasks_reset, exec_fetchStatusWiseCounts_counted.
  destruct st, k;
    cbn [statuses_of statusKeyArray fold_left reset_step reducer set get
         tasksByStatus pageByStatus hasMoreByStatus totalCountByStatus
         loading filtersChanged to_do in_progress done];
    repeat split.
Qed.

Section Paging.

Variable be : Backend.
Variable rows : list Task.
Hypothesis rows_25 : List.length rows = 25%nat.
Hypothesis serves : serves_writing_todo be rows.

Lemma fetched_page_todo st reset :
  filter_deps st = filter_deps writing_filters ->
  fetched_page be st reset ToDo =
  firstn 10 (skipn (Z.to_nat ((if reset then 0 else get (pageByStatus st) ToDo)
                              * 10)) rows).
Proof.
  intros Hd. destruct (writing_filters_fields st Hd) as (Hs & Hc & Hl).
  unfold fetched_page. rewrite result_fetchTasksByStatus.
  rewrite (proj1 serves).
  - unfold fetch_args, filtered_for, effectiveLimit_of.
    cbn [f_limit f_offset fa_limit_count fa_offset_count].
    now rewrite Hl.
  - reflexivity.
  - unfold fetch_args, filtered_for. cbn [fa_category_filter f_categoryFilter].
    now rewrite Hs, Hc.
Qed.

Lemma counted_todo st :
  filter_deps st = filter_deps writing_filters ->
  counted be st ToDo = 25.
Proof.
  intros Hd. destruct (writing_filters_fields st Hd) as (Hs & Hc & Hl).
  unfold counted, getTaskCountByStatus. rewrite Hs, Hc.
  cbn [statusKeyToStatusLabel applies_to].
  rewrite (proj1 (proj2 serves)) by reflexivity.
  cbn [bind emit ret effects result fst snd]. now rewrite rows_25.
Qed.

(** The same page through the list procedure of the earlier variant. *)
Lemma legacy_fetched_page_todo st reset :
  filter_deps st = filter_deps writing_filters ->
  Legacy.fetched_page be st reset ToDo =
  firstn 10 (skipn (Z.to_nat ((if reset then 0 else get (pageByStatus st) ToDo)
                              * 10)) rows).
Proof.
  intros Hd. destruct (writing_filters_fields st Hd) as (Hs & Hc & Hl).
  rewrite legacy_fetched_page_answer.
  rewrite (proj2 (proj2 serves)).
  - unfold Legacy.load_args, Legacy.tasks_args, Legacy.filtered_for.
    rewrite Hs, Hl. reflexivity.
  - reflexivity.
  - unfold Legacy.load_args, Legacy.tasks_args, Legacy.filtered_for.
    rewrite Hs, Hc. reflexivity.
Qed.

(** One load of the earlier variant, of every status or of "to-do" alone,
    from a store that holds [p] pages; a reset load starts from none. *)
Lemma legacy_todo_next_page st p reset specificStatus :
  specificStatus = None \/ specificStatus = Some ToDo ->
  filter_deps st = filter_deps writing_filters ->
  get (tasksByStatus st) ToDo = firstn (Z.to_nat (10 * p)) rows ->
  get (pageByStatus st) ToDo = p ->
  0 <= p -> (reset = true -> p = 0) ->
  let st' := exec st (Legacy.loadMoreTasks be st reset specificStatus) in
  filter_deps st' = filter_deps writing_filters
  /\ get (tasksByStatus st') ToDo = firstn (Z.to_nat (10 * (p + 1))) rows
  /\ get (pageByStatus st') ToDo = p + 1
  /\ get (hasMoreByStatus st') ToDo = (10 * p <? 25).
Proof.
  intros Hspec Hd Hts Hpg Hp0 Hreset st'.
  assert (Hin : In ToDo (statuses_of specificStatus))
    by (destruct Hspec as [->| ->]; now left).
  destruct (legacy_after_load be st reset specificStatus ToDo Hin)
    as (Ht & Hpage & Hmore & _ & Hdeps & _).
  fold st' in Ht, Hpage, Hmore, Hdeps.
  assert (Hfp : Legacy.fetched_page be st reset ToDo
                = firstn 10 (skipn (Z.to_nat (10 * p)) rows)).
  { rewrite (legacy_fetched_page_todo st reset Hd).
    destruct reset; [rewrite (Hreset eq_refl)|rewrite Hpg];
      do 3 f_equal; lia. }
  assert (Hold : (if reset then [] else get (tasksByStatus st) ToDo)
                 = firstn (Z.to_nat (10 * p)) rows).
  { destruct reset; [now rewrite (Hreset eq_refl)|exact Hts]. }
  split; [congruence|]. split; [|split].
  - rewrite Ht, Hold, Hfp.
    replace (Z.to_nat (10 * (p + 1))) with (Z.to_nat (10 * p) + 10)%nat by lia.
    now rewrite firstn_plus.
  - rewrite Hpage. destruct reset; [now rewrite (Hreset eq_refl)|now rewrite Hpg].
  - rewrite Hmore, Hfp, length_firstn, length_skipn, rows_25.
    destruct (10 * p <? 25) eqn:E.
    + apply Z.ltb_lt in E. apply Z.ltb_lt. lia.
    + apply Z.ltb_ge in E. apply Z.ltb_ge. lia.
Qed.

(** One further load, of every status or of "to-do" alone, from a store that
    holds [p] pages. *)
Lemma todo_next_page st p specificStatus :
  specificStatus = None \/ specificStatus = Some ToDo ->
  todo_loaded rows p st -> 0 <= p -> 10 * p < 25 ->
  let st' := exec st (loadMoreTasks be st false specificStatus) in
  filter_deps st' = filter_deps writing_filters
  /\ loading st' = false
  /\ get (totalCountByStatus st') ToDo = 25
  /\ get (tasksByStatus st') ToDo = firstn (Z.to_nat (10 * (p + 1))) rows
  /\ get (pageByStatus st') ToDo = p + 1
  /\ get (hasMoreByStatus st') ToDo = (10 * (p + 1) <=? 25).
Proof.
  intros Hspec (Hd & Hld & Htot & Hts & Hpg & Hhm) Hp0 Hp st'.
  assert (Hq : query_part st' = query_part st)
    by apply query_part_loadMoreTasks.
  assert (Hin : In ToDo (statuses_of specificStatus))
    by (destruct Hspec as [->| ->]; now left).
  assert (Hproc : proceeds st specificStatus = true).
  { unfold proceeds. rewrite Hld. cbn [negb andb].
    assert (Hgate : (Z.of_nat (List.length (get (tasksByStatus st) ToDo))
                     <? get (totalCountByStatus st) ToDo)
                    && get (hasMoreByStatus st) ToDo = true).
    { rewrite Htot, Hts, Hhm, length_firstn, rows_25.
      apply andb_true_intro. split; [apply Z.ltb_lt; lia|reflexivity]. }
    unfold shouldLoadMore_of.
    destruct Hspec as [->| ->]; cbn [statuses_of statusKeyArray existsb orb];
      now rewrite Hgate. }
  assert (Hexec : st' = reducer
                          (fold_left (load_step be st)
                                     (statuses_of specificStatus)
                                     (reducer st (SET_LOADING true)))
                          (SET_LOADING false))
    by apply (exec_loadMoreTasks_proceeds _ _ _ _ Hproc).
  destruct (after_set_loading
              (fold_left (load_step be st) (statuses_of specificStatus)
                         (reducer st (SET_LOADING true))) false)
    as (Ht & Hpage & Hmore & Hloading).
  destruct (after_load_steps be st (reducer st (SET_LOADING true))
                             specificStatus ToDo Hin)
    as (Ht' & Hpage' & Hmore').
  rewrite <- Hexec in Ht, Hpage, Hmore, Hloading.
  assert (Hq1 : filter_deps st' = filter_deps st) by exact (f_equal fst Hq).
  assert (Hq2 : totalCountByStatus st' = totalCountByStatus st)
    by exact (f_equal snd Hq).
  destruct (writing_filters_fields st Hd) as (_ & _ & Hl).
  assert (Hfp := fetched_page_todo st false Hd). cbv iota in Hfp.
  rewrite Hpg in Hfp.
  split; [congruence|]. split; [exact Hloading|].
  split; [congruence|].
  split; [|split].
  - rewrite Ht, Ht', Hts, Hfp.
    replace (Z.to_nat (10 * (p + 1))) with (Z.to_nat (10 * p) + 10)%nat by lia.
    rewrite firstn_plus. do 3 f_equal. lia.
  - rewrite Hpage, Hpage', Hpg. reflexivity.
  - rewrite Hmore, Hmore', Hfp. unfold effectiveLimit_of. rewrite Hl.
    rewrite length_firstn, length_skipn, rows_25.
    destruct (10 * (p + 1) <=? 25) eqn:E.
    + apply Z.leb_le in E. apply Z.eqb_eq. lia.
    + apply Z.leb_gt in E. apply Z.eqb_neq. lia.
Qed.

(** The reset-reload that the filter effect starts leaves one page. *)
Lemma todo_first_page :
  let s1 := exec writing_filters
                 (after_render be initialState writing_filters) in
  filter_deps s1 = filter_deps writing_filters
  /\ loading s1 = false
  /\ get (totalCountByStatus s1) ToDo = 25
  /\ get (tasksByStatus s1) ToDo = firstn 10 rows
  /\ get (pageByStatus s1) ToDo = 1
  /\ get (hasMoreByStatus s1) ToDo = true.
Proof.
  intros s1.
  assert (Hs1 : s1 = exec writing_filters
                       (resetPagination ;;
                        loadMoreTasks be writing_filters true None ;;
                        fetchStatusWiseCounts be writing_filters)).
  { unfold s1, after_render.
    destruct (FilterDeps_eq_dec _ _) as [E|_]; [discriminate E|reflexivity]. }
  destruct (after_reset_reload be writing_filters ToDo)
    as (Ht & Hpg & Hhm & Htot & Hld & _).
  cbv zeta in Ht, Hpg, Hhm, Htot, Hld. rewrite <- Hs1 in Ht, Hpg, Hhm, Htot, Hld.
  assert (Hpage : fetched_page be writing_filters true ToDo = firstn 10 rows)
    by (now rewrite fetched_page_todo).
  split; [rewrite Hs1; apply filter_deps_reset_reload|].
  split; [exact Hld|].
  split; [rewrite Htot; now apply counted_todo|].
  split; [now rewrite Ht|].
  split; [exact Hpg|].
  rewrite Hhm, Hpage, length_firstn, rows_25. reflexivity.
Qed.

End Paging.

(** Without totals no status lets a non-reset load proceed. *)
Lemma no_totals_no_load be st specificStatus :
  totalCountByStatus st = mkByStatus 0 0 0 ->
  loadMoreTasks be st false specificStatus = ret tt.
Proof.
  intros Ht. apply loadMoreTasks_skipped. unfold proceeds.
  assert (Hgate : forall key,
             (Z.of_nat (List.length (get (tasksByStatus st) key))
              <? get (totalCountByStatus st) key) = false).
  { intros key. rewrite Ht. apply Z.ltb_ge. destruct key; cbn; lia. }
  unfold shouldLoadMore_of.
  destruct specificStatus as [key|];
    cbn [statuses_of statusKeyArray existsb orb];
    rewrite ?Hgate; cbn [andb orb]; apply andb_false_r.
Qed.

Lemma totals_after_reset_load be st cur specificStatus :
  totalCountByStatus (exec st (loadMoreTasks be cur true specificStatus))
  = totalCountByStatus st.
Proof.
  rewrite exec_loadMoreTasks_reset.
  destruct st, specificStatus as [[]|]; reflexivity.
Qed.

(** C2, variant by variant, with category "Writing" and limit 10 applied to
    the initial store and a backend serving 25 matching "To Do" rows.

    In the current hook the load that the filter change starts (a reset
    load with its count refresh) leaves the first 10 rows in "to-do" with
    [hasMore] true; after two further [loadMoreTasks] calls, each for every
    status or for "to-do" alone, "to-do" holds all 25 rows and [hasMore] is
    false. Bare calls do not get there: the totals being 0, a non-reset call
    on the fresh store is skipped, and after a reset load alone, which
    leaves the first 10 rows, every further call is skipped.

    In the earlier variant the first [loadMoreTasks] call, reset or not,
    leaves the first 10 rows with [hasMore] true and two further calls leave
    all 25, but [hasMore], there "the page was not empty", is still true; a
    fourth call receives an empty page and sets it to false. *)
Theorem paging_25_rows be rows second third :
  List.length rows = 25%nat ->
  serves_writing_todo be rows ->
  second = None \/ second = Some ToDo ->
  third = None \/ third = Some ToDo ->
  (let s1 := exec writing_filters
                  (after_render be initialState writing_filters) in
   let s2 := exec s1 (loadMoreTasks be s1 false second) in
   let s3 := exec s2 (loadMoreTasks be s2 false third) in
   get (tasksByStatus s1) ToDo = firstn 10 rows
   /\ List.length (get (tasksByStatus s1) ToDo) = 10%nat
   /\ get (hasMoreByStatus s1) ToDo = true
   /\ get (tasksByStatus s3) ToDo = rows
   /\ List.length (get (tasksByStatus s3) ToDo) = 25%nat
   /\ get (hasMoreByStatus s3) ToDo = false)
  /\ (let r1 := exec writing_filters
                     (loadMoreTasks be writing_filters true None) in
      loadMoreTasks be writing_filters false second = ret tt
      /\ get (tasksByStatus r1) ToDo = firstn 10 rows
      /\ loadMoreTasks be r1 false second = ret tt)
  /\ (forall reset,
      let e1 := exec writing_filters
                     (Legacy.loadMoreTasks be writing_filters reset None) in
      let e2 := exec e1 (Legacy.loadMoreTasks be e1 false second) in
      let e3 := exec e2 (Legacy.loadMoreTasks be e2 false third) in
      let e4 := exec e3 (Legacy.loadMoreTasks be e3 false None) in
      get (tasksByStatus e1) ToDo = firstn 10 rows
      /\ get (hasMoreByStatus e1) ToDo = true
      /\ get (tasksByStatus e3) ToDo = rows
      /\ get (hasMoreByStatus e3) ToDo = true
      /\ get (tasksByStatus e4) ToDo = rows
      /\ get (hasMoreByStatus e4) ToDo = false).
Proof.
  intros H25 Hserves Hsecond Hthird. split; [|split].
  - intros s1 s2 s3.
    pose proof (todo_first_page be rows H25 Hserves) as H1.
    cbv zeta in H1. fold s1 in H1.
    assert (L1 : todo_loaded rows 1 s1) by exact H1.
    pose proof (todo_next_page be rows H25 Hserves s1 1 second Hsecond L1) as H2.
    cbv zeta in H2. fold s2 in H2.
    specialize (H2 ltac:(lia) ltac:(lia)).
    assert (L2 : todo_loaded rows 2 s2) by exact H2.
    pose proof (todo_next_page be rows H25 Hserves s2 2 third Hthird L2) as H3.
    cbv zeta in H3. fold s3 in H3.
    specialize (H3 ltac:(lia) ltac:(lia)).
    destruct H1 as (_ & _ & _ & Ht1 & _ & Hm1).
    destruct H3 as (_ & _ & _ & Ht3 & _ & Hm3).
    assert (Hall : get (tasksByStatus s3) ToDo = rows).
    { rewrite Ht3. apply firstn_all2. rewrite H25. cbn. lia. }
    split; [exact Ht1|].
    split; [rewrite Ht1, length_firstn, H25; reflexivity|].
    split; [exact Hm1|].
    split; [exact Hall|].
    split; [now rewrite Hall|].
    exact Hm3.
  - intros r1. split; [now apply no_totals_no_load|]. split.
    + unfold r1. rewrite exec_loadMoreTasks_reset.
      transitivity (fetched_page be writing_filters true ToDo);
        [reflexivity|].
      now rewrite (fetched_page_todo be rows Hserves writing_filters true).
    + apply no_totals_no_load. unfold r1.
      now rewrite totals_after_reset_load.
  - intros reset e1 e2 e3 e4.
    pose proof (legacy_todo_next_page be rows H25 Hserves writing_filters 0
                  reset None (or_introl eq_refl) eq_refl eq_refl eq_refl
                  ltac:(lia) (fun _ => eq_refl)) as H1.
    cbv zeta in H1. fold e1 in H1. destruct H1 as (Hd1 & Ht1 & Hp1 & Hm1).
    pose proof (legacy_todo_next_page be rows H25 Hserves e1 1 false second
                  Hsecond Hd1 Ht1 Hp1 ltac:(lia) ltac:(discriminate)) as H2.
    cbv zeta in H2. fold e2 in H2. destruct H2 as (Hd2 & Ht2 & Hp2 & _).
    pose proof (legacy_todo_next_page be rows H25 Hserves e2 2 false third
                  Hthird Hd2 Ht2 Hp2 ltac:(lia) ltac:(discriminate)) as H3.
    cbv zeta in H3. fold e3 in H3. destruct H3 as (Hd3 & Ht3 & Hp3 & Hm3).
    pose proof (legacy_todo_next_page be rows H25 Hserves e3 3 false None
                  (or_introl eq_refl) Hd3 Ht3 Hp3 ltac:(lia)
                  ltac:(discriminate)) as H4.
    cbv zeta in H4. fold e4 in H4. destruct H4 as (_ & Ht4 & _ & Hm4).
    split; [exact Ht1|]. split; [exact Hm1|].
    split; [rewrite Ht3; apply firstn_all2; rewrite H25; cbn; lia|].
    split; [exact Hm3|].
    split; [rewrite Ht4; apply firstn_all2; rewrite H25; cbn; lia|].
    exact Hm4.
Qed.

Lemma table_backend_serves_todo_rows :
  serves_writing_todo (table_backend todo_rows) todo_rows.
Proof.
  split; [|split]; intros a Hs Hc;
    cbn [table_backend on_get_task_by_status on_get_task_count_by_status
         on_get_tasks_by_status];
    unfold table_page; rewrite Hs, Hc; reflexivity.
Qed.

Lemma paging_25_rows_witness :
  List.length todo_rows = 25%nat
  /\ serves_writing_todo (table_backend todo_rows) todo_rows
  /\ get (tasksByStatus
            (run_loads
               (exec writing_filters
                  (after_render (table_backend todo_rows) initialState
                                writing_filters))
               [mkLoadCall (table_backend todo_rows) None;
                mkLoadCall (table_backend todo_rows) None])) ToDo
     = todo_rows.
Proof.
  split; [reflexivity|]. split; [exact table_backend_serves_todo_rows|].
  exact (proj1 (proj2 (proj2 (proj2 (proj1
    (paging_25_rows (table_backend todo_rows) todo_rows None None eq_refl
       table_backend_serves_todo_rows (or_introl eq_refl)
       (or_introl eq_refl))))))).
Defined.

(** C2 as stated fails on both variants over the 25 rows. In the current
    hook three [loadMoreTasks()] calls on the fresh store are all skipped
    and leave "to-do" empty, and [loadMoreTasks(true)] followed by two
    [loadMoreTasks()] calls leaves 10 rows with [hasMore] true; in the
    earlier variant three calls leave all 25 rows but [hasMore] is still
    true. *)
Lemma paging_25_rows_counterexample :
  let be := table_backend todo_rows in
  let bare := [mkLoadCall be None; mkLoadCall be None] in
  let reloaded := exec writing_filters (loadMoreTasks be writing_filters true None) in
  let load st := exec st (Legacy.loadMoreTasks be st false None) in
  get (tasksByStatus (run_loads writing_filters (mkLoadCall be None :: bare)))
      ToDo = []
  /\ get (tasksByStatus (run_loads reloaded bare)) ToDo = firstn 10 todo_rows
  /\ get (hasMoreByStatus (run_loads reloaded bare)) ToDo = true
  /\ get (tasksByStatus (load (load (load writing_filters)))) ToDo = todo_rows
  /\ get (hasMoreByStatus (load (load (load writing_filters)))) ToDo = true.
Proof. vm_compute. repeat split. Qed.

(** ** Realtime notifications *)

(** Two calls closer together than the wait, then quiet until the timer has
    run out: the debounced function runs once, one wait after the second. *)
Lemma invocations_pair w t1 t2 tend :
  t1 <= t2 -> t2 < t1 + w -> t2 + w <= tend ->
  invocations (debounce w) [Notification t1; Notification t2; Idle tend]
  = [t2 + w].
Proof.
  intros H12 Hwin Hend.
  unfold invocations, debounce, debounced_poll, debounced_call, event_time.
  cbn [deadline wait].
  destruct (Z.leb_spec (t1 + w) t2) as [Hle|_]; [lia|].
  cbn [deadline wait].
  destruct (Z.leb_spec (t2 + w) tend) as [_|Hlt]; [reflexivity|lia].
Qed.

Lemma count_calls_fetchTasksByStatus be status filters :
  count_calls_of (effects (fetchTasksByStatus be status filters)) = [].
Proof.
  unfold fetchTasksByStatus.
  destruct (on_get_task_by_status be (fetch_args status filters)); reflexivity.
Qed.

Lemma count_calls_getTaskCountByStatus be status c sc dr sq cs hb pr :
  List.length
    (count_calls_of (effects (getTaskCountByStatus be status c sc dr sq cs hb pr)))
  = 1%nat.
Proof.
  unfold getTaskCountByStatus.
  destruct (on_get_task_count_by_status be _); reflexivity.
Qed.

Lemma count_calls_of_app es es' :
  count_calls_of (es ++ es') = count_calls_of es ++ count_calls_of es'.
Proof.
  unfold count_calls_of, remote_calls_of. now rewrite !flat_map_app.
Qed.

(** A reset-reload issues three count calls, one per status. *)
Lemma count_calls_reset_reload be st :
  List.length
    (count_calls_of (effects (loadMoreTasks be st true None ;;
                              fetchStatusWiseCounts be st)))
  = 3%nat.
Proof.
  unfold loadMoreTasks. rewrite andb_false_r.
  replace (negb (shouldLoadMore_of st true (statuses_of None)) && negb true)
    with false by (now rewrite andb_false_r).
  unfold fetchStatusWiseCounts.
  cbn [statuses_of statusKeyArray mapM forEach].
  repeat (rewrite effects_bind || rewrite count_calls_of_app
          || rewrite length_app || rewrite count_calls_fetchTasksByStatus
          || rewrite count_calls_getTaskCountByStatus).
  reflexivity.
Qed.

(** The earlier variant's count refresh: one count query per status, in
    order, whatever the answers. *)
Lemma legacy_calls_fetchStatusWiseCounts be state :
  remote_calls (Legacy.fetchStatusWiseCounts be state)
  = map (fun key =>
           count_projects (Legacy.count_query state (statusKeyToStatusLabel key)))
        statusKeyArray.
Proof. reflexivity. Qed.

Lemma legacy_calls_debouncedRealtimeUpdate be state :
  remote_calls (Legacy.debouncedRealtimeUpdate be state)
  = map (fun key => get_tasks_by_status (Legacy.load_args state true key))
        statusKeyArray
    ++ map (fun key =>
              count_projects
                (Legacy.count_query state (statusKeyToStatusLabel key)))
           statusKeyArray.
Proof.
  unfold Legacy.debouncedRealtimeUpdate.
  now rewrite remote_calls_bind, legacy_calls_loadMoreTasks,
              legacy_calls_fetchStatusWiseCounts.
Qed.

Lemma status_of_count_query state label :
  cq_status (Legacy.count_query state label) = label.
Proof.
  unfold Legacy.count_query. now destruct (applies_to (statusFilter state) label).
Qed.

(** C6, variant by variant: two notifications within one debounce window
    run the debounced function once, when the window after the second has
    passed.

    In the current hook (window 1000 ms), if the store is not loading at
    that moment the function starts exactly one reset-reload: one
    [loadMoreTasks(true)], with one list fetch per status, and one count
    refresh. If the store is loading, it starts nothing.

    In the earlier variant (window 300 ms) the function has no guard: it
    starts exactly one reset-reload, one list fetch and one count query per
    status, whatever state its closure reads, loading or not. *)
Theorem realtime_pair_coalesced be stateAt t1 t2 tend :
  t1 <= t2 ->
  let events := [Notification t1; Notification t2; Idle tend] in
  (t2 < t1 + REALTIME_WAIT -> t2 + REALTIME_WAIT <= tend ->
   let fired := t2 + REALTIME_WAIT in
   invocations (debounce REALTIME_WAIT) events = [fired]
   /\ realtime_effects be stateAt events
      = (if loading (stateAt fired) then []
         else effects (loadMoreTasks be (stateAt fired) true None ;;
                       fetchStatusWiseCounts be (stateAt fired)))
   /\ (loading (stateAt fired) = false ->
       map fa_task_status (fetch_calls_of (realtime_effects be stateAt events))
       = ["To Do"; "In Progress"; "Done"]
       /\ List.length (count_calls_of (realtime_effects be stateAt events))
          = 3%nat))
  /\ (t2 < t1 + Legacy.REALTIME_WAIT -> t2 + Legacy.REALTIME_WAIT <= tend ->
      invocations (debounce Legacy.REALTIME_WAIT) events
      = [t2 + Legacy.REALTIME_WAIT]
      /\ forall state,
           earlier_realtime_effects be state events
           = effects (Legacy.loadMoreTasks be state true None ;;
                      Legacy.fetchStatusWiseCounts be state)
           /\ map ta_task_status
                 (tasks_calls_of (earlier_realtime_effects be state events))
              = ["To Do"; "In Progress"; "Done"]
           /\ map cq_status
                 (count_queries_of (earlier_realtime_effects be state events))
              = ["To Do"; "In Progress"; "Done"]).
Proof.
  intros H12 events. split.
  - intros Hwin Hend fired.
    assert (Hinv : invocations (debounce REALTIME_WAIT) events = [fired])
      by (now apply invocations_pair).
    assert (Heff : realtime_effects be stateAt events
                   = (if loading (stateAt fired) then []
                      else effects (loadMoreTasks be (stateAt fired) true None ;;
                                    fetchStatusWiseCounts be (stateAt fired)))).
    { unfold realtime_effects. rewrite Hinv. cbn [flat_map].
      rewrite app_nil_r. unfold handleRealtimeUpdate, reset_reload.
      now destruct (loading (stateAt fired)). }
    split; [exact Hinv|]. split; [exact Heff|].
    intros Hl. rewrite Heff, Hl. split.
    + change (map fa_task_status
                (fetch_calls (loadMoreTasks be (stateAt fired) true None ;;
                              fetchStatusWiseCounts be (stateAt fired)))
              = ["To Do"; "In Progress"; "Done"]).
      rewrite fetch_calls_bind, map_app, fetch_calls_loadMoreTasks_reset,
              fetch_calls_fetchStatusWiseCounts.
      reflexivity.
    + apply count_calls_reset_reload.
  - intros Hwin Hend.
    assert (Hinv : invocations (debounce Legacy.REALTIME_WAIT) events
                   = [t2 + Legacy.REALTIME_WAIT])
      by (now apply invocations_pair).
    split; [exact Hinv|]. intros state.
    assert (Heff : earlier_realtime_effects be state events
                   = effects (Legacy.debouncedRealtimeUpdate be state)).
    { unfold earlier_realtime_effects. rewrite Hinv. cbn [flat_map].
      apply app_nil_r. }
    split; [exact Heff|].
    unfold tasks_calls_of, count_queries_of. rewrite Heff.
    change (remote_calls_of (effects (Legacy.debouncedRealtimeUpdate be state)))
      with (remote_calls (Legacy.debouncedRealtimeUpdate be state)).
    rewrite legacy_calls_debouncedRealtimeUpdate.
    cbn [statusKeyArray map app flat_map].
    rewrite !status_of_count_query. split; reflexivity.
Qed.

Lemma realtime_pair_coalesced_witness :
  0 <= 200
  /\ 200 < 0 + Legacy.REALTIME_WAIT /\ 200 < 0 + REALTIME_WAIT
  /\ invocations (debounce REALTIME_WAIT)
       [Notification 0; Notification 200; Idle 2000] = [1200]
  /\ invocations (debounce Legacy.REALTIME_WAIT)
       [Notification 0; Notification 200; Idle 2000] = [500].
Proof.
  assert (H1 : 0 <= 200) by lia.
  assert (H2 : 200 < 0 + REALTIME_WAIT) by (unfold REALTIME_WAIT; lia).
  assert (H3 : 200 + REALTIME_WAIT <= 2000) by (unfold REALTIME_WAIT; lia).
  assert (H4 : 200 < 0 + Legacy.REALTIME_WAIT)
    by (unfold Legacy.REALTIME_WAIT; lia).
  assert (H5 : 200 + Legacy.REALTIME_WAIT <= 2000)
    by (unfold Legacy.REALTIME_WAIT; lia).
  split; [exact H1|]. split; [exact H4|]. split; [exact H2|]. split.
  - exact (proj1 (proj1 (realtime_pair_coalesced (table_backend todo_rows)
                           (fun _ => initialState) 0 200 2000 H1) H2 H3)).
  - exact (proj1 (proj2 (realtime_pair_coalesced (table_backend todo_rows)
                           (fun _ => initialState) 0 200 2000 H1) H4 H5)).
Defined.

(** C6 as stated fails when a page load is in flight as the timer runs out:
    the two notifications, 400 ms apart, start no reload at all. *)
Lemma realtime_pair_dropped_counterexample :
  400 - 0 < REALTIME_WAIT
  /\ invocations (debounce REALTIME_WAIT)
       [Notification 0; Notification 400; Idle 2000] = [1400]
  /\ realtime_effects (table_backend todo_rows) (fun _ => load_in_flight)
       [Notification 0; Notification 400; Idle 2000] = [].
Proof. repeat split. Qed.

(** ** Comment threads *)

Lemma same_parent_true a b : same_parent a b = true <-> a = b.
Proof.
  destruct a as [x|], b as [y|]; cbn; split; intros H;
    try discriminate; try reflexivity.
  - apply String.eqb_eq in H. now subst.
  - injection H as ->. apply String.eqb_refl.
Qed.

Lemma sequence_map_some {A B} (g : A -> option B) l r :
  sequence (map g l) = Some r -> Forall2 (fun a b => g a = Some b) l r.
Proof.
  revert r. induction l as [|a l IH]; intros r H; cbn in H.
  - injection H as <-. constructor.
  - destruct (g a) as [b|] eqn:Ga; [|discriminate].
    destruct (sequence (map g l)) as [r'|]; [|discriminate].
    injection H as <-. constructor; [exact Ga|now apply IH].
Qed.

Lemma sequence_map_total {A B} (g : A -> option B) l :
  (forall a, In a l -> exists b, g a = Some b) ->
  exists r, sequence (map g l) = Some r.
Proof.
  induction l as [|a l IH]; intros H; cbn.
  - now exists [].
  - destruct (H a (or_introl eq_refl)) as [b ->].
    destruct IH as [r ->]; [intros; apply H; now right|].
    now eexists.
Qed.

(** The box built for one comment: its replies are the rendering one level
    down. *)
Lemma box_of_comment fuel comments c b :
  match renderComments fuel comments (Some (c_id c)) with
  | Some replies => Some (CommentBox c replies)
  | None => None
  end = Some b ->
  box_comment b = c
  /\ renderComments fuel comments (Some (c_id c)) = Some (box_replies b).
Proof.
  destruct (renderComments fuel comments (Some (c_id c))); [|discriminate].
  intros H. injection H as <-. now split.
Qed.

(** Shape of a rendering: at every level the boxes are, in list order, the
    comments whose parent reference is the level's. *)
Lemma renderComments_shape fuel comments :
  forall parentId forest,
    renderComments fuel comments parentId = Some forest ->
    map box_comment forest
      = filter (fun c => same_parent (parent_id c) parentId) comments
    /\ forall b, In b (all_boxes forest) ->
         map box_comment (box_replies b)
         = filter (fun c => same_parent (parent_id c)
                                        (Some (c_id (box_comment b))))
                  comments.
Proof.
  induction fuel as [|fuel IH]; intros parentId forest H; [discriminate|].
  cbn [renderComments] in H. apply sequence_map_some in H.
  induction H as [|c b l forest' Hcb _ IHl].
  - split; [reflexivity|]. intros b [].
  - destruct IHl as [Htop Hdeep].
    apply box_of_comment in Hcb. destruct Hcb as [Hc Hreplies].
    destruct (IH _ _ Hreplies) as [Hr Hrdeep].
    split; [cbn; now rewrite Hc, Htop|].
    intros b' Hin. unfold all_boxes in Hin. cbn [flat_map] in Hin.
    apply in_app_or in Hin. destruct Hin as [Hin|Hin]; [|now apply Hdeep].
    destruct b as [c0 replies]. cbn in Hc, Hreplies, Hr, Hrdeep, Hin. subst c0.
    destruct Hin as [<-|Hin]; [exact Hr|now apply Hrdeep].
Qed.

Lemma in_all_boxes_top forest b : In b forest -> In b (all_boxes forest).
Proof.
  intros H. unfold all_boxes. apply in_flat_map. exists b. split; [exact H|].
  destruct b. now left.
Qed.

Lemma in_boxes_reply b r : In r (box_replies b) -> In r (boxes b).
Proof.
  destruct b as [c replies]. cbn. intros H. right.
  apply in_flat_map. exists r. split; [exact H|]. destruct r. now left.
Qed.

(** Induction on a box with the property known for all its replies. *)
Lemma Rendered_deep_ind (P : Rendered -> Prop) :
  (forall c replies, Forall P replies -> P (CommentBox c replies)) ->
  forall b, P b.
Proof.
  intros step. fix ind 1. intros [c replies]. apply step.
  induction replies as [|r replies IH]; constructor; [apply ind|exact IH].
Qed.

Lemma boxes_trans b : forall b' r, In b' (boxes b) -> In r (boxes b') -> In r (boxes b).
Proof.
  induction b as [c replies IH] using Rendered_deep_ind.
  intros b' r Hb' Hr. cbn [boxes] in Hb'. destruct Hb' as [<-|Hb']; [exact Hr|].
  cbn [boxes]. right. apply in_flat_map in Hb'. destruct Hb' as (x & Hx & Hb').
  apply in_flat_map. exists x. split; [exact Hx|].
  rewrite Forall_forall in IH. now apply (IH x Hx b').
Qed.

Lemma in_all_boxes_reply forest b r :
  In b (all_boxes forest) -> In r (box_replies b) -> In r (all_boxes forest).
Proof.
  unfold all_boxes. intros Hb Hr. apply in_flat_map in Hb.
  destruct Hb as (x & Hx & Hb). apply in_flat_map. exists x.
  split; [exact Hx|]. apply (boxes_trans x b r Hb). now apply in_boxes_reply.
Qed.

Lemma renderComments_S fuel comments parentId :
  renderComments (S fuel) comments parentId =
  sequence
    (map (fun c =>
            match renderComments fuel comments (Some (c_id c)) with
            | Some replies => Some (CommentBox c replies)
            | None => None
            end)
         (filter (fun c => same_parent (parent_id c) parentId) comments)).
Proof. reflexivity. Qed.

Lemma sequence_map_defined {A B} (g : A -> option B) l r :
  sequence (map g l) = Some r -> forall a, In a l -> exists b, g a = Some b.
Proof.
  intros H. apply sequence_map_some in H.
  induction H as [|a b l r' Hab _ IH]; intros x []; subst; eauto.
Qed.

(** More call depth does not change a rendering. *)
Lemma renderComments_more_fuel fuel comments :
  forall parentId forest,
    renderComments fuel comments parentId = Some forest ->
    renderComments (S fuel) comments parentId = Some forest.
Proof.
  induction fuel as [|fuel IH]; intros parentId forest H; [discriminate|].
  rewrite renderComments_S. rewrite renderComments_S in H.
  rewrite <- H. f_equal. apply map_ext_in. intros c Hc.
  destruct (sequence_map_defined _ _ _ H c Hc) as [b Hb].
  destruct (renderComments fuel comments (Some (c_id c))) as [replies|] eqn:E;
    [|discriminate].
  now rewrite (IH _ _ E).
Qed.

(** *** Call depth needed *)

Lemma linked_parent_in_rest top rest a :
  linked (top :: rest) -> In a (top :: rest) ->
  parent_id a = None \/ exists x, In x rest /\ parent_id a = Some (c_id x).
Proof.
  revert top a. induction rest as [|next rest IH]; intros top a Hl Ha.
  - destruct Ha as [<-|[]]. left. exact (proj1 Hl).
  - destruct Ha as [<-|Ha].
    + right. exists next. split; [now left|exact (proj1 Hl)].
    + destruct (IH next a (proj2 Hl) Ha) as [Hn|(x & Hx & Hp)];
        [now left|].
      right. exists x. split; [now right|exact Hp].
Qed.

Lemma unique_by_id comments a b :
  NoDup (map c_id comments) -> In a comments -> In b comments ->
  c_id a = c_id b -> a = b.
Proof.
  induction comments as [|x l IH]; intros Hnd Ha Hb Hid; [destruct Ha|].
  cbn in Hnd. inversion Hnd as [|? ? Hx Hl]; subst.
  destruct Ha as [<-|Ha], Hb as [<-|Hb]; [reflexivity| | |now apply IH].
  - exfalso. apply Hx. rewrite Hid. now apply in_map.
  - exfalso. apply Hx. rewrite <- Hid. now apply in_map.
Qed.

(** With distinct ids, a reply to the top of a path of ancestors is not
    itself on the path. *)
Lemma reply_extends_path comments path c :
  NoDup (map c_id comments) ->
  Forall (fun a => In a comments) path ->
  NoDup (map c_id path) -> linked path ->
  In c comments -> parent_id c = top_ref path ->
  ~ In (c_id c) (map c_id path).
Proof.
  intros Hnd Hin Hpath Hl Hc Hp Habs.
  apply in_map_iff in Habs. destruct Habs as (a & Hid & Ha).
  rewrite Forall_forall in Hin.
  assert (a = c) by (apply (unique_by_id comments); auto). subst a.
  destruct path as [|top rest]; [destruct Ha|].
  cbn [top_ref] in Hp.
  destruct (linked_parent_in_rest top rest c Hl Ha) as [Hn|(x & Hx & Hpx)];
    [congruence|].
  assert (Hsame : c_id top = c_id x) by congruence.
  cbn [map] in Hpath. inversion Hpath as [|? ? Hnotin _]; subst.
  apply Hnotin. rewrite Hsame. now apply in_map.
Qed.

Lemma renderComments_enough_fuel comments :
  NoDup (map c_id comments) ->
  forall fuel path,
    Forall (fun a => In a comments) path ->
    NoDup (map c_id path) -> linked path ->
    (List.length comments < fuel + List.length path)%nat ->
    exists forest, renderComments fuel comments (top_ref path) = Some forest.
Proof.
  intros Hnd. induction fuel as [|fuel IH]; intros path Hin Hpath Hl Hlen.
  - exfalso.
    assert (List.length (map c_id path) <= List.length (map c_id comments))%nat.
    { apply NoDup_incl_length; [exact Hpath|].
      intros i Hi. apply in_map_iff in Hi. destruct Hi as (a & <- & Ha).
      apply in_map. rewrite Forall_forall in Hin. now apply Hin. }
    rewrite !length_map in H. cbn in Hlen. lia.
  - rewrite renderComments_S. apply sequence_map_total.
    intros c Hc. apply filter_In in Hc. destruct Hc as [Hc Hp].
    apply same_parent_true in Hp.
    destruct (IH (c :: path)) as [replies Hr].
    + constructor; assumption.
    + cbn [map]. constructor; [|exact Hpath].
      now apply (reply_extends_path comments).
    + split; assumption.
    + cbn [List.length]. lia.
    + cbn [top_ref] in Hr. rewrite Hr. now eexists.
Qed.

(** C9, as the code has it. Wherever a comment [p] is rendered, every
    comment of the list whose parent reference names [p] is rendered in the
    reply area of [p]'s box, whatever the order of the list; such a comment
    is never rendered at top level; and every comment whose chain of parent
    references reaches a top-level comment inside the list is rendered. When
    the ids of the list are distinct, a call depth of one more than the
    number of comments is enough for the rendering to complete. *)
Theorem replies_render_under_parent comments :
  (forall fuel forest,
     renderComments fuel comments None = Some forest ->
     (forall c p, In c comments -> parent_id c = Some (c_id p) ->
        (forall b, In b (all_boxes forest) -> box_comment b = p ->
           exists r, In r (box_replies b) /\ box_comment r = c)
        /\ ~ In c (map box_comment forest))
     /\ (forall c, reaches_top comments c ->
           exists b, In b (all_boxes forest) /\ box_comment b = c))
  /\ (NoDup (map c_id comments) ->
      exists forest,
        renderComments (S (List.length comments)) comments None = Some forest).
Proof.
  split.
  - intros fuel forest H.
    destruct (renderComments_shape fuel comments None forest H) as [Htop Hdeep].
    assert (Hunder : forall c p, In c comments -> parent_id c = Some (c_id p) ->
              forall b, In b (all_boxes forest) -> box_comment b = p ->
              exists r, In r (box_replies b) /\ box_comment r = c).
    { intros c p Hc Hp b Hb Hbp.
      assert (Hin : In c (map box_comment (box_replies b))).
      { rewrite (Hdeep b Hb), Hbp. apply filter_In. split; [exact Hc|].
        now apply same_parent_true. }
      apply in_map_iff in Hin. destruct Hin as (r & Hr & Hin). now exists r. }
    split.
    + intros c p Hc Hp. split; [now apply Hunder|].
      rewrite Htop. intros Hin. apply filter_In in Hin.
      destruct Hin as [_ Hin]. apply same_parent_true in Hin. congruence.
    + intros c Hreach. induction Hreach as [c Hc Hp|c p Hc Hp _ IH].
      * assert (Hin : In c (map box_comment forest)).
        { rewrite Htop. apply filter_In. split; [exact Hc|].
          now apply same_parent_true. }
        apply in_map_iff in Hin. destruct Hin as (b & Hb & Hin).
        exists b. split; [now apply in_all_boxes_top|exact Hb].
      * destruct IH as (b & Hb & Hbp).
        destruct (Hunder c p Hc Hp b Hb Hbp) as (r & Hr & Hrc).
        exists r. split; [|exact Hrc].
        now apply (in_all_boxes_reply forest b).
  - intros Hnd.
    apply (renderComments_enough_fuel comments Hnd (S (List.length comments)) []).
    + constructor.
    + constructor.
    + exact I.
    + cbn. lia.
Qed.

Lemma replies_render_under_parent_witness :
  NoDup (map c_id small_thread)
  /\ renderComments 3 small_thread None
     = Some [CommentBox (sample_comment "c1" None)
               [CommentBox (sample_comment "c2" (Some "c1")) []]]
  /\ (exists forest, renderComments 3 small_thread None = Some forest)
  /\ exists b, In b (all_boxes
                       [CommentBox (sample_comment "c1" None)
                          [CommentBox (sample_comment "c2" (Some "c1")) []]])
               /\ box_comment b = sample_comment "c2" (Some "c1").
Proof.
  assert (Hnd : NoDup (map c_id small_thread)).
  { cbn. constructor; [intros [H|[]]; discriminate H|].
    constructor; [intros []|constructor]. }
  assert (Hrun : renderComments 3 small_thread None
                 = Some [CommentBox (sample_comment "c1" None)
                           [CommentBox (sample_comment "c2" (Some "c1")) []]])
    by reflexivity.
  split; [exact Hnd|]. split; [exact Hrun|].
  split; [exact (proj2 (replies_render_under_parent small_thread) Hnd)|].
  apply (proj2 (proj1 (replies_render_under_parent small_thread) 3%nat _ Hrun)).
  apply (@reaches_top_reply small_thread _ (sample_comment "c1" None)).
  - now left.
  - reflexivity.
  - apply reaches_top_root; [right; now left|reflexivity].
Defined.

(** C9 as stated fails when the parent is not rendered itself: "c3" answers
    "c2", which is in the list, but "c2" answers a comment that is not, so
    the rendering is empty and "c3" appears nowhere. *)
Lemma orphaned_reply_counterexample :
  In (sample_comment "c3" (Some "c2")) orphaned_thread
  /\ In (sample_comment "c2" (Some "c1")) orphaned_thread
  /\ parent_id (sample_comment "c3" (Some "c2"))
     = Some (c_id (sample_comment "c2" (Some "c1")))
  /\ renderComments 3 orphaned_thread None = Some [].
Proof.
  split; [now left|]. split; [right; now left|]. split; reflexivity.
Qed.

(** * Further properties of the hook *)

(** ** [moveTask] and [findColumnOfTask] *)

Lemma filter_idem {A} (f : A -> bool) l : filter f (filter f l) = filter f l.
Proof.
  induction l as [|x l IH]; [reflexivity|]. cbn.
  destruct (f x) eqn:E; cbn; [rewrite E|]; now rewrite IH.
Qed.

Lemma filter_splice_insert {A} (f : A -> bool) arr start item :
  filter f (splice_insert arr start item)
  = filter f (firstn (Z.to_nat (if start <? 0
                                then Z.max (Z.of_nat (List.length arr) + start) 0
                                else Z.min start (Z.of_nat (List.length arr)))) arr)
    ++ (if f item then [item] else [])
    ++ filter f (skipn (Z.to_nat (if start <? 0
                                  then Z.max (Z.of_nat (List.length arr) + start) 0
                                  else Z.min start (Z.of_nat (List.length arr)))) arr).
Proof.
  unfold splice_insert. rewrite filter_app. cbn [filter].
  now destruct (f item).
Qed.

Lemma filter_firstn_skipn {A} (f : A -> bool) n (l : list A) :
  filter f (firstn n l) ++ filter f (skipn n l) = filter f l.
Proof. now rewrite <- filter_app, firstn_skipn. Qed.

Lemma length_splice_insert {A} (arr : list A) start item :
  List.length (splice_insert arr start item) = S (List.length arr).
Proof.
  unfold splice_insert. rewrite length_app. cbn [List.length].
  rewrite Nat.add_succ_r, <- length_app, firstn_skipn. reflexivity.
Qed.

Lemma has_id_without_id taskId l :
  filter (has_id taskId) (without_id taskId l) = [].
Proof.
  unfold without_id. induction l as [|t l IH]; [reflexivity|]. cbn.
  destruct (has_id taskId t) eqn:E; cbn; [exact IH|]. now rewrite E.
Qed.

Lemma has_id_with_status taskId t s :
  has_id taskId (with_status t s) = has_id taskId t.
Proof. reflexivity. Qed.

(** X1: [moveTask] leaves every other task where it was. Whatever the index,
    the destination list without the moved id is the old destination list
    without it (same tasks, same order); the new destination list is one
    longer than that and holds exactly one task with the moved id, also when
    the old one already held a task with that id. *)
Theorem moveTask_keeps_other_tasks be st taskId sourceCol destCol destIndex task :
  find (has_id taskId) (get (tasksByStatus st) sourceCol) = Some task ->
  let after := tasksByStatus
                 (exec st (moveTask be st taskId sourceCol destCol destIndex)) in
  without_id taskId (get after destCol)
    = without_id taskId (get (tasksByStatus st) destCol)
  /\ filter (has_id taskId) (get after destCol)
     = [with_status task (statusKeyToStatusLabel destCol)]
  /\ List.length (get after destCol)
     = S (List.length (without_id taskId (get (tasksByStatus st) destCol))).
Proof.
  intros Hfind after.
  assert (Hid : has_id taskId task = true) by (now apply find_some in Hfind).
  assert (Hdest : get after destCol
                  = splice_insert (without_id taskId (get (tasksByStatus st) destCol))
                      destIndex (with_status task (statusKeyToStatusLabel destCol))).
  { unfold after. rewrite (tasksByStatus_after_move be _ _ _ destCol destIndex _ Hfind).
    unfold moved_lists. apply get_set_same. }
  rewrite Hdest. split; [|split].
  - unfold without_id at 1. rewrite filter_splice_insert.
    rewrite has_id_with_status, Hid. cbn [negb app].
    rewrite filter_firstn_skipn. apply filter_idem.
  - rewrite filter_splice_insert, has_id_with_status, Hid.
    set (rest := without_id taskId (get (tasksByStatus st) destCol)).
    set (n := Z.to_nat _).
    assert (H0 : filter (has_id taskId) (firstn n rest)
                 ++ filter (has_id taskId) (skipn n rest) = [])
      by (rewrite filter_firstn_skipn; apply has_id_without_id).
    apply app_eq_nil in H0. destruct H0 as [-> ->]. reflexivity.
  - apply length_splice_insert.
Qed.

Lemma moveTask_keeps_other_tasks_witness :
  find (has_id "1") (get (tasksByStatus one_todo) ToDo)
    = Some (sample_task 1 "To Do")
  /\ List.length
       (get (tasksByStatus
               (exec one_todo
                  (moveTask (table_backend []) one_todo "1" ToDo Done (-3))))
            Done) = 1%nat.
Proof.
  split; [reflexivity|].
  exact (proj2 (proj2
    (moveTask_keeps_other_tasks (table_backend []) one_todo "1" ToDo Done (-3)
       (sample_task 1 "To Do") eq_refl))).
Defined.

Lemma existsb_filter_nil {A} (f : A -> bool) l :
  existsb f l = false <-> filter f l = [].
Proof.
  induction l as [|x l IH]; cbn; [tauto|].
  destruct (f x); cbn; [split; discriminate|exact IH].
Qed.

Lemma find_first_column (P : StatusKey -> bool) k :
  P k = true -> (forall k', k' <> k -> P k' = false) ->
  find P statusKeyArray = Some k.
Proof.
  intros Hk Hother. unfold statusKeyArray.
  destruct k; cbn [find];
    repeat match goal with
           | |- context [P ?x] =>
               first [rewrite Hk | rewrite (Hother x) by discriminate]
           end; reflexivity.
Qed.

(** X2: move, then look the task up. When the task is found in the source
    column and no other column holds a task with its id, [findColumnOfTask]
    on the store after [moveTask] answers the destination column. *)
Theorem findColumnOfTask_after_moveTask be st taskId sourceCol destCol destIndex
    task :
  find (has_id taskId) (get (tasksByStatus st) sourceCol) = Some task ->
  (forall k t, k <> sourceCol -> In t (get (tasksByStatus st) k) ->
               has_id taskId t = false) ->
  findColumnOfTask
    (exec st (moveTask be st taskId sourceCol destCol destIndex)) taskId
  = Some destCol.
Proof.
  intros Hfind Hclean. unfold findColumnOfTask.
  rewrite (tasksByStatus_after_move be _ _ _ destCol destIndex _ Hfind).
  assert (Hid : has_id taskId task = true) by (now apply find_some in Hfind).
  apply find_first_column.
  - unfold moved_lists. rewrite get_set_same.
    apply existsb_exists.
    exists (with_status task (statusKeyToStatusLabel destCol)).
    split; [|exact Hid].
    unfold splice_insert. apply in_or_app. right. now left.
  - intros k Hk. unfold moved_lists. rewrite get_set_other by congruence.
    apply existsb_filter_nil.
    destruct (StatusKey_eq_dec sourceCol k) as [<-|Hne].
    + rewrite get_set_same. apply has_id_without_id.
    + rewrite get_set_other by exact Hne.
      apply existsb_filter_nil.
      destruct (existsb (has_id taskId) (get (tasksByStatus st) k)) eqn:E;
        [|reflexivity].
      apply existsb_exists in E. destruct E as (t & Ht & Hidt).
      rewrite (Hclean k t) in Hidt; [discriminate|congruence|exact Ht].
Qed.

Lemma findColumnOfTask_after_moveTask_witness :
  find (has_id "1") (get (tasksByStatus one_todo) ToDo)
    = Some (sample_task 1 "To Do")
  /\ (forall k t, k <> ToDo -> In t (get (tasksByStatus one_todo) k) ->
                  has_id "1" t = false)
  /\ findColumnOfTask
       (exec one_todo (moveTask (table_backend []) one_todo "1" ToDo Done 0)) "1"
     = Some Done.
Proof.
  assert (H : forall k t, k <> ToDo -> In t (get (tasksByStatus one_todo) k) ->
                          has_id "1" t = false).
  { intros k t Hk Ht. destruct k; [congruence|destruct Ht|destruct Ht]. }
  split; [reflexivity|]. split; [exact H|].
  exact (findColumnOfTask_after_moveTask (table_backend []) one_todo "1" ToDo
           Done 0 (sample_task 1 "To Do") eq_refl H).
Defined.

(** X3: [findColumnOfTask] and [moveTask] agree on presence. If the lookup
    answers a column, that column is the first one holding the id and
    [moveTask] out of it issues its status update; if it answers none,
    [moveTask] out of any column performs no effect. *)
Theorem findColumnOfTask_guides_moveTask be st taskId :
  (forall k, findColumnOfTask st taskId = Some k ->
     (exists task, find (has_id taskId) (get (tasksByStatus st) k) = Some task)
     /\ forall destCol destIndex,
          List.length
            (filter is_status_update
               (remote_calls (moveTask be st taskId k destCol destIndex)))
          = 1%nat)
  /\ (findColumnOfTask st taskId = None ->
      forall sourceCol destCol destIndex,
        effects (moveTask be st taskId sourceCol destCol destIndex) = []).
Proof.
  split.
  - intros k Hk. unfold findColumnOfTask in Hk. apply find_some in Hk.
    destruct Hk as [_ Hex]. apply existsb_exists in Hex.
    destruct Hex as (t & Ht & Hid).
    destruct (find (has_id taskId) (get (tasksByStatus st) k)) as [task|] eqn:E.
    + split; [now exists task|]. intros destCol destIndex.
      rewrite (moveTask_found be _ _ _ destCol destIndex _ E).
      rewrite !remote_calls_bind, !filter_app.
      rewrite status_updates_fetchStatusWiseCounts.
      destruct (on_update_task_status be (id task)
                  (statusKeyToStatusLabel destCol)); reflexivity.
    + rewrite (find_none _ _ E t Ht) in Hid. discriminate.
  - intros Hnone sourceCol destCol destIndex. unfold moveTask.
    destruct (find (has_id taskId) (get (tasksByStatus st) sourceCol))
      as [task|] eqn:E; [|reflexivity].
    exfalso. apply find_some in E. destruct E as [Hin Hid].
    unfold findColumnOfTask in Hnone.
    assert (Hk : In sourceCol statusKeyArray)
      by (destruct sourceCol; cbn; tauto).
    pose proof (find_none _ _ Hnone sourceCol Hk) as Hf. cbn beta in Hf.
    assert (Ht : existsb (has_id taskId) (get (tasksByStatus st) sourceCol) = true)
      by (apply existsb_exists; now exists task).
    congruence.
Qed.

Lemma findColumnOfTask_guides_moveTask_witness :
  findColumnOfTask one_todo "1" = Some ToDo
  /\ List.length
       (filter is_status_update
          (remote_calls (moveTask failing_backend one_todo "1" ToDo Done 0)))
     = 1%nat.
Proof.
  split; [reflexivity|].
  exact (proj2 (proj1 (findColumnOfTask_guides_moveTask failing_backend
                         one_todo "1") ToDo eq_refl) Done 0).
Defined.

(** ** Calls of a load and of a count refresh *)

Lemma remote_calls_fetchTasksByStatus be status filters :
  remote_calls (fetchTasksByStatus be status filters)
  = [get_task_by_status (fetch_args status filters)].
Proof.
  unfold fetchTasksByStatus.
  destruct (on_get_task_by_status be (fetch_args status filters)); reflexivity.
Qed.

Lemma remote_calls_getTaskCountByStatus be status c sc dr sq cs hb pr :
  remote_calls (getTaskCountByStatus be status c sc dr sq cs hb pr)
  = [get_task_count_by_status (count_args status c sc dr sq cs hb pr)].
Proof.
  unfold getTaskCountByStatus.
  destruct (on_get_task_count_by_status be _); reflexivity.
Qed.

(** The remote calls of a load that is not skipped: one list fetch per
    status it covers, in order, and nothing else. *)
Lemma remote_calls_loadMoreTasks be cur reset specificStatus :
  reset = true \/ proceeds cur specificStatus = true ->
  remote_calls (loadMoreTasks be cur reset specificStatus)
  = map (fun key => get_task_by_status (load_args cur reset key))
        (statuses_of specificStatus).
Proof.
  intros H. unfold loadMoreTasks.
  assert (H1 : loading cur && negb reset = false).
  { destruct H as [->|H]; [apply andb_false_r|].
    unfold proceeds in H. apply andb_prop in H. destruct H as [H _].
    apply negb_true_iff in H. now rewrite H. }
  assert (H2 : negb (shouldLoadMore_of cur reset (statuses_of specificStatus))
               && negb reset = false).
  { destruct H as [->|H]; [apply andb_false_r|].
    unfold proceeds in H. apply andb_prop in H. destruct H as [_ H].
    destruct reset; [apply andb_false_r|]. now rewrite H. }
  rewrite H1, H2.
  destruct specificStatus as [k|], reset;
    cbn [statuses_of statusKeyArray mapM forEach map];
    repeat (rewrite remote_calls_bind || rewrite remote_calls_fetchTasksByStatus);
    reflexivity.
Qed.

Lemma remote_calls_fetchStatusWiseCounts be cur :
  remote_calls (fetchStatusWiseCounts be cur)
  = map (fun key => get_task_count_by_status (refresh_args cur key))
        statusKeyArray.
Proof.
  unfold fetchStatusWiseCounts, statusKeyArray, mapM.
  repeat (rewrite remote_calls_bind || rewrite remote_calls_getTaskCountByStatus).
  reflexivity.
Qed.

Lemma selection_of_load_args cur reset key :
  hourlyBudgetType cur <> Some "" ->
  selection_of (load_args cur reset key) = refresh_args cur key.
Proof.
  intros Hh. unfold selection_of, load_args, refresh_args, fetch_args,
    filtered_for, count_args.
  cbn [fa_task_status fa_category_filter fa_subcategory_filter fa_date_from
       fa_date_to fa_search_query fa_country_filter fa_hourly_budget_type
       fa_price_from fa_price_to f_categoryFilter f_subcategoryFilter
       f_dateRange f_searchQuery f_selectedCountries f_hourlyBudgetType
       f_priceFrom f_priceTo].
  destruct (applies_to (statusFilter cur) (statusKeyToStatusLabel key));
    [|reflexivity].
  destruct (hourlyBudgetType cur) as [h|]; [|reflexivity].
  destruct (String.eqb_spec h ""); [subst; congruence|reflexivity].
Qed.

(** X4: the totals count what the lists page through. Unless the budget-type
    filter is the empty string, the three count calls of
    [fetchStatusWiseCounts] carry, status by status, exactly the selection
    (status, category, subcategory, dates, search, countries, budget type,
    prices) of the three list fetches of a reset [loadMoreTasks] on the same
    store. *)
Theorem counts_select_what_lists_select be st :
  hourlyBudgetType st <> Some "" ->
  remote_calls (fetchStatusWiseCounts be st)
  = map get_task_count_by_status
      (map selection_of (fetch_calls (loadMoreTasks be st true None))).
Proof.
  intros Hh. rewrite remote_calls_fetchStatusWiseCounts.
  unfold fetch_calls, fetch_calls_of.
  change (remote_calls_of (effects (loadMoreTasks be st true None)))
    with (remote_calls (loadMoreTasks be st true None)).
  rewrite remote_calls_loadMoreTasks by now left.
  cbn [statuses_of statusKeyArray map flat_map app].
  now rewrite !selection_of_load_args.
Qed.

Lemma counts_select_what_lists_select_witness :
  hourlyBudgetType writing_filters <> Some ""
  /\ remote_calls (fetchStatusWiseCounts failing_backend writing_filters)
     = map get_task_count_by_status
         (map selection_of
            (fetch_calls (loadMoreTasks failing_backend writing_filters true None))).
Proof.
  assert (H : hourlyBudgetType writing_filters <> Some "") by discriminate.
  split; [exact H|].
  exact (counts_select_what_lists_select failing_backend writing_filters H).
Defined.

Lemma applies_to_other_status L label :
  L <> "" -> L <> label -> applies_to (Some L) label = false.
Proof.
  intros H1 H2. unfold applies_to.
  destruct (String.eqb_spec L ""); [congruence|].
  destruct (String.eqb_spec L label); [congruence|reflexivity].
Qed.

(** X5: the filters follow the status filter. With the status filter set to
    a label, every list fetch that a load issues for another status, and
    every count call for another status, carries no category, subcategory,
    date, search, country, budget-type or price filter. *)
Theorem other_statuses_are_unfiltered be st L reset specificStatus :
  statusFilter st = Some L -> L <> "" ->
  (forall a, In a (fetch_calls (loadMoreTasks be st reset specificStatus)) ->
             fa_task_status a <> L -> unfiltered a)
  /\ (forall key, statusKeyToStatusLabel key <> L ->
        refresh_args st key
        = count_args (statusKeyToStatusLabel key) None None
            (mkDateRange None None) None [] None (mkPriceRange None None)).
Proof.
  intros HL Hne. split.
  - intros a Ha Hst.
    assert (Hor : reset = true \/ proceeds st specificStatus = true
                  \/ loadMoreTasks be st reset specificStatus = ret tt).
    { destruct reset; [now left|right].
      destruct (proceeds st specificStatus) eqn:Hp; [now left|right].
      now apply loadMoreTasks_skipped. }
    assert (Hcalls : exists key, a = load_args st reset key).
    { destruct Hor as [Hr|[Hp|Hskip]].
      - unfold fetch_calls, fetch_calls_of in Ha.
        change (remote_calls_of (effects (loadMoreTasks be st reset specificStatus)))
          with (remote_calls (loadMoreTasks be st reset specificStatus)) in Ha.
        rewrite remote_calls_loadMoreTasks in Ha by now left.
        apply in_flat_map in Ha. destruct Ha as (c & Hc & Hac).
        apply in_map_iff in Hc. destruct Hc as (key & <- & _).
        destruct Hac as [<-|[]]. now exists key.
      - unfold fetch_calls, fetch_calls_of in Ha.
        change (remote_calls_of (effects (loadMoreTasks be st reset specificStatus)))
          with (remote_calls (loadMoreTasks be st reset specificStatus)) in Ha.
        rewrite remote_calls_loadMoreTasks in Ha by now right.
        apply in_flat_map in Ha. destruct Ha as (c & Hc & Hac).
        apply in_map_iff in Hc. destruct Hc as (key & <- & _).
        destruct Hac as [<-|[]]. now exists key.
      - rewrite Hskip in Ha. destruct Ha. }
    destruct Hcalls as [key ->].
    unfold load_args, fetch_args, filtered_for in *.
    cbn [fa_task_status] in Hst.
    rewrite HL, (applies_to_other_status L _ Hne) by congruence.
    repeat split.
  - intros key Hkey. unfold refresh_args.
    now rewrite HL, (applies_to_other_status L _ Hne) by congruence.
Qed.

Lemma other_statuses_are_unfiltered_witness :
  statusFilter (reducer writing_filters (SET_STATUS_FILTER (Some "Done")))
    = Some "Done"
  /\ "Done" <> ""
  /\ refresh_args (reducer writing_filters (SET_STATUS_FILTER (Some "Done"))) ToDo
     = count_args "To Do" None None (mkDateRange None None) None [] None
         (mkPriceRange None None).
Proof.
  assert (H : "Done" <> "") by discriminate.
  split; [reflexivity|]. split; [exact H|].
  apply (proj2 (other_statuses_are_unfiltered failing_backend
                  (reducer writing_filters (SET_STATUS_FILTER (Some "Done")))
                  "Done" true None eq_refl H) ToDo).
  discriminate.
Defined.

(** ** What a load does to the lists and cursors *)

Lemma load_step_other be cur s key k :
  key <> k ->
  get (tasksByStatus (load_step be cur s key)) k = get (tasksByStatus s) k
  /\ get (pageByStatus (load_step be cur s key)) k = get (pageByStatus s) k
  /\ get (hasMoreByStatus (load_step be cur s key)) k
     = get (hasMoreByStatus s) k.
Proof.
  intros Hne. unfold load_step. destruct s.
  cbn [reducer tasksByStatus pageByStatus hasMoreByStatus].
  now rewrite !get_set_other.
Qed.

Lemma fetched_page_answer be cur reset key :
  fetched_page be cur reset key
  = match on_get_task_by_status be (load_args cur reset key) with
    | Success data => data
    | Failure _ => []
    end.
Proof. unfold fetched_page. now rewrite result_fetchTasksByStatus. Qed.

(** X6: a non-reset load only appends. For a status the load covers (when it
    is not skipped) the new list is the old list followed by the page the
    backend answered, and the page cursor moves on by one; for every other
    status, and for every status when the load is skipped, list, cursor and
    has-more flag are what they were. *)
Theorem loadMoreTasks_appends be st specificStatus k :
  let st' := exec st (loadMoreTasks be st false specificStatus) in
  (proceeds st specificStatus = true -> In k (statuses_of specificStatus) ->
     get (tasksByStatus st') k
       = get (tasksByStatus st) k ++ fetched_page be st false k
     /\ get (pageByStatus st') k = get (pageByStatus st) k + 1)
  /\ (proceeds st specificStatus = false \/ ~ In k (statuses_of specificStatus) ->
      get (tasksByStatus st') k = get (tasksByStatus st) k
      /\ get (pageByStatus st') k = get (pageByStatus st) k
      /\ get (hasMoreByStatus st') k = get (hasMoreByStatus st) k).
Proof.
  intros st'. split.
  - intros Hp Hin. unfold st'. rewrite (exec_loadMoreTasks_proceeds _ _ _ _ Hp).
    destruct (after_set_loading
                (fold_left (load_step be st) (statuses_of specificStatus)
                           (reducer st (SET_LOADING true))) false)
      as (-> & -> & _ & _).
    destruct (after_load_steps be st (reducer st (SET_LOADING true))
                               specificStatus k Hin) as (Ht & Hpg & _).
    now split.
  - intros [Hskip|Hout].
    + unfold st'. now rewrite (loadMoreTasks_skipped _ _ _ Hskip).
    + destruct (proceeds st specificStatus) eqn:Hp.
      2: { unfold st'. now rewrite (loadMoreTasks_skipped _ _ _ Hp). }
      unfold st'. rewrite (exec_loadMoreTasks_proceeds _ _ _ _ Hp).
      destruct (after_set_loading
                  (fold_left (load_step be st) (statuses_of specificStatus)
                             (reducer st (SET_LOADING true))) false)
        as (-> & -> & -> & _).
      destruct specificStatus as [k'|].
      * cbn [statuses_of fold_left].
        assert (Hne : k' <> k) by (intros ->; apply Hout; now left).
        destruct (load_step_other be st (reducer st (SET_LOADING true)) k' k Hne)
          as (-> & -> & ->).
        now destruct (after_set_loading st true) as (-> & -> & -> & _).
      * exfalso. apply Hout. destruct k; cbn; tauto.
Qed.

Lemma loadMoreTasks_appends_witness :
  proceeds after_outage (Some InProgress) = true
  /\ In InProgress (statuses_of (Some InProgress))
  /\ get (pageByStatus
            (exec after_outage
               (loadMoreTasks (table_backend board_rows) after_outage false
                              (Some InProgress)))) InProgress = 2.
Proof.
  assert (H1 : proceeds after_outage (Some InProgress) = true) by reflexivity.
  assert (H2 : In InProgress (statuses_of (Some InProgress))) by now left.
  split; [exact H1|]. split; [exact H2|].
  exact (proj2 (proj1 (loadMoreTasks_appends (table_backend board_rows)
                         after_outage (Some InProgress) InProgress) H1 H2)).
Defined.

Lemma effectiveLimit_after_load be st specificStatus :
  effectiveLimit_of (exec st (loadMoreTasks be st false specificStatus))
  = effectiveLimit_of st.
Proof. apply query_part_limit, query_part_loadMoreTasks. Qed.

(** A non-reset load never moves a page cursor back. *)
Lemma cursor_after_load be st specificStatus k :
  get (pageByStatus st) k
  <= get (pageByStatus (exec st (loadMoreTasks be st false specificStatus))) k.
Proof.
  destruct (proceeds st specificStatus) eqn:Hp.
  2: { rewrite (loadMoreTasks_skipped _ _ _ Hp). cbn. lia. }
  rewrite (exec_loadMoreTasks_proceeds _ _ _ _ Hp).
  destruct (after_set_loading
              (fold_left (load_step be st) (statuses_of specificStatus)
                         (reducer st (SET_LOADING true))) false)
    as (_ & -> & _ & _).
  assert (Hin : In k (statuses_of specificStatus)
                \/ exists k', specificStatus = Some k' /\ k' <> k).
  { destruct specificStatus as [k'|].
    - destruct (StatusKey_eq_dec k' k) as [->|Hne];
        [left; now left|right; now exists k'].
    - left. destruct k; cbn; tauto. }
  destruct Hin as [Hin|(k' & -> & Hne)].
  - destruct (after_load_steps be st (reducer st (SET_LOADING true))
                               specificStatus k Hin) as (_ & -> & _). lia.
  - cbn [statuses_of fold_left].
    destruct (load_step_other be st (reducer st (SET_LOADING true)) k' k Hne)
      as (_ & -> & _).
    destruct (after_set_loading st true) as (_ & -> & _ & _). lia.
Qed.

Lemma cursor_after_loads st calls k :
  get (pageByStatus st) k <= get (pageByStatus (run_loads st calls)) k.
Proof.
  revert st. induction calls as [|c rest IH]; intros st; cbn [run_loads];
    [lia|].
  etransitivity; [|apply IH]. apply cursor_after_load.
Qed.

Lemma effectiveLimit_after_loads st calls :
  effectiveLimit_of (run_loads st calls) = effectiveLimit_of st.
Proof.
  revert st. induction calls as [|c rest IH]; intros st; cbn [run_loads];
    [reflexivity|].
  now rewrite IH, effectiveLimit_after_load.
Qed.

(** Where a non-reset load starts the page it asks for. *)
Lemma offset_of_load_fetch be st specificStatus k a :
  In a (fetch_calls (loadMoreTasks be st false specificStatus)) ->
  fa_task_status a = statusKeyToStatusLabel k ->
  fa_offset_count a = get (pageByStatus st) k * effectiveLimit_of st.
Proof.
  intros Ha Hlabel.
  destruct (proceeds st specificStatus) eqn:Hp.
  2: { rewrite (loadMoreTasks_skipped _ _ _ Hp) in Ha. destruct Ha. }
  unfold fetch_calls, fetch_calls_of in Ha.
  change (remote_calls_of (effects (loadMoreTasks be st false specificStatus)))
    with (remote_calls (loadMoreTasks be st false specificStatus)) in Ha.
  rewrite remote_calls_loadMoreTasks in Ha by now right.
  apply in_flat_map in Ha. destruct Ha as (c & Hc & Hac).
  apply in_map_iff in Hc. destruct Hc as (key & <- & _).
  destruct Hac as [<-|[]].
  unfold load_args, fetch_args in Hlabel. cbn [fa_task_status] in Hlabel.
  apply statusKeyToStatusLabel_inj in Hlabel. subst key.
  reflexivity.
Qed.

(** X7: a failed page is not retried. When the list fetch of a non-reset
    load fails for a status, the list of that status stays as it was, but
    its page cursor still moves on and its has-more flag becomes
    [0 === limit]. Through any later run of non-reset loads the cursor does
    not go back: every list fetch such a load issues for that status starts
    at cursor times limit, which with a positive limit lies at or beyond the
    end of the failed page, so the rows of that page are passed over. *)
Theorem failed_page_is_passed_over be st specificStatus k error :
  proceeds st specificStatus = true -> In k (statuses_of specificStatus) ->
  on_get_task_by_status be (load_args st false k) = Failure error ->
  let st' := exec st (loadMoreTasks be st false specificStatus) in
  get (tasksByStatus st') k = get (tasksByStatus st) k
  /\ get (pageByStatus st') k = get (pageByStatus st) k + 1
  /\ get (hasMoreByStatus st') k = (0 =? effectiveLimit_of st)
  /\ forall calls,
       let st2 := run_loads st' calls in
       get (pageByStatus st) k + 1 <= get (pageByStatus st2) k
       /\ forall be' specificStatus' a,
            In a (fetch_calls (loadMoreTasks be' st2 false specificStatus')) ->
            fa_task_status a = statusKeyToStatusLabel k ->
            fa_offset_count a
            = get (pageByStatus st2) k * effectiveLimit_of st
            /\ (0 < effectiveLimit_of st ->
                fa_offset_count (load_args st false k) + effectiveLimit_of st
                <= fa_offset_count a).
Proof.
  intros Hp Hin Hfail st'.
  assert (Hpage : fetched_page be st false k = [])
    by (now rewrite fetched_page_answer, Hfail).
  assert (Hexec : st' = reducer
                          (fold_left (load_step be st)
                                     (statuses_of specificStatus)
                                     (reducer st (SET_LOADING true)))
                          (SET_LOADING false))
    by apply (exec_loadMoreTasks_proceeds _ _ _ _ Hp).
  destruct (after_set_loading
              (fold_left (load_step be st) (statuses_of specificStatus)
                         (reducer st (SET_LOADING true))) false)
    as (Ht & Hpg & Hhm & _).
  rewrite <- Hexec in Ht, Hpg, Hhm.
  destruct (after_load_steps be st (reducer st (SET_LOADING true))
                             specificStatus k Hin) as (Ht' & Hpg' & Hhm').
  assert (Hcursor : get (pageByStatus st') k = get (pageByStatus st) k + 1)
    by (now rewrite Hpg, Hpg').
  split; [now rewrite Ht, Ht', Hpage, app_nil_r|].
  split; [exact Hcursor|].
  split; [now rewrite Hhm, Hhm', Hpage|].
  intros calls st2.
  assert (Hback : get (pageByStatus st) k + 1 <= get (pageByStatus st2) k).
  { rewrite <- Hcursor. apply cursor_after_loads. }
  assert (Hlim : effectiveLimit_of st2 = effectiveLimit_of st).
  { unfold st2. rewrite effectiveLimit_after_loads.
    unfold st'. apply effectiveLimit_after_load. }
  split; [exact Hback|].
  intros be' specificStatus' a Ha Hlabel.
  assert (Hoff : fa_offset_count a
                 = get (pageByStatus st2) k * effectiveLimit_of st).
  { rewrite <- Hlim. now apply (offset_of_load_fetch be' st2 specificStatus'). }
  split; [exact Hoff|].
  intros Hpos. rewrite Hoff.
  change (fa_offset_count (load_args st false k))
    with (get (pageByStatus st) k * effectiveLimit_of st).
  nia.
Qed.

Lemma failed_page_is_passed_over_witness :
  proceeds wide_board_loaded None = true
  /\ In ToDo (statuses_of None)
  /\ on_get_task_by_status (todo_outage wide_board_rows)
       (load_args wide_board_loaded false ToDo) = Failure "timeout"
  /\ get (tasksByStatus
            (run_loads wide_board_loaded
               [mkLoadCall (todo_outage wide_board_rows) None;
                mkLoadCall (table_backend wide_board_rows) None])) ToDo
     = firstn 10 todo_rows ++ skipn 20 todo_rows
  /\ 1 + 1
     <= get (pageByStatus
               (run_loads wide_board_loaded
                  [mkLoadCall (todo_outage wide_board_rows) None;
                   mkLoadCall (table_backend wide_board_rows) None])) ToDo.
Proof.
  assert (H1 : proceeds wide_board_loaded None = true)
    by (vm_compute; reflexivity).
  assert (H2 : In ToDo (statuses_of None)) by now left.
  assert (H3 : on_get_task_by_status (todo_outage wide_board_rows)
                 (load_args wide_board_loaded false ToDo) = Failure "timeout")
    by reflexivity.
  split; [exact H1|]. split; [exact H2|]. split; [exact H3|].
  split; [vm_compute; reflexivity|].
  exact (proj1 (proj2 (proj2 (proj2
    (failed_page_is_passed_over (todo_outage wide_board_rows)
       wide_board_loaded None ToDo "timeout" H1 H2 H3)))
    [mkLoadCall (table_backend wide_board_rows) None])).
Defined.

(** X8: a reset load aimed at one status empties the other two lists. After
    [loadMoreTasks(true, k)] the list of [k] is the first page the backend
    answered and its cursor is 1, while every other status is left with an
    empty list and with the cursor and has-more flag it had. *)
Theorem reset_of_one_status_empties_the_others be st k :
  let st' := exec st (loadMoreTasks be st true (Some k)) in
  get (tasksByStatus st') k = fetched_page be st true k
  /\ get (pageByStatus st') k = 1
  /\ get (hasMoreByStatus st') k
     = (Z.of_nat (List.length (fetched_page be st true k))
        =? effectiveLimit_of st)
  /\ forall k', k' <> k ->
       get (tasksByStatus st') k' = []
       /\ get (pageByStatus st') k' = get (pageByStatus st) k'
       /\ get (hasMoreByStatus st') k' = get (hasMoreByStatus st) k'.
Proof.
  cbv zeta. rewrite exec_loadMoreTasks_reset.
  destruct st, k;
    cbn [statuses_of fold_left reset_step reducer set get tasksByStatus
         pageByStatus hasMoreByStatus to_do in_progress done];
    (split; [reflexivity|]); (split; [reflexivity|]); (split; [reflexivity|]);
    intros k' Hk'; destruct k'; try congruence; repeat split.
Qed.

(** X9: a load keeps to the lists. Whatever its arguments, [loadMoreTasks]
    leaves the nine filter values and the three totals as they were, issues
    no count call and no status update, and, unless it is skipped, ends with
    [loading] false; a reset load also clears [filtersChanged]. *)
Theorem loadMoreTasks_frame be st reset specificStatus :
  let m := loadMoreTasks be st reset specificStatus in
  filter_deps (exec st m) = filter_deps st
  /\ totalCountByStatus (exec st m) = totalCountByStatus st
  /\ count_calls_of (effects m) = []
  /\ filter is_status_update (remote_calls m) = []
  /\ (reset = true \/ proceeds st specificStatus = true ->
      loading (exec st m) = false)
  /\ (reset = true -> filtersChanged (exec st m) = false).
Proof.
  intros m.
  assert (Hcalls : remote_calls m = []
                   \/ remote_calls m
                      = map (fun key => get_task_by_status (load_args st reset key))
                            (statuses_of specificStatus)).
  { destruct reset; [right; apply remote_calls_loadMoreTasks; now left|].
    destruct (proceeds st specificStatus) eqn:Hp.
    - right. apply remote_calls_loadMoreTasks. now right.
    - left. unfold m. now rewrite (loadMoreTasks_skipped _ _ _ Hp). }
  assert (Hnocount : count_calls_of (effects m) = []
                     /\ filter is_status_update (remote_calls m) = []).
  { unfold count_calls_of.
    change (remote_calls_of (effects m)) with (remote_calls m).
    destruct Hcalls as [->| ->]; [now split|].
    destruct specificStatus as [k'|]; now split. }
  destruct Hnocount as [Hc Hu].
  destruct reset.
  - unfold m. rewrite exec_loadMoreTasks_reset.
    split; [|split; [|split; [exact Hc|split; [exact Hu|]]]].
    + destruct st, specificStatus as [[]|]; reflexivity.
    + destruct st, specificStatus as [[]|]; reflexivity.
    + split; intros _; destruct st, specificStatus as [[]|]; reflexivity.
  - pose proof (query_part_loadMoreTasks be st specificStatus) as Hq.
    split; [exact (f_equal fst Hq)|].
    split; [exact (f_equal snd Hq)|].
    split; [exact Hc|]. split; [exact Hu|].
    split; [|discriminate].
    intros [Hr|Hp]; [discriminate|].
    unfold m. rewrite (exec_loadMoreTasks_proceeds _ _ _ _ Hp).
    now destruct (after_set_loading
                    (fold_left (load_step be st) (statuses_of specificStatus)
                               (reducer st (SET_LOADING true))) false)
      as (_ & _ & _ & ->).
Qed.

(** ** The realtime reload and the count refresh *)

(** X10: a realtime reload starts the lists over. When the store is not
    loading, the handler replaces each list by the first page the backend
    answers, puts every cursor at 1, sets each has-more flag to whether that
    page is full, replaces the totals by the counts and leaves [loading]
    and [filtersChanged] false: pages loaded before are dropped, and the
    filter values are kept. When the store is loading, it does nothing. *)
Theorem handleRealtimeUpdate_starts_over be st k :
  let st' := exec st (handleRealtimeUpdate be st) in
  (loading st = false ->
     get (tasksByStatus st') k = fetched_page be st true k
     /\ get (pageByStatus st') k = 1
     /\ get (hasMoreByStatus st') k
        = (Z.of_nat (List.length (fetched_page be st true k))
           =? effectiveLimit_of st)
     /\ get (totalCountByStatus st') k = counted be st k
     /\ loading st' = false
     /\ filtersChanged st' = false
     /\ filter_deps st' = filter_deps st)
  /\ (loading st = true -> effects (handleRealtimeUpdate be st) = []).
Proof.
  cbv zeta. unfold handleRealtimeUpdate, reset_reload. split; intros Hl; rewrite Hl.
  - cbn [negb]. rewrite exec_bind, exec_loadMoreTasks_reset,
      exec_fetchStatusWiseCounts_counted.
    destruct st, k;
      cbn [statuses_of statusKeyArray fold_left reset_step reducer set get
           tasksByStatus pageByStatus hasMoreByStatus totalCountByStatus
           loading filtersChanged filter_deps statusFilter categoryFilter
           subcategoryFilter dateRange searchQuery limit selectedCountries
           hourlyBudgetType priceRange to_do in_progress done];
      repeat split.
  - reflexivity.
Qed.

Lemma handleRealtimeUpdate_starts_over_witness :
  loading after_outage = false
  /\ get (pageByStatus
            (exec after_outage
               (handleRealtimeUpdate (table_backend board_rows) after_outage)))
         InProgress = 1.
Proof.
  split; [reflexivity|].
  exact (proj1 (proj2 (proj1 (handleRealtimeUpdate_starts_over
                                (table_backend board_rows) after_outage
                                InProgress) eq_refl))).
Defined.

Lemma counted_answer be cur key :
  counted be cur key
  = match on_get_task_count_by_status be (refresh_args cur key) with
    | Success (Some n) => n
    | Success None => 0
    | Failure _ => 0
    end.
Proof.
  unfold counted, refresh_args, getTaskCountByStatus.
  destruct (on_get_task_count_by_status be _) as [[n|]|e]; reflexivity.
Qed.

(** X11: the count refresh overwrites all three totals and nothing else. Each
    total becomes the count the backend answers for that status; a failed or
    null count makes it 0, whatever the total was before. The refresh issues
    exactly three remote calls, the count calls for "To Do", "In Progress"
    and "Done" in this order. *)
Theorem fetchStatusWiseCounts_overwrites_totals be st cur k :
  exec st (fetchStatusWiseCounts be cur)
  = reducer st (SET_TOTAL_COUNT_BY_STATUS
                  (mkByStatus (counted be cur ToDo) (counted be cur InProgress)
                              (counted be cur Done)))
  /\ get (totalCountByStatus (exec st (fetchStatusWiseCounts be cur))) k
     = counted be cur k
  /\ (forall n, on_get_task_count_by_status be (refresh_args cur k)
                = Success (Some n) -> counted be cur k = n)
  /\ (on_get_task_count_by_status be (refresh_args cur k) = Success None ->
      counted be cur k = 0)
  /\ (forall e, on_get_task_count_by_status be (refresh_args cur k) = Failure e ->
                counted be cur k = 0)
  /\ map (fun c => match c with
                   | get_task_count_by_status a => ca_task_status a
                   | _ => ""
                   end)
         (remote_calls (fetchStatusWiseCounts be cur))
     = ["To Do"; "In Progress"; "Done"].
Proof.
  split; [apply exec_fetchStatusWiseCounts_counted|].
  split.
  { rewrite exec_fetchStatusWiseCounts_counted. now destruct st, k. }
  rewrite counted_answer.
  split; [now intros n ->|]. split; [now intros ->|]. split; [now intros e ->|].
  now rewrite remote_calls_fetchStatusWiseCounts.
Qed.

Lemma fetchStatusWiseCounts_overwrites_totals_witness :
  on_get_task_count_by_status failing_backend (refresh_args after_outage ToDo)
    = Failure "connection refused"
  /\ get (totalCountByStatus after_outage) ToDo = 25
  /\ get (totalCountByStatus
            (exec after_outage
               (fetchStatusWiseCounts failing_backend after_outage))) ToDo = 0.
Proof.
  split; [reflexivity|]. split; [reflexivity|].
  pose proof (fetchStatusWiseCounts_overwrites_totals failing_backend
                after_outage after_outage ToDo) as (_ & H & _ & _ & Hf & _).
  rewrite H. exact (Hf _ eq_refl).
Defined.

Lemma loadMoreTasks_frame_witness :
  loading (exec load_in_flight
             (loadMoreTasks failing_backend load_in_flight true None)) = false.
Proof.
  exact (proj1 (proj2 (proj2 (proj2 (proj2
    (loadMoreTasks_frame failing_backend load_in_flight true None)))))
    (or_introl eq_refl)).
Defined.

(** * The Discard page *)

Lemma discard_fetch_unlocked (be : Backend) (hook : State) (p : Discard.Page)
    (reset : bool) :
  Discard.loadingDiscardRef p = false ->
  let lim := match limit hook with Some l => l | None => Discard.PAGE_SIZE end in
  let page := if reset then 0 else Discard.discardPageRef p in
  let data :=
    match on_get_task_by_status be
            (fetch_args "Discarded" (Discard.page_filters hook lim (page * lim)))
    with
    | Success data => data
    | Failure _ => []
    end in
  result (Discard.fetchDiscardedTasks be hook p reset)
  = {| Discard.discardedTasks :=
         if reset then data else Discard.merge (Discard.discardedTasks p) data;
       Discard.hasMoreDiscard := (Z.of_nat (List.length data) =? lim);
       Discard.loadingDiscard := false;
       Discard.discardCount := Discard.discardCount p;
       Discard.discardPageRef :=
         if reset then 1
         else if 0 <? Z.of_nat (List.length data)
              then Discard.discardPageRef p + 1
              else Discard.discardPageRef p;
       Discard.loadingDiscardRef := false;
       Discard.loaderLoading := Discard.loaderLoading p |}
  /\ remote_calls (Discard.fetchDiscardedTasks be hook p reset)
     = [get_task_by_status
          (fetch_args "Discarded" (Discard.page_filters hook lim (page * lim)))].
Proof.
  intros Hl. cbv zeta. unfold Discard.fetchDiscardedTasks. rewrite Hl.
  rewrite result_bind, remote_calls_bind, result_fetchTasksByStatus,
          remote_calls_fetchTasksByStatus.
  split; reflexivity.
Qed.

(** X12: one fetch at a time. While a fetch of the page is in flight (its
    ref lock is set), [fetchDiscardedTasks], reset or not, makes no remote
    call and leaves the page as it is. *)
Theorem discard_fetch_is_locked be hook p reset :
  Discard.loadingDiscardRef p = true ->
  effects (Discard.fetchDiscardedTasks be hook p reset) = []
  /\ result (Discard.fetchDiscardedTasks be hook p reset) = p.
Proof.
  intros H. unfold Discard.fetchDiscardedTasks. rewrite H. now split.
Qed.

Lemma discard_fetch_is_locked_witness :
  result (Discard.fetchDiscardedTasks (table_backend discarded_rows) limit_5
            (Discard.mkPage [] true true 0 0 true false) true)
  = Discard.mkPage [] true true 0 0 true false.
Proof.
  exact (proj2 (discard_fetch_is_locked (table_backend discarded_rows) limit_5
                  (Discard.mkPage [] true true 0 0 true false) true eq_refl)).
Defined.

Lemma shown_spec prev t :
  Discard.shown prev t = true <-> In (id t) (map id prev).
Proof.
  unfold Discard.shown. rewrite existsb_exists. split.
  - intros (x & Hx & Heq). apply Z.eqb_eq in Heq. now rewrite Heq.
  - intros H. exists (id t). split; [exact H|apply Z.eqb_refl].
Qed.

Lemma NoDup_filter {A} (f : A -> bool) l : NoDup l -> NoDup (filter f l).
Proof.
  induction 1 as [|x l Hx _ IH]; cbn; [constructor|].
  destruct (f x); [|exact IH]. constructor; [|exact IH].
  intros Hin. apply filter_In in Hin. tauto.
Qed.

Lemma NoDup_map_filter {A B} (g : A -> B) (f : A -> bool) l :
  NoDup (map g l) -> NoDup (map g (filter f l)).
Proof.
  induction l as [|x l IH]; cbn; intros H; [constructor|].
  inversion H as [|? ? Hx Hl]; subst.
  destruct (f x); [|now apply IH]. cbn. constructor; [|now apply IH].
  intros Hin. apply Hx. apply in_map_iff in Hin. destruct Hin as (y & <- & Hy).
  apply in_map. apply filter_In in Hy. tauto.
Qed.

Lemma NoDup_app_disjoint {A} (l1 l2 : list A) :
  NoDup l1 -> NoDup l2 -> (forall x, In x l2 -> ~ In x l1) -> NoDup (l1 ++ l2).
Proof.
  induction 1 as [|x l1 Hx _ IH]; intros H2 Hd; [exact H2|]. cbn.
  constructor.
  - intros Hin. apply in_app_or in Hin. destruct Hin as [Hin|Hin]; [tauto|].
    apply (Hd x Hin). now left.
  - apply IH; [exact H2|]. intros y Hy Hin. apply (Hd y Hy). now right.
Qed.

Lemma filter_all_false {A} (f : A -> bool) l :
  (forall x, In x l -> f x = false) -> filter f l = [].
Proof.
  induction l as [|x l IH]; intros H; [reflexivity|]. cbn.
  rewrite (H x (or_introl eq_refl)). apply IH.
  intros y Hy. apply H. now right.
Qed.

(** X13: the Discard list never shows an id twice. A non-reset fetch keeps
    the list shown as a prefix and appends, in the order answered, exactly
    the answered rows whose id is not shown yet (nothing when the fetch
    fails): a row is in the new list if and only if it was shown or it was
    answered with an id not shown. If the ids shown were distinct and the
    answered rows have distinct ids, the ids of the new list are distinct;
    if every answered id is shown already, the list is unchanged. *)
Theorem discard_fetch_never_repeats_an_id be hook p :
  Discard.loadingDiscardRef p = false ->
  let lim := match limit hook with Some l => l | None => Discard.PAGE_SIZE end in
  let data :=
    match on_get_task_by_status be
            (fetch_args "Discarded"
               (Discard.page_filters hook lim (Discard.discardPageRef p * lim)))
    with
    | Success data => data
    | Failure _ => []
    end in
  let prev := Discard.discardedTasks p in
  let p' := result (Discard.fetchDiscardedTasks be hook p false) in
  Discard.discardedTasks p'
  = prev ++ filter (fun t => negb (existsb (Z.eqb (id t)) (map id prev))) data
  /\ (forall t, In t (Discard.discardedTasks p')
                <-> In t prev \/ (In t data /\ ~ In (id t) (map id prev)))
  /\ (NoDup (map id prev) -> NoDup (map id data) ->
      NoDup (map id (Discard.discardedTasks p')))
  /\ ((forall t, In t data -> In (id t) (map id prev)) ->
      Discard.discardedTasks p' = prev).
Proof.
  intros Hl lim data prev p'.
  destruct (discard_fetch_unlocked be hook p false Hl) as [Hres _].
  cbv zeta in Hres. fold lim in Hres. fold data in Hres.
  assert (Heq : Discard.discardedTasks p'
                = prev ++ filter (fun t => negb (Discard.shown prev t)) data).
  { unfold p'. rewrite Hres. reflexivity. }
  assert (Hfresh : forall t, In t (filter (fun t => negb (Discard.shown prev t))
                                          data)
                             <-> In t data /\ ~ In (id t) (map id prev)).
  { intros t. rewrite filter_In, negb_true_iff, <- shown_spec.
    destruct (Discard.shown prev t); intuition congruence. }
  split; [exact Heq|]. split; [|split].
  - intros t. rewrite Heq, in_app_iff, Hfresh. reflexivity.
  - intros Hnd Hdata. rewrite Heq, map_app. apply NoDup_app_disjoint.
    + exact Hnd.
    + now apply NoDup_map_filter.
    + intros i Hi Hin. apply in_map_iff in Hi. destruct Hi as (t & <- & Ht).
      apply Hfresh in Ht. tauto.
  - intros Hall. rewrite Heq.
    replace (filter (fun t => negb (Discard.shown prev t)) data) with (@nil Task);
      [apply app_nil_r|].
    symmetry. apply filter_all_false. intros t Ht.
    apply negb_false_iff, shown_spec. now apply Hall.
Qed.

Lemma discard_fetch_never_repeats_an_id_witness :
  Discard.loadingDiscardRef
    (Discard.mkPage (firstn 7 discarded_rows) true false 0 1 false false) = false
  /\ Discard.discardedTasks
       (result (Discard.fetchDiscardedTasks
                  (table_backend discarded_rows) limit_5
                  (Discard.mkPage (firstn 7 discarded_rows) true false
                                  0 1 false false) false))
     = firstn 7 discarded_rows
       ++ filter (fun t => negb (existsb (Z.eqb (id t))
                                         (map id (firstn 7 discarded_rows))))
                 (firstn 5 (skipn 5 discarded_rows)).
Proof.
  split; [reflexivity|].
  exact (proj1 (discard_fetch_never_repeats_an_id
                  (table_backend discarded_rows) limit_5
                  (Discard.mkPage (firstn 7 discarded_rows) true false
                                  0 1 false false) eq_refl)).
Defined.

(** X14: an empty or failed page does not move the Discard cursor. When a
    non-reset fetch receives no rows (an empty answer or an error), the list
    and the page cursor stay as they were, so the next fetch asks for the
    same page again, and has-more becomes [0 === limit]; a reset fetch that
    receives no rows leaves an empty list and the cursor at 1. *)
Theorem discard_empty_page_keeps_cursor (be : Backend) (hook : State)
    (p : Discard.Page) (reset : bool) :
  Discard.loadingDiscardRef p = false ->
  let lim := match limit hook with Some l => l | None => Discard.PAGE_SIZE end in
  let page := if reset then 0 else Discard.discardPageRef p in
  let args := fetch_args "Discarded" (Discard.page_filters hook lim (page * lim)) in
  (on_get_task_by_status be args = Success []
   \/ exists e, on_get_task_by_status be args = Failure e) ->
  let p' := result (Discard.fetchDiscardedTasks be hook p reset) in
  Discard.discardedTasks p'
    = (if reset then [] else Discard.discardedTasks p)
  /\ Discard.discardPageRef p' = (if reset then 1 else Discard.discardPageRef p)
  /\ Discard.hasMoreDiscard p' = (0 =? lim)
  /\ Discard.loadingDiscardRef p' = false
  /\ (reset = false ->
      remote_calls (Discard.fetchDiscardedTasks be hook p' false)
      = remote_calls (Discard.fetchDiscardedTasks be hook p false)).
Proof.
  intros Hl lim page args Hans p'.
  destruct (discard_fetch_unlocked be hook p reset Hl) as [Hres Hcalls].
  cbv zeta in Hres, Hcalls. fold lim page args in Hres, Hcalls.
  assert (Hdata : match on_get_task_by_status be args with
                  | Success data => data
                  | Failure _ => []
                  end = [])
    by (destruct Hans as [->|[e ->]]; reflexivity).
  rewrite Hdata in Hres. unfold p'. rewrite Hres.
  cbn [Discard.discardedTasks Discard.discardPageRef Discard.hasMoreDiscard
       Discard.loadingDiscardRef List.length Z.of_nat].
  split; [destruct reset; [reflexivity|unfold Discard.merge; apply app_nil_r]|].
  split; [now destruct reset|]. split; [reflexivity|]. split; [reflexivity|].
  intros ->. unfold Discard.fetchDiscardedTasks.
  cbn [Discard.loadingDiscardRef Discard.discardPageRef]. rewrite Hl.
  reflexivity.
Qed.

Lemma discard_empty_page_keeps_cursor_witness :
  Discard.loadingDiscardRef
    (Discard.mkPage (firstn 5 discarded_rows) true false 0 1 false false) = false
  /\ Discard.discardPageRef
       (result (Discard.fetchDiscardedTasks failing_backend limit_5
                  (Discard.mkPage (firstn 5 discarded_rows) true false
                                  0 1 false false) false)) = 1.
Proof.
  split; [reflexivity|].
  exact (proj1 (proj2
    (discard_empty_page_keeps_cursor failing_backend limit_5
       (Discard.mkPage (firstn 5 discarded_rows) true false 0 1 false false)
       false eq_refl (or_intror (ex_intro _ "connection refused" eq_refl))))).
Defined.

Lemma NoDup_app_In {A} (l1 l2 : list A) x :
  NoDup (l1 ++ l2) -> In x l1 -> In x l2 -> False.
Proof.
  induction l1 as [|y l1 IH]; cbn; intros Hnd H1 H2; [exact H1|].
  inversion Hnd as [|? ? Hy Hrest]; subst.
  destruct H1 as [->|H1]; [|now apply IH].
  apply Hy. apply in_or_app. now right.
Qed.

Lemma filter_all {A} (f : A -> bool) l :
  (forall x, In x l -> f x = true) -> filter f l = l.
Proof.
  induction l as [|x l IH]; intros H; [reflexivity|]. cbn.
  rewrite (H x (or_introl eq_refl)). f_equal. apply IH. intros; apply H; now right.
Qed.

Lemma in_firstn {A} (x : A) n l : In x (firstn n l) -> In x l.
Proof.
  revert l. induction n as [|n IH]; intros [|y l]; cbn; try tauto.
  intros [->|H]; [now left|right; now apply IH].
Qed.

(** With distinct ids, the rows of a later page are not among those of the
    pages before it. *)
Lemma later_page_is_new rows n m :
  NoDup (map id rows) ->
  filter (fun t => negb (Discard.shown (firstn n rows) t))
         (firstn m (skipn n rows))
  = firstn m (skipn n rows).
Proof.
  intros Hnd. apply filter_all. intros t Ht.
  apply negb_true_iff. destruct (Discard.shown (firstn n rows) t) eqn:E;
    [|reflexivity].
  exfalso. apply shown_spec in E.
  rewrite <- (firstn_skipn n rows), map_app in Hnd.
  apply (NoDup_app_In _ _ (id t) Hnd E).
  apply in_map. eapply in_firstn; eassumption.
Qed.

Section DiscardPaging.

Variable be : Backend.
Variable hook : State.
Variable rows : list Task.

Let lim : Z := match limit hook with Some l => l | None => Discard.PAGE_SIZE end.

Hypothesis lim_pos : 0 < lim.
Hypothesis ids_distinct : NoDup (map id rows).
Hypothesis serves : Discard.serves be hook rows.

Lemma discard_fetch_keeps_prefix p :
  Discard.shows_prefix hook rows p ->
  Discard.shows_prefix hook rows
    (result (Discard.fetchDiscardedTasks be hook p false)).
Proof.
  intros (Hl & Hld & Hc & Hlist & _).
  destruct (discard_fetch_unlocked be hook p false Hl) as [Hres _].
  cbv zeta in Hres. fold lim in Hres, Hlist. rewrite serves in Hres.
  rewrite Hres. unfold Discard.shows_prefix. fold lim.
  cbn [Discard.loadingDiscardRef Discard.loadingDiscard Discard.discardPageRef
       Discard.discardedTasks Discard.hasMoreDiscard].
  set (n := Z.to_nat (Discard.discardPageRef p * lim)) in *.
  set (data := firstn (Z.to_nat lim) (skipn n rows)) in *.
  assert (Hmerge : Discard.merge (Discard.discardedTasks p) data
                   = firstn (n + Z.to_nat lim) rows).
  { unfold Discard.merge, data. rewrite Hlist, later_page_is_new
      by exact ids_distinct. symmetry. apply firstn_plus. }
  assert (Hlen : List.length data
                 = Nat.min (Z.to_nat lim) (List.length rows - n))
    by (unfold data; now rewrite length_firstn, length_skipn).
  split; [reflexivity|]. split; [reflexivity|].
  split; [destruct (0 <? Z.of_nat (List.length data)); lia|].
  split.
  - rewrite Hmerge. destruct (0 <? Z.of_nat (List.length data)) eqn:E.
    + f_equal. unfold n. lia.
    + apply Z.ltb_ge in E.
      assert (Hrows : (List.length rows <= n)%nat) by lia.
      fold n. rewrite !firstn_all2 by lia. reflexivity.
  - intros Hmore. apply Z.eqb_neq in Hmore.
    rewrite Hmerge. apply firstn_all2. lia.
Qed.

Lemma discard_scroll_keeps_prefix p scrollTop clientHeight scrollHeight :
  Discard.shows_prefix hook rows p ->
  Discard.shows_prefix hook rows
    (result (Discard.handleScroll be hook p scrollTop clientHeight scrollHeight)).
Proof.
  intros H. unfold Discard.handleScroll.
  destruct ((scrollHeight - 300 <=? scrollTop + clientHeight)
            && Discard.hasMoreDiscard p && negb (Discard.loadingDiscard p));
    [now apply discard_fetch_keeps_prefix|exact H].
Qed.

Lemma discard_filter_update_shows_first_page p :
  Discard.loadingDiscardRef p = false ->
  Discard.shows_prefix hook rows (result (Discard.runFilterUpdate be hook p)).
Proof.
  intros Hl. unfold Discard.runFilterUpdate.
  rewrite !result_bind. cbn [result ret snd].
  set (p0 := Discard.mkPage [] true (Discard.loadingDiscard p)
               (Discard.discardCount p) 0 (Discard.loadingDiscardRef p) true).
  destruct (discard_fetch_unlocked be hook p0 true Hl) as [Hres _].
  cbv zeta in Hres. fold lim in Hres. rewrite serves in Hres.
  unfold Discard.fetchDiscardCount. rewrite result_bind. cbn [result ret snd].
  rewrite Hres. unfold Discard.shows_prefix. fold lim.
  cbn [Discard.loadingDiscardRef Discard.loadingDiscard Discard.discardPageRef
       Discard.discardedTasks Discard.hasMoreDiscard].
  change (Z.to_nat (0 * lim)) with 0%nat. cbn [skipn].
  split; [reflexivity|]. split; [reflexivity|]. split; [lia|].
  split; [f_equal; lia|].
  intros Hmore. apply Z.eqb_neq in Hmore. rewrite length_firstn in Hmore.
  apply firstn_all2. lia.
Qed.

Lemma discard_scrolls_keep_prefix events : forall p,
  Discard.shows_prefix hook rows p ->
  Discard.shows_prefix hook rows (Discard.scrolls be hook p events).
Proof.
  induction events as [|[[scrollTop clientHeight] scrollHeight] rest IH];
    intros p H; [exact H|].
  cbn [Discard.scrolls]. apply IH. now apply discard_scroll_keeps_prefix.
Qed.

End DiscardPaging.

(** X15: the Discard page pages without gaps or repeats. Over a backend that
    serves a fixed list of rows with distinct ids by offset and limit
    (limit positive), after a filter update that finds the page idle and
    any run of scroll events the page is idle and shows the first
    [cursor * limit] rows, in order; and when its has-more flag has turned
    false it shows all the rows. *)
Theorem discard_pages_through_rows (be : Backend) (hook : State)
    (rows : list Task) (p : Discard.Page) (events : list (Z * Z * Z)) :
  0 < match limit hook with Some l => l | None => Discard.PAGE_SIZE end ->
  NoDup (map id rows) ->
  Discard.serves be hook rows ->
  Discard.loadingDiscardRef p = false ->
  let lim := match limit hook with Some l => l | None => Discard.PAGE_SIZE end in
  let p' := Discard.scrolls be hook
              (result (Discard.runFilterUpdate be hook p)) events in
  Discard.loadingDiscardRef p' = false
  /\ Discard.loadingDiscard p' = false
  /\ 0 <= Discard.discardPageRef p'
  /\ Discard.discardedTasks p'
     = firstn (Z.to_nat (Discard.discardPageRef p' * lim)) rows
  /\ (Discard.hasMoreDiscard p' = false -> Discard.discardedTasks p' = rows).
Proof.
  intros Hlim Hnd Hserves Hl lim p'.
  apply (discard_scrolls_keep_prefix be hook rows Hlim Hnd Hserves).
  now apply discard_filter_update_shows_first_page.
Qed.

Lemma table_backend_serves_discarded :
  Discard.serves (table_backend discarded_rows) limit_5 discarded_rows.
Proof. intros effectiveLimit offset. reflexivity. Qed.

Lemma discarded_rows_distinct : NoDup (map id discarded_rows).
Proof.
  cbn.
  repeat (constructor;
          [cbn; intros H; repeat (destruct H as [H|H]; [discriminate H|]);
           exact H|]).
  constructor.
Qed.

Lemma discard_pages_through_rows_witness :
  0 < match limit limit_5 with Some l => l | None => Discard.PAGE_SIZE end
  /\ NoDup (map id discarded_rows)
  /\ Discard.serves (table_backend discarded_rows) limit_5 discarded_rows
  /\ Discard.loadingDiscardRef Discard.initialPage = false
  /\ Discard.discardedTasks
       (Discard.scrolls (table_backend discarded_rows) limit_5
          (result (Discard.runFilterUpdate (table_backend discarded_rows)
                     limit_5 Discard.initialPage))
          [(0, 400, 2000); (1500, 400, 2000); (1700, 400, 2000);
           (1700, 400, 2000)])
     = discarded_rows.
Proof.
  assert (H0 : 0 < match limit limit_5 with
                   | Some l => l | None => Discard.PAGE_SIZE end)
    by (cbn; lia).
  split; [exact H0|]. split; [exact discarded_rows_distinct|].
  split; [exact table_backend_serves_discarded|]. split; [reflexivity|].
  exact (proj2 (proj2 (proj2 (proj2
    (discard_pages_through_rows (table_backend discarded_rows) limit_5
       discarded_rows Discard.initialPage
       [(0, 400, 2000); (1500, 400, 2000); (1700, 400, 2000);
        (1700, 400, 2000)]
       H0 discarded_rows_distinct table_backend_serves_discarded eq_refl))))
    eq_refl).
Defined.

(** X16: a filter change and a fetch in flight. When a filter update runs
    while a fetch of the page holds the lock, its reset fetch is dropped:
    the only remote call is the count call, and the page is left with an
    empty list, the cursor at 0, has-more true, the new count, and the lock
    still held by the fetch in flight. When the page is idle, the update
    issues one list fetch at offset 0 and then the count call. *)
Theorem discard_filter_update_during_fetch (be : Backend) (hook : State)
    (p : Discard.Page) :
  let lim := match limit hook with Some l => l | None => Discard.PAGE_SIZE end in
  let count_call :=
    get_task_count_by_status
      (count_args "Discarded" (categoryFilter hook) (subcategoryFilter hook)
         (dateRange hook) (searchQuery hook) (selectedCountries hook)
         (hourlyBudgetType hook) (priceRange hook)) in
  (Discard.loadingDiscardRef p = true ->
     remote_calls (Discard.runFilterUpdate be hook p) = [count_call]
     /\ Discard.discardedTasks (result (Discard.runFilterUpdate be hook p)) = []
     /\ Discard.discardPageRef (result (Discard.runFilterUpdate be hook p)) = 0
     /\ Discard.hasMoreDiscard (result (Discard.runFilterUpdate be hook p)) = true
     /\ Discard.loadingDiscardRef (result (Discard.runFilterUpdate be hook p))
        = true
     /\ Discard.loaderLoading (result (Discard.runFilterUpdate be hook p)) = false)
  /\ (Discard.loadingDiscardRef p = false ->
      remote_calls (Discard.runFilterUpdate be hook p)
      = [get_task_by_status
           (fetch_args "Discarded" (Discard.page_filters hook lim 0));
         count_call]
      /\ Discard.discardPageRef (result (Discard.runFilterUpdate be hook p)) = 1
      /\ Discard.loaderLoading (result (Discard.runFilterUpdate be hook p))
         = false).
Proof.
  cbv zeta. unfold Discard.runFilterUpdate, Discard.fetchDiscardCount.
  split; intros Hl.
  - unfold Discard.fetchDiscardedTasks.
    cbn [Discard.loadingDiscardRef]. rewrite Hl.
    rewrite !remote_calls_bind, !result_bind, remote_calls_getTaskCountByStatus.
    cbn [result ret snd Discard.discardedTasks Discard.discardPageRef
         Discard.hasMoreDiscard Discard.loadingDiscardRef Discard.loaderLoading].
    repeat split.
  - set (p0 := Discard.mkPage [] true (Discard.loadingDiscard p)
                 (Discard.discardCount p) 0 (Discard.loadingDiscardRef p) true).
    destruct (discard_fetch_unlocked be hook p0 true Hl) as [Hres Hcalls].
    cbv zeta in Hres, Hcalls.
    rewrite !remote_calls_bind, !result_bind, remote_calls_getTaskCountByStatus.
    rewrite Hcalls, Hres.
    cbn [result ret snd Discard.discardedTasks Discard.discardPageRef
         Discard.hasMoreDiscard Discard.loadingDiscardRef Discard.loaderLoading].
    repeat split.
Qed.

Lemma discard_filter_update_during_fetch_witness :
  Discard.loadingDiscardRef
    (Discard.mkPage (firstn 5 discarded_rows) true true 12 1 true false) = true
  /\ Discard.discardedTasks
       (result (Discard.runFilterUpdate (table_backend discarded_rows) limit_5
                  (Discard.mkPage (firstn 5 discarded_rows) true true 12 1
                                  true false))) = [].
Proof.
  split; [reflexivity|].
  exact (proj1 (proj2 (proj1
    (discard_filter_update_during_fetch (table_backend discarded_rows) limit_5
       (Discard.mkPage (firstn 5 discarded_rows) true true 12 1 true false))
    eq_refl))).
Defined.

(** * Category options *)

Lemma own_put m k v k' :
  TaskService.own (TaskService.put m k v) k'
  = if String.eqb k k' then Some v else TaskService.own m k'.
Proof.
  induction m as [|[k0 v0] m IH]; cbn.
  - reflexivity.
  - destruct (String.eqb_spec k0 k) as [->|Hne]; cbn.
    + destruct (String.eqb k k'); reflexivity.
    + destruct (String.eqb_spec k0 k') as [->|Hne'].
      * destruct (String.eqb_spec k k'); [congruence|reflexivity].
      * exact IH.
Qed.

Lemma includes_spec l s : TaskService.includes l s = true <-> In s l.
Proof.
  unfold TaskService.includes. rewrite existsb_exists. split.
  - intros (x & Hx & Heq). apply String.eqb_eq in Heq. now subst.
  - intros H. exists s. split; [exact H|apply String.eqb_refl].
Qed.

Lemma in_add cats c x :
  In x (TaskService.add cats c) <-> In x cats \/ x = c.
Proof.
  unfold TaskService.add.
  destruct (TaskService.includes cats c) eqn:E.
  - apply includes_spec in E. split; [tauto|]. intros [H| ->]; assumption.
  - rewrite in_app_iff. cbn. intuition.
Qed.

Lemma NoDup_snoc {A} (l : list A) x : NoDup l -> ~ In x l -> NoDup (l ++ [x]).
Proof.
  intros Hl Hx. apply NoDup_app_disjoint; [exact Hl|repeat constructor; intros []|].
  intros y [<-|[]]. exact Hx.
Qed.

Lemma NoDup_add cats c : NoDup cats -> NoDup (TaskService.add cats c).
Proof.
  intros H. unfold TaskService.add.
  destruct (TaskService.includes cats c) eqn:E; [exact H|].
  apply NoDup_snoc; [exact H|]. intros Hin. apply includes_spec in Hin. congruence.
Qed.

Lemma collected_more seen acc r :
  (forall c s, ~ TaskService.names_subcategory c s r) ->
  (forall c, TaskService.names_category c r ->
             In c (TaskService.categoryOptions acc)) ->
  collected seen acc -> collected (seen ++ [r]) acc.
Proof.
  intros Hnosub Hcat (H1 & H2 & H3 & H4).
  split; [exact H1|]. split; [|split; [exact H3|]].
  - intros c. split.
    + intros Hc. apply H2 in Hc. destruct Hc as (r' & Hin & Hn).
      exists r'. split; [apply in_or_app; now left|exact Hn].
    + intros (r' & Hin & Hn). apply in_app_or in Hin.
      destruct Hin as [Hin|[<-|[]]]; [apply H2; now exists r'|now apply Hcat].
  - intros c subs Hown. destruct (H4 c subs Hown) as (Hinh & Hnd & Hs).
    split; [exact Hinh|]. split; [exact Hnd|].
    intros s. rewrite Hs. split; intros (r' & Hin & Hn).
    + exists r'. split; [apply in_or_app; now left|exact Hn].
    + apply in_app_or in Hin. destruct Hin as [Hin|[<-|[]]];
        [now exists r'|now apply Hnosub in Hn].
Qed.

(** Visiting a row that names a category [c] of the map's own: the map after
    the visit answers [subs'] for [c] and is unchanged elsewhere, and
    [subs'] holds what the map held for [c] and the row's subcategory. *)
Lemma collected_visit seen acc r c m' subs' :
  TaskService.truthy (TaskService.r_category r) = Some c ->
  TaskService.inherited c = false ->
  collected seen acc ->
  (forall k, k <> c -> TaskService.own m' k
                       = TaskService.own (TaskService.subcategoryMap acc) k) ->
  TaskService.own m' c = Some subs' ->
  NoDup subs' ->
  (forall s, In s subs'
             <-> (exists subs, TaskService.own (TaskService.subcategoryMap acc) c
                               = Some subs /\ In s subs)
                 \/ TaskService.truthy (TaskService.r_subcategory r) = Some s) ->
  collected (seen ++ [r])
    (TaskService.mkCategoryData
       (TaskService.add (TaskService.categoryOptions acc) c) m').
Proof.
  intros Hr Hinh (H1 & H2 & H3 & H4) Hother Hc Hnd Hsubs.
  assert (Hname : forall x, TaskService.names_category x r <-> x = c).
  { intros x. unfold TaskService.names_category. rewrite Hr.
    split; [intros H; now injection H|intros ->; reflexivity]. }
  unfold collected. cbn [TaskService.categoryOptions TaskService.subcategoryMap].
  split; [now apply NoDup_add|].
  split; [|split].
  - intros x. rewrite in_add, H2. split.
    + intros [(r' & Hin & Hn)| ->].
      * exists r'. split; [apply in_or_app; now left|exact Hn].
      * exists r. split; [apply in_or_app; right; now left|now apply Hname].
    + intros (r' & Hin & Hn). apply in_app_or in Hin.
      destruct Hin as [Hin|[<-|[]]]; [left; now exists r'|right; now apply Hname].
  - intros x Hx Hinhx. destruct (string_dec x c) as [->|Hne]; [now exists subs'|].
    rewrite (Hother x Hne). apply H3; [|exact Hinhx].
    apply in_add in Hx. destruct Hx as [Hx|Hx]; [exact Hx|congruence].
  - intros x subs Hown. destruct (string_dec x c) as [->|Hne].
    + rewrite Hc in Hown. injection Hown as <-.
      split; [exact Hinh|]. split; [exact Hnd|].
      intros s. rewrite Hsubs. split.
      * intros [(subs0 & Hown0 & Hs)|Hs].
        -- destruct (H4 c subs0 Hown0) as (_ & _ & Hiff). apply Hiff in Hs.
           destruct Hs as (r' & Hin & Hn). exists r'.
           split; [apply in_or_app; now left|exact Hn].
        -- exists r. split; [apply in_or_app; right; now left|].
           split; [exact Hr|exact Hs].
      * intros (r' & Hin & Hn). apply in_app_or in Hin.
        destruct Hin as [Hin|[<-|[]]]; [|right; exact (proj2 Hn)].
        left. assert (Hcat : In c (TaskService.categoryOptions acc))
          by (apply H2; exists r'; split; [exact Hin|exact (proj1 Hn)]).
        destruct (H3 c Hcat Hinh) as [subs0 Hown0].
        exists subs0. split; [exact Hown0|].
        apply (H4 c subs0 Hown0). now exists r'.
    + rewrite (Hother x Hne) in Hown.
      destruct (H4 x subs Hown) as (Hinhx & Hnd' & Hiff).
      split; [exact Hinhx|]. split; [exact Hnd'|]. intros s. rewrite Hiff.
      split; intros (r' & Hin & Hn).
      * exists r'. split; [apply in_or_app; now left|exact Hn].
      * apply in_app_or in Hin. destruct Hin as [Hin|[<-|[]]]; [now exists r'|].
        destruct Hn as [Hn _]. apply Hname in Hn. congruence.
Qed.

Lemma collected_visit_inherited seen acc r c :
  TaskService.truthy (TaskService.r_category r) = Some c ->
  TaskService.inherited c = true ->
  TaskService.truthy (TaskService.r_subcategory r) = None ->
  collected seen acc ->
  collected (seen ++ [r])
    (TaskService.mkCategoryData
       (TaskService.add (TaskService.categoryOptions acc) c)
       (TaskService.subcategoryMap acc)).
Proof.
  intros Hr Hinh Hsub (H1 & H2 & H3 & H4).
  assert (Hname : forall x, TaskService.names_category x r <-> x = c).
  { intros x. unfold TaskService.names_category. rewrite Hr.
    split; [intros H; now injection H|intros ->; reflexivity]. }
  unfold collected. cbn [TaskService.categoryOptions TaskService.subcategoryMap].
  split; [now apply NoDup_add|].
  split; [|split].
  - intros x. rewrite in_add, H2. split.
    + intros [(r' & Hin & Hn)| ->].
      * exists r'. split; [apply in_or_app; now left|exact Hn].
      * exists r. split; [apply in_or_app; right; now left|now apply Hname].
    + intros (r' & Hin & Hn). apply in_app_or in Hin.
      destruct Hin as [Hin|[<-|[]]]; [left; now exists r'|right; now apply Hname].
  - intros x Hx Hinhx. apply H3; [|exact Hinhx].
    apply in_add in Hx. destruct Hx as [Hx|Hx]; [exact Hx|congruence].
  - intros x subs Hown. destruct (H4 x subs Hown) as (Hinhx & Hnd & Hiff).
    split; [exact Hinhx|]. split; [exact Hnd|]. intros s. rewrite Hiff.
    split; intros (r' & Hin & Hn).
    + exists r'. split; [apply in_or_app; now left|exact Hn].
    + apply in_app_or in Hin. destruct Hin as [Hin|[<-|[]]]; [now exists r'|].
      destruct Hn as [_ Hn]. congruence.
Qed.

Lemma visit_collects seen acc r :
  ~ throws r -> collected seen acc ->
  exists acc', TaskService.visit acc r = Some acc'
               /\ collected (seen ++ [r]) acc'.
Proof.
  intros Hsafe Hacc. unfold TaskService.visit.
  destruct (TaskService.truthy (TaskService.r_category r)) as [c|] eqn:Hr.
  2: { exists acc. split; [reflexivity|]. apply collected_more; [| |exact Hacc].
       - intros c s [Hc _]. congruence.
       - intros c Hc. unfold TaskService.names_category in Hc. congruence. }
  pose proof Hacc as (_ & _ & _ & H4).
  destruct (TaskService.own (TaskService.subcategoryMap acc) c) as [subs|] eqn:Hown.
  - destruct (H4 c subs Hown) as (Hinh & Hnd & _).
    destruct (TaskService.truthy (TaskService.r_subcategory r)) as [s|] eqn:Hs.
    + destruct (TaskService.includes subs s) eqn:Hincl.
      * eexists. split; [reflexivity|].
        apply (collected_visit seen acc r c _ subs Hr Hinh Hacc);
          [reflexivity|exact Hown|exact Hnd|].
        intros s'. rewrite Hs. split.
        -- intros H. left. now exists subs.
        -- intros [(subs0 & Hown0 & H)|H].
           ++ congruence.
           ++ injection H as <-. now apply includes_spec.
      * eexists. split; [reflexivity|].
        apply (collected_visit seen acc r c _ (subs ++ [s]) Hr Hinh Hacc).
        -- intros k Hk. rewrite own_put.
           destruct (String.eqb_spec c k); [congruence|reflexivity].
        -- now rewrite own_put, String.eqb_refl.
        -- apply NoDup_snoc; [exact Hnd|].
           intros Hin. apply includes_spec in Hin. congruence.
        -- intros s'. rewrite Hs, in_app_iff. cbn. split.
           ++ intros [H|[<-|[]]]; [left; now exists subs|now right].
           ++ intros [(subs0 & Hown0 & H)|H].
              ** left. congruence.
              ** injection H as <-. right. now left.
    + eexists. split; [reflexivity|].
      apply (collected_visit seen acc r c _ subs Hr Hinh Hacc);
        [reflexivity|exact Hown|exact Hnd|].
      intros s'. rewrite Hs. split.
      * intros H. left. now exists subs.
      * intros [(subs0 & Hown0 & H)|H]; [congruence|discriminate].
  - destruct (TaskService.inherited c) eqn:Hinh.
    + destruct (TaskService.truthy (TaskService.r_subcategory r)) as [s|] eqn:Hs.
      * exfalso. apply Hsafe. now exists c, s.
      * eexists. split; [reflexivity|].
        now apply collected_visit_inherited.
    + destruct (TaskService.truthy (TaskService.r_subcategory r)) as [s|] eqn:Hs.
      * eexists. split; [reflexivity|].
        apply (collected_visit seen acc r c _ [s] Hr Hinh Hacc).
        -- intros k Hk. rewrite own_put.
           destruct (String.eqb_spec c k); [congruence|reflexivity].
        -- now rewrite own_put, String.eqb_refl.
        -- repeat constructor. intros [].
        -- intros s'. rewrite Hs, Hown. cbn. split.
           ++ intros [<-|[]]. now right.
           ++ intros [(subs0 & Hown0 & _)|H]; [discriminate|].
              injection H as <-. now left.
      * eexists. split; [reflexivity|].
        apply (collected_visit seen acc r c _ [] Hr Hinh Hacc).
        -- intros k Hk. rewrite own_put.
           destruct (String.eqb_spec c k); [congruence|reflexivity].
        -- now rewrite own_put, String.eqb_refl.
        -- constructor.
        -- intros s'. rewrite Hs, Hown. cbn. split; [intros []|].
           intros [(subs0 & Hown0 & _)|H]; discriminate.
Qed.

Lemma forEach_collects rows : forall seen acc,
  (forall r, In r rows -> ~ throws r) -> collected seen acc ->
  exists out, TaskService.forEach acc rows = Some out
              /\ collected (seen ++ rows) out.
Proof.
  induction rows as [|r rows IH]; intros seen acc Hsafe Hacc.
  - exists acc. rewrite app_nil_r. now split.
  - destruct (visit_collects seen acc r (Hsafe r (or_introl eq_refl)) Hacc)
      as (acc' & Hv & Hacc').
    destruct (IH (seen ++ [r]) acc') as (out & Hout & Hcol);
      [intros r' Hr'; apply Hsafe; now right|exact Hacc'|].
    exists out. cbn [TaskService.forEach]. rewrite Hv.
    split; [exact Hout|]. now rewrite <- app_assoc in Hcol.
Qed.

Lemma collected_nil : collected [] (TaskService.mkCategoryData [] []).
Proof.
  unfold collected. cbn. split; [constructor|]. split; [|split].
  - intros c. split; [intros []|intros (r & [] & _)].
  - intros c [].
  - intros c subs H. discriminate.
Qed.

(** X17: what [fetchCategoryData] collects. When no row names both a
    subcategory and a category that the map answers for through
    [Object.prototype], the call returns: the category options are, without
    repeats, exactly the non-empty categories of the rows; every option
    other than such a prototype name has an entry in the subcategory map;
    and every entry of the map lists, without repeats, exactly the
    non-empty subcategories of the rows of that category. *)
Theorem fetchCategoryData_collects rows :
  (forall r, In r rows -> ~ throws r) ->
  exists out,
    TaskService.fetchCategoryData (Some rows) = Some out
    /\ NoDup (TaskService.categoryOptions out)
    /\ (forall c, In c (TaskService.categoryOptions out)
                  <-> exists r, In r rows /\ TaskService.names_category c r)
    /\ (forall c, In c (TaskService.categoryOptions out) ->
                  TaskService.inherited c = false ->
                  exists subs, TaskService.own (TaskService.subcategoryMap out) c
                               = Some subs)
    /\ (forall c subs,
          TaskService.own (TaskService.subcategoryMap out) c = Some subs ->
          NoDup subs
          /\ forall s, In s subs
                       <-> exists r, In r rows
                                     /\ TaskService.names_subcategory c s r).
Proof.
  intros Hsafe.
  destruct (forEach_collects rows [] _ Hsafe collected_nil)
    as (out & Hout & H1 & H2 & H3 & H4).
  exists out. cbn [app] in *. split; [exact Hout|]. split; [exact H1|].
  split; [exact H2|]. split; [exact H3|].
  intros c subs Hown. destruct (H4 c subs Hown) as (_ & Hnd & Hiff). now split.
Qed.

Lemma sample_rows_do_not_throw : forall r, In r sample_rows -> ~ throws r.
Proof.
  intros r Hr (c & s & Hc & Hinh & _).
  repeat (destruct Hr as [<-|Hr];
          [cbn in Hc; try discriminate Hc; injection Hc as <-;
           discriminate Hinh|]).
  destruct Hr.
Qed.

Lemma fetchCategoryData_collects_witness :
  (forall r, In r sample_rows -> ~ throws r)
  /\ exists out,
       TaskService.fetchCategoryData (Some sample_rows) = Some out
       /\ NoDup (TaskService.categoryOptions out).
Proof.
  split; [exact sample_rows_do_not_throw|].
  destruct (fetchCategoryData_collects sample_rows sample_rows_do_not_throw)
    as (out & Hout & Hnd & _).
  exists out. now split.
Defined.

Lemma visit_keeps_prototype_names acc r acc' :
  (forall c, TaskService.inherited c = true ->
             TaskService.own (TaskService.subcategoryMap acc) c = None) ->
  TaskService.visit acc r = Some acc' ->
  forall c, TaskService.inherited c = true ->
            TaskService.own (TaskService.subcategoryMap acc') c = None.
Proof.
  intros Hinv Hv c Hc. unfold TaskService.visit in Hv.
  destruct (TaskService.truthy (TaskService.r_category r)) as [k|];
    [|injection Hv as <-; now apply Hinv].
  assert (Hput : forall v,
             TaskService.inherited k = false ->
             TaskService.own
               (TaskService.put (TaskService.subcategoryMap acc) k v) c = None).
  { intros v Hk. rewrite own_put.
    destruct (String.eqb_spec k c); [congruence|now apply Hinv]. }
  destruct (TaskService.own (TaskService.subcategoryMap acc) k) as [subs|] eqn:Hown.
  - assert (Hk : TaskService.inherited k = false).
    { destruct (TaskService.inherited k) eqn:E; [|reflexivity].
      rewrite (Hinv k E) in Hown. discriminate. }
    destruct (TaskService.truthy (TaskService.r_subcategory r)) as [s|];
      [destruct (TaskService.includes subs s)|];
      injection Hv as <-; cbn [TaskService.subcategoryMap];
      first [now apply Hinv | now apply Hput].
  - destruct (TaskService.inherited k) eqn:Hk;
      destruct (TaskService.truthy (TaskService.r_subcategory r)) as [s|];
      try discriminate Hv;
      injection Hv as <-; cbn [TaskService.subcategoryMap];
      first [now apply Hinv | now apply Hput].
Qed.

Lemma forEach_throws rows : forall acc r,
  (forall c, TaskService.inherited c = true ->
             TaskService.own (TaskService.subcategoryMap acc) c = None) ->
  In r rows -> throws r -> TaskService.forEach acc rows = None.
Proof.
  induction rows as [|r0 rows IH]; intros acc r Hinv Hin Hthrows; [destruct Hin|].
  cbn [TaskService.forEach].
  destruct (TaskService.visit acc r0) as [acc'|] eqn:Hv; [|reflexivity].
  destruct Hin as [->|Hin].
  - exfalso. destruct Hthrows as (c & s & Hc & Hinh & Hs).
    unfold TaskService.visit in Hv. rewrite Hc, (Hinv c Hinh), Hinh, Hs in Hv.
    discriminate.
  - apply (IH acc' r); [|exact Hin|exact Hthrows].
    now apply (visit_keeps_prototype_names acc r0).
Qed.

(** X18: one row can fail the whole load. If any row names a category that
    every object answers for through [Object.prototype] ("constructor",
    "toString", "__proto__", ...) together with a non-empty subcategory,
    [fetchCategoryData] throws and returns no options at all, whatever the
    other rows are; a failed selection (null data) gives empty options. *)
Theorem fetchCategoryData_throws_on_prototype_name rows r :
  In r rows -> throws r ->
  TaskService.fetchCategoryData (Some rows) = None
  /\ TaskService.fetchCategoryData None
     = Some (TaskService.mkCategoryData [] []).
Proof.
  intros Hin Hthrows. split; [|reflexivity].
  apply (forEach_throws rows _ r); [reflexivity|exact Hin|exact Hthrows].
Qed.

Lemma fetchCategoryData_throws_on_prototype_name_witness :
  In (TaskService.mkRow (Some "constructor") (Some "Villas"))
     (sample_rows ++ [TaskService.mkRow (Some "constructor") (Some "Villas")])
  /\ throws (TaskService.mkRow (Some "constructor") (Some "Villas"))
  /\ TaskService.fetchCategoryData
       (Some (sample_rows
              ++ [TaskService.mkRow (Some "constructor") (Some "Villas")]))
     = None.
Proof.
  assert (H1 : In (TaskService.mkRow (Some "constructor") (Some "Villas"))
                  (sample_rows
                   ++ [TaskService.mkRow (Some "constructor") (Some "Villas")]))
    by (apply in_or_app; right; now left).
  assert (H2 : throws (TaskService.mkRow (Some "constructor") (Some "Villas")))
    by (exists "constructor", "Villas"; repeat split).
  split; [exact H1|]. split; [exact H2|].
  exact (proj1 (fetchCategoryData_throws_on_prototype_name _ _ H1 H2)).
Defined.

(** * The task detail modal *)

Lemma email_or_anonymous_not_empty user :
  Modal.email_or_anonymous user <> "".
Proof.
  unfold Modal.email_or_anonymous.
  destruct user as [[i [e|]]|]; cbn; try discriminate.
  destruct (String.eqb_spec e ""); [discriminate|assumption].
Qed.

(** X19: the modal only writes top-level comments. [handleAddComment] first
    asks who is signed in and then issues exactly one insert, whose row
    carries the opened task, the draft text as content, a null parent
    reference and an author e-mail that is never empty ("Anonymous" when
    nobody is signed in or the user has no e-mail); the comments are
    selected again only if the insert succeeded. *)
Theorem handleAddComment_inserts_top_level be taskId s :
  let row := Modal.new_comment be taskId (Modal.comment s) in
  Modal.calls_of (Modal.handleAddComment be taskId) s
  = [Modal.auth_getUser; Modal.insert_comment row]
    ++ match Modal.on_insert_comment be row with
       | Success _ => [Modal.select_comments taskId]
       | Failure _ => []
       end
  /\ Modal.n_parent_id row = None
  /\ Modal.n_content row = Modal.comment s
  /\ Modal.n_task_id row = taskId
  /\ Modal.n_user_email row <> ""
  /\ (Modal.on_getUser be = None -> Modal.n_user_email row = "Anonymous").
Proof.
  intros row. split.
  - unfold Modal.calls_of, Modal.effects_of, Modal.handleAddComment.
    fold row. destruct (Modal.on_insert_comment be row) as [u|e] eqn:E.
    + unfold Modal.fetchComments.
      destruct (Modal.on_select_comments be taskId) as [[data|]|]; reflexivity.
    + reflexivity.
  - split; [reflexivity|]. split; [reflexivity|]. split; [reflexivity|].
    split; [apply email_or_anonymous_not_empty|].
    intros H. unfold row, Modal.new_comment. cbn. now rewrite H.
Qed.

(** X20: a failed add keeps the draft. If the insert fails,
    [handleAddComment] leaves the draft text and the comments shown as they
    were and shows one error toast; if it succeeds, the draft is cleared,
    one success toast is shown and the comments shown become the answer of
    the new selection, or stay as they were when that selection fails.
    Either way [loadingComment] ends false and nothing else of the modal
    changes. *)
Theorem handleAddComment_outcome be taskId s :
  let row := Modal.new_comment be taskId (Modal.comment s) in
  let s' := Modal.state_after (Modal.handleAddComment be taskId) s in
  (forall e, Modal.on_insert_comment be row = Failure e ->
     s' = Modal.setLoadingComment false s
     /\ Modal.effects_of (Modal.handleAddComment be taskId) s
        = [Modal.Remote Modal.auth_getUser;
           Modal.Remote (Modal.insert_comment row);
           Modal.ToastError "Failed to add comment"])
  /\ (Modal.on_insert_comment be row = Success tt ->
      s' = Modal.setLoadingComment false
             (Modal.setComments
                match Modal.on_select_comments be taskId with
                | Success (Some data) => data
                | _ => Modal.comments s
                end
                (Modal.setComment "" s))
      /\ In (Modal.ToastSuccess "Comment added!")
            (Modal.effects_of (Modal.handleAddComment be taskId) s)).
Proof.
  intros row s'. split.
  - intros e He. unfold s', Modal.state_after, Modal.effects_of,
      Modal.handleAddComment. fold row. rewrite He. split; reflexivity.
  - intros Hok. unfold s', Modal.state_after, Modal.effects_of,
      Modal.handleAddComment. fold row. rewrite Hok.
    unfold Modal.fetchComments.
    destruct (Modal.on_select_comments be taskId) as [[data|]|];
      (split; [reflexivity|cbn; tauto]).
Qed.

Lemma handleAddComment_outcome_witness :
  Modal.on_insert_comment modal_down
    (Modal.new_comment modal_down (Some "7") (Modal.comment busy_modal))
  = Failure "offline"
  /\ Modal.comment
       (Modal.state_after (Modal.handleAddComment modal_down (Some "7"))
                          busy_modal)
     = "Please add a deadline".
Proof.
  split; [reflexivity|].
  exact (f_equal Modal.comment
           (proj1 (proj1 (handleAddComment_outcome modal_down (Some "7")
                            busy_modal) "offline" eq_refl))).
Defined.

(** X21: a failed save keeps the editor open. [handleSaveEdit] sends the
    text of the editor in one update call. If the update fails, the comment
    being edited, the editor text and the comments shown stay as they were
    and one error toast is shown; if it succeeds, the editor is closed and
    emptied and the comments are selected again. [editingLoading] ends
    false either way. *)
Theorem handleSaveEdit_outcome be taskId comment_id now s :
  let op := Modal.handleSaveEdit be taskId comment_id now in
  let s' := Modal.state_after op s in
  (exists rest,
     Modal.calls_of op s
     = Modal.update_comment comment_id (Modal.editingContent s) now :: rest)
  /\ Modal.editingLoading s' = false
  /\ (forall e, Modal.on_update_comment be comment_id (Modal.editingContent s) now
                = Failure e ->
        s' = Modal.setEditingLoading false s
        /\ Modal.effects_of op s
           = [Modal.Remote (Modal.update_comment comment_id
                              (Modal.editingContent s) now);
              Modal.ToastError "Failed to update comment"])
  /\ (Modal.on_update_comment be comment_id (Modal.editingContent s) now
      = Success tt ->
      Modal.editingCommentId s' = None
      /\ Modal.editingContent s' = ""
      /\ Modal.comments s'
         = match Modal.on_select_comments be taskId with
           | Success (Some data) => data
           | _ => Modal.comments s
           end
      /\ Modal.calls_of op s
         = [Modal.update_comment comment_id (Modal.editingContent s) now;
            Modal.select_comments taskId]).
Proof.
  intros op s'. unfold s', op, Modal.state_after, Modal.calls_of,
    Modal.effects_of, Modal.handleSaveEdit, Modal.fetchComments.
  destruct (Modal.on_update_comment be comment_id (Modal.editingContent s) now)
    as [[]|e] eqn:E.
  - destruct (Modal.on_select_comments be taskId) as [[data|]|];
      (split; [eexists; reflexivity|]);
      (split; [reflexivity|]);
      (split; [intros e He; discriminate He|]);
      intros _; repeat split.
  - split; [eexists; reflexivity|]. split; [reflexivity|].
    split; [|intros H; discriminate H].
    intros e' He'. split; reflexivity.
Qed.

Lemma handleSaveEdit_outcome_witness :
  Modal.on_update_comment modal_down "c1" (Modal.editingContent busy_modal)
    "2024-05-03T08:00:00.000Z" = Failure "offline"
  /\ Modal.editingCommentId
       (Modal.state_after
          (Modal.handleSaveEdit modal_down (Some "7") "c1"
                                "2024-05-03T08:00:00.000Z") busy_modal)
     = Some "c1".
Proof.
  split; [reflexivity|].
  exact (f_equal Modal.editingCommentId
           (proj1 (proj1 (proj2 (proj2
              (handleSaveEdit_outcome modal_down (Some "7") "c1"
                 "2024-05-03T08:00:00.000Z" busy_modal)))
              "offline" eq_refl))).
Defined.

(** X22: the delete dialog. With the dialog closed, asking to delete and
    then cancelling leaves the modal as it was, with no remote call. Asking
    to delete a comment and then confirming issues exactly one delete call,
    for that comment, and closes the dialog whether the delete succeeds or
    fails; the comments are selected again only after a successful delete.
    Confirming with no comment pending does nothing. *)
Theorem delete_dialog be taskId comment_id s :
  Modal.showDeleteModal s = false -> Modal.commentIdToDelete s = None ->
  comment_id <> "" ->
  let asked := Modal.state_after (Modal.confirmDelete comment_id) s in
  let s' := Modal.state_after (Modal.proceedToDelete be taskId) asked in
  Modal.showDeleteModal asked = true
  /\ Modal.state_after Modal.cancelDelete asked = s
  /\ Modal.effects_of Modal.cancelDelete asked = []
  /\ Modal.calls_of (Modal.proceedToDelete be taskId) asked
     = Modal.delete_comment comment_id
       :: match Modal.on_delete_comment be comment_id with
          | Success _ => [Modal.select_comments taskId]
          | Failure _ => []
          end
  /\ Modal.showDeleteModal s' = false
  /\ Modal.commentIdToDelete s' = None
  /\ (forall e, Modal.on_delete_comment be comment_id = Failure e ->
                Modal.comments s' = Modal.comments s)
  /\ Modal.proceedToDelete be taskId s = (s, []).
Proof.
  intros Hclosed Hnone Hid asked s'.
  assert (Hpending : Modal.commentIdToDelete asked = Some comment_id)
    by reflexivity.
  assert (Heqb : String.eqb comment_id "" = false)
    by (now apply String.eqb_neq).
  split; [reflexivity|].
  split; [destruct s; cbn in *; now subst|].
  split; [reflexivity|].
  unfold s', Modal.state_after, Modal.calls_of, Modal.effects_of,
    Modal.proceedToDelete.
  rewrite Hpending, Heqb, Hnone.
  unfold Modal.handleDeleteComment, Modal.fetchComments.
  destruct (Modal.on_delete_comment be comment_id) as [u|e].
  - destruct (Modal.on_select_comments be taskId) as [[data|]|];
      repeat split; intros e He; discriminate He.
  - repeat split.
Qed.

Lemma delete_dialog_witness :
  Modal.showDeleteModal busy_modal = false
  /\ Modal.commentIdToDelete busy_modal = None
  /\ "c2" <> ""
  /\ Modal.calls_of (Modal.proceedToDelete (modal_ok []) (Some "7"))
       (Modal.state_after (Modal.confirmDelete "c2") busy_modal)
     = [Modal.delete_comment "c2"; Modal.select_comments (Some "7")].
Proof.
  assert (H : "c2" <> "") by discriminate.
  split; [reflexivity|]. split; [reflexivity|]. split; [exact H|].
  exact (proj1 (proj2 (proj2 (proj2
    (delete_dialog (modal_ok []) (Some "7") "c2" busy_modal
       eq_refl eq_refl H))))).
Defined.

(** X23: refetches fail silently. When [get_task_detail] answers with an
    error, with null or with no row, [fetchTaskDetails] keeps the task
    shown and only clears [loadingTask]; when the comment selection answers
    with an error or null, [fetchComments] keeps the comments shown. Neither
    shows a toast. A detail answer with rows shows its first row. *)
Theorem refetch_failures_are_silent be taskId s :
  (forall first rest,
     Modal.on_get_task_detail be taskId = Success (Some (first :: rest)) ->
     Modal.state_after (Modal.fetchTaskDetails be taskId) s
     = Modal.setLoadingTask false (Modal.setTask (Some first) s))
  /\ ((forall first rest, Modal.on_get_task_detail be taskId
                          <> Success (Some (first :: rest))) ->
      Modal.state_after (Modal.fetchTaskDetails be taskId) s
      = Modal.setLoadingTask false s)
  /\ Modal.effects_of (Modal.fetchTaskDetails be taskId) s
     = [Modal.Remote (Modal.get_task_detail taskId)]
  /\ ((forall data, Modal.on_select_comments be taskId <> Success (Some data)) ->
      Modal.state_after (Modal.fetchComments be taskId) s = s)
  /\ Modal.effects_of (Modal.fetchComments be taskId) s
     = [Modal.Remote (Modal.select_comments taskId)].
Proof.
  unfold Modal.state_after, Modal.effects_of, Modal.fetchTaskDetails,
    Modal.fetchComments.
  split; [intros first rest ->; reflexivity|].
  split.
  { intros Hno.
    destruct (Modal.on_get_task_detail be taskId) as [[[|first rest]|]|e] eqn:E;
      try (now destruct s).
    exfalso. exact (Hno first rest eq_refl). }
  split.
  { destruct (Modal.on_get_task_detail be taskId) as [[[|first rest]|]|e];
      reflexivity. }
  split.
  { intros Hno.
    destruct (Modal.on_select_comments be taskId) as [[data|]|e] eqn:E;
      try reflexivity.
    exfalso. exact (Hno data eq_refl). }
  destruct (Modal.on_select_comments be taskId) as [[data|]|e]; reflexivity.
Qed.

Lemma refetch_failures_are_silent_witness :
  (forall data, Modal.on_select_comments modal_down (Some "7")
                <> Success (Some data))
  /\ Modal.state_after (Modal.fetchComments modal_down (Some "7")) busy_modal
     = busy_modal.
Proof.
  assert (H : forall data, Modal.on_select_comments modal_down (Some "7")
                           <> Success (Some data))
    by (intros data; discriminate).
  split; [exact H|].
  exact (proj1 (proj2 (proj2 (proj2
    (refetch_failures_are_silent modal_down (Some "7") busy_modal)))) H).
Defined.

(** X24: the status select. [handleStatusChange] issues one update of the
    task's status between switching the loader on and off. If the update
    fails, the task shown is unchanged, [onStatusChange] is not called and
    one error toast is shown; if it succeeds, the task shown is the
    rendered task with the new status and [onStatusChange], when given, is
    called exactly once, with that task. *)
Theorem handleStatusChange_outcome be taskId task hasCallback newStatus s :
  let op := Modal.handleStatusChange be taskId task hasCallback newStatus in
  (exists rest,
     Modal.effects_of op s
     = Modal.SetLoading true
       :: Modal.Remote (Modal.update_project_status taskId newStatus)
       :: Modal.SetLoading false :: rest)
  /\ (forall e, Modal.on_update_project_status be taskId newStatus = Failure e ->
        Modal.state_after op s = s
        /\ Modal.effects_of op s
           = [Modal.SetLoading true;
              Modal.Remote (Modal.update_project_status taskId newStatus);
              Modal.SetLoading false;
              Modal.ToastError "Failed to update status"])
  /\ (Modal.on_update_project_status be taskId newStatus = Success tt ->
      Modal.state_after op s
      = Modal.setTask (Some (with_status task newStatus)) s
      /\ filter (fun e => match e with Modal.OnStatusChange _ => true
                                     | _ => false end)
                (Modal.effects_of op s)
         = if hasCallback
           then [Modal.OnStatusChange (with_status task newStatus)]
           else []).
Proof.
  intros op. unfold op, Modal.state_after, Modal.effects_of,
    Modal.handleStatusChange.
  destruct (Modal.on_update_project_status be taskId newStatus) as [[]|e].
  - split; [eexists; reflexivity|].
    split; [intros e He; discriminate He|].
    intros _. destruct hasCallback; split; reflexivity.
  - split; [eexists; reflexivity|].
    split; [|intros H; discriminate H].
    intros e' _. split; reflexivity.
Qed.

Lemma handleStatusChange_outcome_witness :
  Modal.on_update_project_status modal_down (Some "7") "Done" = Failure "offline"
  /\ Modal.state_after
       (Modal.handleStatusChange modal_down (Some "7") (sample_task 7 "To Do")
                                 true "Done") busy_modal
     = busy_modal.
Proof.
  split; [reflexivity|].
  exact (proj1 (proj1 (proj2
    (handleStatusChange_outcome modal_down (Some "7") (sample_task 7 "To Do")
       true "Done" busy_modal)) "offline" eq_refl)).
Defined.

(** * Further properties of the comment thread *)

Lemma sequence_map_from {A B} (g : A -> option B) l r :
  sequence (map g l) = Some r ->
  forall b, In b r -> exists a, In a l /\ g a = Some b.
Proof.
  intros H. apply sequence_map_some in H.
  induction H as [|a b l r Hab _ IH]; intros x Hx; [destruct Hx|].
  destruct Hx as [<-|Hx].
  - exists a. split; [now left|exact Hab].
  - destruct (IH x Hx) as (a' & Ha' & Hg). exists a'. split; [now right|exact Hg].
Qed.

Lemma rendered_reach_top fuel comments :
  forall parentId forest,
    renderComments fuel comments parentId = Some forest ->
    (forall c, In c comments -> parent_id c = parentId ->
               reaches_top comments c) ->
    forall b, In b (all_boxes forest) ->
              In (box_comment b) comments
              /\ reaches_top comments (box_comment b).
Proof.
  induction fuel as [|fuel IH]; intros parentId forest H Hroot b Hb;
    [discriminate|].
  rewrite renderComments_S in H.
  unfold all_boxes in Hb. apply in_flat_map in Hb.
  destruct Hb as (top & Htop & Hb).
  destruct (sequence_map_from _ _ _ H top Htop) as (c & Hc & Hbox).
  apply box_of_comment in Hbox. destruct Hbox as [Hcomment Hreplies].
  apply filter_In in Hc. destruct Hc as [Hin Hparent].
  apply same_parent_true in Hparent.
  assert (Hreach : reaches_top comments c) by now apply Hroot.
  destruct top as [c0 replies]. cbn in Hcomment, Hreplies, Hb. subst c0.
  destruct Hb as [<-|Hb]; [now split|].
  apply (IH (Some (c_id c)) replies Hreplies).
  - intros d Hd Hpd. now apply (@reaches_top_reply comments d c).
  - exact Hb.
Qed.

(** X25: nothing is rendered out of place. In a completed rendering every
    box shows a comment of the list whose parent references lead, inside
    the list, to a top-level comment, and every box nested in the reply
    area of a box shows a comment whose parent reference is the id of that
    box's comment. *)
Theorem rendered_comments_are_in_place fuel comments forest :
  renderComments fuel comments None = Some forest ->
  forall b, In b (all_boxes forest) ->
    In (box_comment b) comments
    /\ reaches_top comments (box_comment b)
    /\ forall r, In r (box_replies b) ->
                 parent_id (box_comment r) = Some (c_id (box_comment b)).
Proof.
  intros H b Hb.
  destruct (rendered_reach_top fuel comments None forest H) with (b := b)
    as [Hin Hreach]; [|exact Hb|].
  { intros c Hc Hp. now apply reaches_top_root. }
  split; [exact Hin|]. split; [exact Hreach|].
  intros r Hr.
  destruct (renderComments_shape fuel comments None forest H) as [_ Hdeep].
  assert (Hc : In (box_comment r) (map box_comment (box_replies b)))
    by now apply in_map.
  rewrite (Hdeep b Hb) in Hc. apply filter_In in Hc.
  now apply same_parent_true.
Qed.

Lemma rendered_comments_are_in_place_witness :
  renderComments 3 small_thread None
  = Some [CommentBox (sample_comment "c1" None)
            [CommentBox (sample_comment "c2" (Some "c1")) []]]
  /\ reaches_top small_thread (sample_comment "c2" (Some "c1")).
Proof.
  split; [reflexivity|].
  refine (proj1 (proj2
    (rendered_comments_are_in_place 3%nat small_thread _ eq_refl
       (CommentBox (sample_comment "c2" (Some "c1")) []) _))).
  cbn. right. now left.
Defined.

(** X26: every level keeps the order of the list. In a completed rendering
    the top-level boxes are, in the order of the flat list, exactly its
    comments with a null parent, and the reply area of every box holds, in
    the order of the flat list, exactly the comments whose parent
    reference is the id of the box's comment. *)
Theorem rendering_keeps_list_order fuel comments forest :
  renderComments fuel comments None = Some forest ->
  map box_comment forest
    = filter (fun c => same_parent (parent_id c) None) comments
  /\ forall b, In b (all_boxes forest) ->
       map box_comment (box_replies b)
       = filter (fun c => same_parent (parent_id c)
                                      (Some (c_id (box_comment b))))
                comments.
Proof. apply renderComments_shape. Qed.

Lemma rendering_keeps_list_order_witness :
  renderComments 3 small_thread None
  = Some [CommentBox (sample_comment "c1" None)
            [CommentBox (sample_comment "c2" (Some "c1")) []]]
  /\ map box_comment
       [CommentBox (sample_comment "c1" None)
          [CommentBox (sample_comment "c2" (Some "c1")) []]]
     = filter (fun c => same_parent (parent_id c) None) small_thread.
Proof.
  split; [reflexivity|].
  exact (proj1 (rendering_keeps_list_order 3%nat small_thread _ eq_refl)).
Defined.

Lemma sequence_map_all {A B} (g : A -> option B) (h : A -> B) l :
  (forall a, g a = Some (h a)) -> sequence (map g l) = Some (map h l).
Proof.
  intros H. induction l as [|a l IH]; [reflexivity|].
  cbn [map sequence]. now rewrite H, IH.
Qed.

(** X27: a thread without replies renders flat. When every comment of the
    list has a null parent reference, as every comment written through the
    modal has, a call depth of two completes the rendering, which is the
    list itself, in order, each comment in a box with an empty reply
    area. *)
Theorem top_level_comments_render_flat fuel comments :
  (forall c, In c comments -> parent_id c = None) ->
  renderComments (S (S fuel)) comments None
  = Some (map (fun c => CommentBox c []) comments).
Proof.
  intros Hall.
  assert (Hnone : forall i, filter (fun c => same_parent (parent_id c) (Some i))
                                   comments = []).
  { intros i. apply existsb_filter_nil.
    destruct (existsb (fun c => same_parent (parent_id c) (Some i)) comments)
      eqn:E; [|reflexivity].
    apply existsb_exists in E. destruct E as (c & Hc & Hp).
    rewrite (Hall c Hc) in Hp. discriminate. }
  assert (Htop : filter (fun c => same_parent (parent_id c) None) comments
                 = comments).
  { apply filter_all. intros c Hc. now rewrite (Hall c Hc). }
  rewrite renderComments_S, Htop.
  apply sequence_map_all.
  intros c. now rewrite renderComments_S, Hnone.
Qed.

Lemma top_level_comments_render_flat_witness :
  (forall c, In c [sample_comment "c1" None; sample_comment "c4" None] ->
             parent_id c = None)
  /\ renderComments 2 [sample_comment "c1" None; sample_comment "c4" None] None
     = Some [CommentBox (sample_comment "c1" None) [];
             CommentBox (sample_comment "c4" None) []].
Proof.
  assert (H : forall c,
             In c [sample_comment "c1" None; sample_comment "c4" None] ->
             parent_id c = None)
    by (intros c [<-|[<-|[]]]; reflexivity).
  split; [exact H|].
  exact (top_level_comments_render_flat 0%nat _ H).
Defined.

(** * Further properties of the modal *)

Lemma handleAddComment_inserts_top_level_witness :
  Modal.on_getUser modal_down = None
  /\ Modal.n_user_email
       (Modal.new_comment modal_down (Some "7") (Modal.comment busy_modal))
     = "Anonymous".
Proof.
  split; [reflexivity|].
  exact (proj2 (proj2 (proj2 (proj2 (proj2
    (handleAddComment_inserts_top_level modal_down (Some "7") busy_modal)))))
    eq_refl).
Defined.

(** X28: the suggestion button. [handleAskAI] makes one request, for the
    task shown. If the request throws, the suggestion shown stays as it was
    and one error toast is shown; if it answers, the answer becomes the
    suggestion shown. [aiLoading] ends false either way, and nothing else
    of the modal changes. *)
Theorem handleAskAI_outcome be s :
  (forall e, Modal.on_askAIForTask be (Modal.task s) = Failure e ->
     Modal.state_after (Modal.handleAskAI be) s = Modal.setAiLoading false s
     /\ Modal.effects_of (Modal.handleAskAI be) s
        = [Modal.Remote (Modal.askAIForTask (Modal.task s));
           Modal.ToastError "AI suggestion failed"])
  /\ (forall suggestion,
        Modal.on_askAIForTask be (Modal.task s) = Success suggestion ->
        Modal.state_after (Modal.handleAskAI be) s
        = Modal.setAiLoading false (Modal.setAiAnswer (Some suggestion) s)
        /\ Modal.effects_of (Modal.handleAskAI be) s
           = [Modal.Remote (Modal.askAIForTask (Modal.task s))]).
Proof.
  unfold Modal.state_after, Modal.effects_of, Modal.handleAskAI.
  split; [intros e ->|intros suggestion ->]; split; reflexivity.
Qed.

Lemma handleAskAI_outcome_witness :
  Modal.on_askAIForTask modal_down (Modal.task busy_modal) = Failure "offline"
  /\ Modal.aiAnswer (Modal.state_after (Modal.handleAskAI modal_down) busy_modal)
     = None.
Proof.
  split; [reflexivity|].
  exact (f_equal Modal.aiAnswer
           (proj1 (proj1 (handleAskAI_outcome modal_down busy_modal)
                     "offline" eq_refl))).
Defined.
